(** * Photo background editor: the editing-session core

    A shallow embedding of the session reducer and its handlers
    (app/page.tsx), the retrying processing client
    (lib/backgroundRemoval.ts) and the composition helpers
    (lib/imageProcessing.ts), followed by the properties the design
    document states about them.

    Number model.  TypeScript's [number] is an IEEE double; here numbers
    are rationals [Q], and the attempt counter, retry budget and delays
    are integers [Z] (all integers the code computes there are exactly
    representable).  Equality of computed rationals is [Qeq], written [==].
    Where the result of an operation is read back to the digit (the
    thumbnail and canvas sizes, the keyboard handler, the scale of a
    background image) the operation is followed by [Js.double], the
    rounding to the nearest double that the code's arithmetic performs;
    elsewhere a rational stands for the exact value that the code's
    double approximates. *)

From Stdlib Require Import ZArith QArith Qminmax Qround Qabs Qpower List String Bool.
From Stdlib Require Import Lia Lqa.
From Stdlib Require Import DecimalString.
From Equations Require Import Equations.
Import ListNotations.

Local Open Scope string_scope.

(* ------------------------------------------------------------------ *)
(** ** Platform objects the code handles by reference *)

Module Dom.

(** An [HTMLImageElement], as far as the code reads it. *)
Record HTMLImageElement : Type := mkImage
  { src : string; width : Q; height : Q }.

Record File : Type := mkFile
  { file_name : string; file_type : string; file_size : Z }.

Record Blob : Type := mkBlob
  { blob_type : string; blob_size : Z }.

(** An [HTMLCanvasElement]: its own [width] and [height]. *)
Record HTMLCanvasElement : Type := mkCanvasElement
  { canvas_width : Q; canvas_height : Q }.

End Dom.

(* ------------------------------------------------------------------ *)
(** ** Values a [catch] clause can receive *)

Module Js.

(** A thrown value is either an [Error] object, of which the code reads
    only [message], or anything else. *)
Inductive Thrown : Type :=
| ErrorObject (message : string)
| OtherValue (shown : string).

(** [s.includes(sub)]. *)
Definition includes (s sub : string) : bool :=
  match String.index 0 sub s with
  | Some _ => true
  | None => false
  end.

(** Template interpolation of an integer. *)
Definition showZ (n : Z) : string := NilZero.string_of_int (Z.to_int n).

(** [a.join(sep)]. *)
Fixpoint join (sep : string) (a : list string) : string :=
  match a with
  | [] => ""
  | [s] => s
  | s :: rest => s ++ sep ++ join sep rest
  end.

(** [a.includes(s)] on an array of strings. *)
Definition includesElement (a : list string) (s : string) : bool :=
  existsb (String.eqb s) a.

(** [a > b] on numbers. *)
Definition gt (a b : Q) : bool := negb (Qle_bool a b).

(** [a < b] on numbers. *)
Definition lt (a b : Q) : bool := negb (Qle_bool b a).

(** [v || d] on numbers: [d] when [v] is zero. *)
Definition orElse (v d : Q) : Q := if Qeq_bool v 0 then d else v.

(** [Math.round]: the nearest integer, halves going up. *)
Definition round (a : Q) : Z := Qfloor (a + (1 # 2)).

(** *** Doubles

    The result of an arithmetic operation on doubles is the exact result
    rounded to the nearest double, ties going to the even significand. *)

(** The binary exponent of a positive number: the [e] with
    [2^e <= x < 2^(e+1)]. *)
Definition exponent (x : Q) : Z :=
  let e := (Z.log2 (Qnum x) - Z.log2 (Z.pos (Qden x)))%Z in
  if Qle_bool (2 ^ e) x then e else (e - 1)%Z.

(** The nearest integer, halves going to the even one. *)
Definition roundToEven (m : Q) : Z :=
  let f := Qfloor m in
  match (m - inject_Z f ?= 1 # 2)%Q with
  | Lt => f
  | Gt => (f + 1)%Z
  | Eq => if Z.even f then f else (f + 1)%Z
  end.

(** A positive number rounded to 53 significant bits. *)
Definition roundPositive (x : Q) : Q :=
  let e := exponent x in
  inject_Z (roundToEven (x * 2 ^ (52 - e))) * 2 ^ (e - 52).

(** The double nearest to [x].  The exponent is not bounded here: for
    magnitudes from 2^-1022 up to the largest double this is the value an
    operation with exact result [x] yields in the code; below that range
    (subnormal numbers) and above it (where the code gets [Infinity]) it
    is not, and a statement whose arithmetic could leave the range bounds
    its inputs. *)
Definition double (x : Q) : Q :=
  Qred match (0 ?= x)%Q with
       | Eq => 0
       | Lt => roundPositive x
       | Gt => - roundPositive (- x)
       end.

End Js.

(* ------------------------------------------------------------------ *)
(** ** The part of Fabric's canvas that [composeImage] touches *)

Module Fabric.

(** A [FabricImage] with the options the code passes to its constructor;
    [left], [top] and [angle] default to 0, the three flags to true.
    [scaleX] and [scaleY] are the values the object holds, see
    [heldScale]. *)
Record FabricImage : Type := mkFabricImage
  { element : Dom.HTMLImageElement;
    left : Q; top : Q;
    scaleX : Q; scaleY : Q;
    angle : Q;
    selectable : bool; evented : bool; hasControls : bool }.

Record Canvas : Type := mkCanvas
  { width : Q; height : Q;
    backgroundColor : string;
    backgroundImage : option FabricImage;
    objects : list FabricImage }.

(** Fabric's own treatment of a scale it is asked to set, in the
    constructor as in [set] and [scale] (library code outside the
    repository): zero becomes 0.0001, and a negative scale is stored as
    its absolute value, the object being flipped instead (the flip flags
    are not kept here; the code never reads them). *)
Definition heldScale (v : Q) : Q :=
  let v := if Qeq_bool v 0 then 0.0001 else v in
  if Js.lt v 0 then - v else v.

(** Fabric's [new Canvas(el, { width, height, backgroundColor })] (library
    code outside the repository): a width or height of 0 counts as not
    given, and the element's own size is taken instead. *)
Definition newCanvas (el : Dom.HTMLCanvasElement) (width height : Q)
    (backgroundColor : string) : Canvas :=
  {| width := Js.orElse width (Js.orElse (Dom.canvas_width el) 0);
     height := Js.orElse height (Js.orElse (Dom.canvas_height el) 0);
     backgroundColor := backgroundColor;
     backgroundImage := None;
     objects := [] |}.

(** [canvas.clear()]: drops every object and both backgrounds. *)
Definition clear (c : Canvas) : Canvas :=
  {| width := width c; height := height c;
     backgroundColor := "";
     backgroundImage := None;
     objects := [] |}.

Definition set_backgroundColor (c : Canvas) (v : string) : Canvas :=
  {| width := width c; height := height c;
     backgroundColor := v;
     backgroundImage := backgroundImage c;
     objects := objects c |}.

Definition set_backgroundImage (c : Canvas) (v : FabricImage) : Canvas :=
  {| width := width c; height := height c;
     backgroundColor := backgroundColor c;
     backgroundImage := Some v;
     objects := objects c |}.

(** [canvas.add(o)]: the object is appended; the caller's reference to it
    is its index in [objects]. *)
Definition add (c : Canvas) (o : FabricImage) : Canvas * nat :=
  ({| width := width c; height := height c;
      backgroundColor := backgroundColor c;
      backgroundImage := backgroundImage c;
      objects := (objects c ++ [o])%list |}, List.length (objects c)).

Fixpoint alter_nth {A : Type} (f : A -> A) (i : nat) (l : list A) : list A :=
  match l, i with
  | [], _ => []
  | a :: l', O => f a :: l'
  | a :: l', S i' => a :: alter_nth f i' l'
  end.

Section Geometry.

(** Fabric places an object by its origin corner.  [originOffset w h sx sy a]
    is the vector from that origin to the centre of an image of size
    [w] x [h] drawn with scale [(sx, sy)] and angle [a]; what it is
    depends on the Fabric release (the zero vector when the origin is
    the centre), so it stays a parameter. *)
Variable originOffset : Q -> Q -> Q -> Q -> Q -> Q * Q.

Definition offsetOf (o : FabricImage) : Q * Q :=
  originOffset (Dom.width (element o)) (Dom.height (element o))
               (scaleX o) (scaleY o) (angle o).

(** [object.getCenterPoint()]. *)
Definition getCenterPoint (o : FabricImage) : Q * Q :=
  (left o + fst (offsetOf o), top o + snd (offsetOf o)).

(** [canvas.getCenterPoint()]. *)
Definition canvasCenter (c : Canvas) : Q * Q :=
  (width c / 2, height c / 2).

Definition setCenter (p : Q * Q) (o : FabricImage) : FabricImage :=
  {| element := element o;
     left := fst p - fst (offsetOf o);
     top := snd p - snd (offsetOf o);
     scaleX := scaleX o; scaleY := scaleY o;
     angle := angle o;
     selectable := selectable o; evented := evented o;
     hasControls := hasControls o |}.

(** Modelled from the spec: Fabric's [canvas.centerObject(o)], which is
    library code outside the repository; it "re-centers [the object] on
    the surface", that is, it moves the object referred to (in place, so
    the copy held in [objects] changes) until its centre point is the
    centre of the canvas, and touches nothing else. *)
Definition centerObject (c : Canvas) (ref : nat) : Canvas :=
  {| width := width c; height := height c;
     backgroundColor := backgroundColor c;
     backgroundImage := backgroundImage c;
     objects := alter_nth (setCenter (canvasCenter c)) ref (objects c) |}.

End Geometry.

(** [object.set('left', v)]. *)
Definition set_left (o : FabricImage) (v : Q) : FabricImage :=
  {| element := element o; left := v; top := top o;
     scaleX := scaleX o; scaleY := scaleY o; angle := angle o;
     selectable := selectable o; evented := evented o;
     hasControls := hasControls o |}.

(** [object.set('top', v)]. *)
Definition set_top (o : FabricImage) (v : Q) : FabricImage :=
  {| element := element o; left := left o; top := v;
     scaleX := scaleX o; scaleY := scaleY o; angle := angle o;
     selectable := selectable o; evented := evented o;
     hasControls := hasControls o |}.

(** [object.scale(v)]: sets both scales. *)
Definition scale (o : FabricImage) (v : Q) : FabricImage :=
  {| element := element o; left := left o; top := top o;
     scaleX := heldScale v; scaleY := heldScale v; angle := angle o;
     selectable := selectable o; evented := evented o;
     hasControls := hasControls o |}.

End Fabric.

(* ------------------------------------------------------------------ *)
(** ** lib/types.ts *)

Module Types.

Record Transform : Type := mkTransform
  { x : Q; y : Q; scale : Q; rotation : Q }.

(** [Partial<Transform>]: every key may be absent. *)
Record PartialTransform : Type := mkPartial
  { x_opt : option Q; y_opt : option Q;
    scale_opt : option Q; rotation_opt : option Q }.

Record EditorState : Type := mkState
  { sourceImage : option Dom.HTMLImageElement;
    sourceFile : option Dom.File;
    processedImage : option Dom.HTMLImageElement;
    processedBlob : option Dom.Blob;
    backgroundColor : option string;
    backgroundImage : option Dom.HTMLImageElement;
    transform : Transform;
    isProcessing : bool;
    processingProgress : Q;
    error : option string;
    canvasRef : option Fabric.Canvas }.

Inductive EditorAction : Type :=
| SET_SOURCE_IMAGE (image : Dom.HTMLImageElement) (file : Dom.File)
| SET_PROCESSED_IMAGE (image : Dom.HTMLImageElement) (blob : Dom.Blob)
| SET_BACKGROUND_COLOR (payload : string)
| SET_BACKGROUND_IMAGE (payload : Dom.HTMLImageElement)
| UPDATE_TRANSFORM (payload : PartialTransform)
| SET_PROCESSING (payload : bool)
| SET_PROGRESS (payload : Q)
| SET_ERROR (payload : option string)
| RESET.

End Types.

(* ------------------------------------------------------------------ *)
(** ** app/page.tsx: the reducer *)

Module Page.
Import Types.

Definition initialState : EditorState :=
  {| sourceImage := None;
     sourceFile := None;
     processedImage := None;
     processedBlob := None;
     backgroundColor := None;
     backgroundImage := None;
     transform := {| x := 0; y := 0; scale := 1; rotation := 0 |};
     isProcessing := false;
     processingProgress := 0;
     error := None;
     canvasRef := None |}.

(** [revokeBlobUrl]: the URLs handed to [URL.revokeObjectURL], in order. *)
Definition revokeBlobUrl (image : option Dom.HTMLImageElement) : list string :=
  match image with
  | Some img => if String.prefix "blob:" (Dom.src img) then [Dom.src img] else []
  | None => []
  end.

(** Object spread [{...t, ...p}]. *)
Definition merge (t : Transform) (p : PartialTransform) : Transform :=
  {| x := match x_opt p with Some v => v | None => x t end;
     y := match y_opt p with Some v => v | None => y t end;
     scale := match scale_opt p with Some v => v | None => scale t end;
     rotation := match rotation_opt p with Some v => v | None => rotation t end |}.

(** [editorReducer], returning the next state together with the blob URLs
    it revoked on the way. *)
Definition editorReducer (state : EditorState) (action : EditorAction)
  : EditorState * list string :=
  match action with
  | SET_SOURCE_IMAGE image file =>
      ({| sourceImage := Some image;
          sourceFile := Some file;
          processedImage := processedImage state;
          processedBlob := processedBlob state;
          backgroundColor := backgroundColor state;
          backgroundImage := backgroundImage state;
          transform := transform state;
          isProcessing := isProcessing state;
          processingProgress := processingProgress state;
          error := None;
          canvasRef := canvasRef state |},
       revokeBlobUrl (sourceImage state))
  | SET_PROCESSED_IMAGE image blob =>
      ({| sourceImage := sourceImage state;
          sourceFile := sourceFile state;
          processedImage := Some image;
          processedBlob := Some blob;
          backgroundColor := backgroundColor state;
          backgroundImage := backgroundImage state;
          transform := transform state;
          isProcessing := false;
          processingProgress := 0;
          error := None;
          canvasRef := canvasRef state |},
       revokeBlobUrl (processedImage state))
  | SET_BACKGROUND_COLOR payload =>
      ({| sourceImage := sourceImage state;
          sourceFile := sourceFile state;
          processedImage := processedImage state;
          processedBlob := processedBlob state;
          backgroundColor := Some payload;
          backgroundImage := None;
          transform := transform state;
          isProcessing := isProcessing state;
          processingProgress := processingProgress state;
          error := error state;
          canvasRef := canvasRef state |},
       revokeBlobUrl (backgroundImage state))
  | SET_BACKGROUND_IMAGE payload =>
      ({| sourceImage := sourceImage state;
          sourceFile := sourceFile state;
          processedImage := processedImage state;
          processedBlob := processedBlob state;
          backgroundColor := None;
          backgroundImage := Some payload;
          transform := transform state;
          isProcessing := isProcessing state;
          processingProgress := processingProgress state;
          error := error state;
          canvasRef := canvasRef state |},
       revokeBlobUrl (backgroundImage state))
  | UPDATE_TRANSFORM payload =>
      ({| sourceImage := sourceImage state;
          sourceFile := sourceFile state;
          processedImage := processedImage state;
          processedBlob := processedBlob state;
          backgroundColor := backgroundColor state;
          backgroundImage := backgroundImage state;
          transform := merge (transform state) payload;
          isProcessing := isProcessing state;
          processingProgress := processingProgress state;
          error := error state;
          canvasRef := canvasRef state |},
       [])
  | SET_PROCESSING payload =>
      ({| sourceImage := sourceImage state;
          sourceFile := sourceFile state;
          processedImage := processedImage state;
          processedBlob := processedBlob state;
          backgroundColor := backgroundColor state;
          backgroundImage := backgroundImage state;
          transform := transform state;
          isProcessing := payload;
          processingProgress := processingProgress state;
          error := if payload then None else error state;
          canvasRef := canvasRef state |},
       [])
  | SET_PROGRESS payload =>
      ({| sourceImage := sourceImage state;
          sourceFile := sourceFile state;
          processedImage := processedImage state;
          processedBlob := processedBlob state;
          backgroundColor := backgroundColor state;
          backgroundImage := backgroundImage state;
          transform := transform state;
          isProcessing := isProcessing state;
          processingProgress := payload;
          error := error state;
          canvasRef := canvasRef state |},
       [])
  | SET_ERROR payload =>
      ({| sourceImage := sourceImage state;
          sourceFile := sourceFile state;
          processedImage := processedImage state;
          processedBlob := processedBlob state;
          backgroundColor := backgroundColor state;
          backgroundImage := backgroundImage state;
          transform := transform state;
          isProcessing := false;
          processingProgress := 0;
          error := payload;
          canvasRef := canvasRef state |},
       [])
  | RESET =>
      ({| sourceImage := sourceImage state;
          sourceFile := sourceFile state;
          processedImage := processedImage initialState;
          processedBlob := processedBlob initialState;
          backgroundColor := backgroundColor initialState;
          backgroundImage := backgroundImage initialState;
          transform := transform initialState;
          isProcessing := isProcessing initialState;
          processingProgress := processingProgress initialState;
          error := error initialState;
          canvasRef := canvasRef initialState |},
       (revokeBlobUrl (processedImage state) ++ revokeBlobUrl (backgroundImage state))%list)
  end.

(** The state part of one [dispatch]. *)
Definition reduce (state : EditorState) (action : EditorAction) : EditorState :=
  fst (editorReducer state action).

(** A run of dispatches, oldest first. *)
Definition dispatchAll (state : EditorState) (actions : list EditorAction)
  : EditorState :=
  fold_left reduce actions state.

(** The values of [processingProgress] seen after each of a run of
    [SET_PROGRESS] dispatches. *)
Fixpoint observedProgress (state : EditorState) (ticks : list Q) : list Q :=
  match ticks with
  | [] => []
  | p :: rest =>
      let state' := reduce state (SET_PROGRESS p) in
      processingProgress state' :: observedProgress state' rest
  end.

(** *** The component's callbacks

    Each callback of [PhotoBackgroundEditorContent] is listed with the
    dispatches it makes.  Asynchronous callbacks are split at their
    suspension points: the part that runs at once and the continuation
    that runs when the image has been decoded or the request has settled.
    [handleImageUpload_onload] stands for both ways an upload ends in
    [SET_SOURCE_IMAGE] (as it is, or resized); [handleRetry] runs the
    stored operation, which is [processRemoveBackground];
    [handleRemoveBackground] opens the confirmation dialog when there is a
    source file, and [handleDownload] dispatches nothing. *)

Inductive Callback : Type :=
| checkSupport_unsupported
| handleImageUpload
| handleImageUpload_onload (image : Dom.HTMLImageElement) (file : Dom.File)
| handleImageUpload_resized_onerror
| handleImageUpload_onload_catch
| handleImageUpload_onerror
| handleImageUpload_catch
| handleRemoveBackground
| processRemoveBackground
| processRemoveBackground_onProgress (progress : Q)
| processRemoveBackground_onload (submitted : nat)
    (image : Dom.HTMLImageElement) (blob : Dom.Blob)
| processRemoveBackground_onerror (submitted : nat)
| processRemoveBackground_catch (submitted : nat) (error : Js.Thrown)
| handleColorSelect (color : string)
| handleImageSelect_onload (image : Dom.HTMLImageElement)
| handleImageSelect_onerror
| handleImageSelect_catch
| handleTransformChange (transform : Transform)
| handleScaleChange (scale : Q)
| handleReset
| handleDismissError.

(** The message [processRemoveBackground] shows for a caught value. *)
Definition classify (error : Js.Thrown) : string :=
  match error with
  | Js.ErrorObject message =>
      if Js.includes message "WebGL" then
        "Your browser does not support the required features. Please try a different browser."
      else if Js.includes message "memory" then
        "The image is too large to process. Please try a smaller image."
      else if Js.includes message "network" then
        "Network error occurred. Please check your connection and try again."
      else message
  | Js.OtherValue _ => "Failed to remove background. Please try again."
  end.

Definition whole (t : Transform) : PartialTransform :=
  {| x_opt := Some (x t); y_opt := Some (y t);
     scale_opt := Some (scale t); rotation_opt := Some (rotation t) |}.

Definition onlyScale (s : Q) : PartialTransform :=
  {| x_opt := None; y_opt := None; scale_opt := Some s; rotation_opt := None |}.

Definition dispatched (state : EditorState) (cb : Callback) : list EditorAction :=
  match cb with
  | checkSupport_unsupported =>
      [SET_ERROR (Some "Your browser does not support this application. Please use a modern browser with WebGL support.")]
  | handleImageUpload => [RESET]
  | handleImageUpload_onload image file => [SET_SOURCE_IMAGE image file]
  | handleImageUpload_resized_onerror =>
      [SET_ERROR (Some "Failed to process resized image. Please try another file.")]
  | handleImageUpload_onload_catch =>
      [SET_ERROR (Some "Failed to optimize image. Please try a smaller file.")]
  | handleImageUpload_onerror =>
      [SET_ERROR (Some "Failed to load image. Please try another file.")]
  | handleImageUpload_catch =>
      [SET_ERROR (Some "Failed to upload image. Please try again.")]
  | handleRemoveBackground =>
      match sourceFile state with
      | None => [SET_ERROR (Some "Please upload an image first.")]
      | Some _ => []
      end
  | processRemoveBackground =>
      match sourceFile state with
      | None => [SET_ERROR (Some "Please upload an image first.")]
      | Some _ => [SET_PROCESSING true; SET_PROGRESS 0]
      end
  | processRemoveBackground_onProgress progress => [SET_PROGRESS progress]
  | processRemoveBackground_onload _ image blob => [SET_PROCESSED_IMAGE image blob]
  | processRemoveBackground_onerror _ =>
      [SET_ERROR (Some "Failed to load processed image. Please try again.")]
  | processRemoveBackground_catch _ error => [SET_ERROR (Some (classify error))]
  | handleColorSelect color => [SET_BACKGROUND_COLOR color]
  | handleImageSelect_onload image => [SET_BACKGROUND_IMAGE image]
  | handleImageSelect_onerror =>
      [SET_ERROR (Some "Failed to load background image. Please try another file.")]
  | handleImageSelect_catch =>
      [SET_ERROR (Some "Failed to upload background image. Please try again.")]
  | handleTransformChange transform => [UPDATE_TRANSFORM (whole transform)]
  | handleScaleChange scale => [UPDATE_TRANSFORM (onlyScale scale)]
  | handleReset => [RESET]
  | handleDismissError => [SET_ERROR None]
  end.

(** The session as the component holds it, with one ghost field.  The
    component keeps no generation counter; [generation] is bookkeeping of
    the model alone: it counts the uploads begun so far, and the
    [submitted] argument of the continuations of [processRemoveBackground]
    records its value when that removal was started.  No transition reads
    either. *)
Record Session : Type := mkSession
  { editor : EditorState; generation : nat }.

Definition mount : Session :=
  {| editor := initialState; generation := O |}.

Definition step (s : Session) (cb : Callback) : Session :=
  {| editor := dispatchAll (editor s) (dispatched (editor s) cb);
     generation := match cb with
                   | handleImageUpload => S (generation s)
                   | _ => generation s
                   end |}.

Definition run (s : Session) (cbs : list Callback) : Session :=
  fold_left step cbs s.

End Page.

(* ------------------------------------------------------------------ *)
(** ** lib/backgroundRemoval.ts: the retrying client *)

Module BackgroundRemoval.

(** [onProgress] is kept as the fact that a callback was supplied: each
    call it receives is an event of the trace. *)
Record BackgroundRemovalOptions : Type := mkOptions
  { onProgress : bool; maxRetries : option Z }.

Record BackgroundRemovalError : Type := mkError
  { message : string;
    originalError : option Js.Thrown;
    retryable : bool }.

(** How an awaited promise settles. *)
Inductive Settled (A : Type) : Type :=
| Rejects (reason : Js.Thrown)
| Resolves (value : A).
Arguments Rejects {A} reason.
Arguments Resolves {A} value.

(** A [Response] as the code reads it: [json] is the [error] key of the
    decoded payload (absent is [None]), [blob] the body. *)
Record Response : Type := mkResponse
  { ok : bool;
    status : Z;
    json : Settled (option string);
    blob : Settled Dom.Blob }.

(** What the surroundings do during one attempt: the values of
    [Math.random() * 15] drawn by the interval while the request is
    pending, and how the request settles. *)
Record Attempt : Type := mkAttempt
  { draws : list Q; fetched : Settled Response }.

Inductive Event : Type :=
| Progress (progress : Q)
| Fetch (image : Dom.File)
| ConsoleError (attempt : Z) (error : Js.Thrown)
| Sleep (ms : Z).

(** [onProgress?.(p)]. *)
Definition report (options : BackgroundRemovalOptions) (p : Q) : list Event :=
  if onProgress options then [Progress p] else [].

(** The calls of [progressUpdater], one per draw; returns what it passes
    to [onProgress]. *)
Fixpoint progressUpdater (currentProgress : Q) (rs : list Q) : list Q :=
  match rs with
  | [] => []
  | r :: rs' =>
      let currentProgress := currentProgress + r in
      match (currentProgress ?= 85)%Q with
      | Lt => Qmin currentProgress 85 :: progressUpdater currentProgress rs'
      | _ => progressUpdater currentProgress rs'
      end
  end.

(** The body of the outer [try]: one attempt, up to [return blob] or the
    value the outer [catch] receives. *)
Definition attemptOnce (imageFile : Dom.File) (options : BackgroundRemovalOptions)
    (w : Attempt) : list Event * (Js.Thrown + Dom.Blob) :=
  let started :=
    (report options 5 ++ report options 15 ++ [Fetch imageFile]
       ++ flat_map (report options) (progressUpdater 15 (draws w)))%list in
  match fetched w with
  | Rejects e => (started, inl e)
  | Resolves response =>
      if negb (ok response) then
        match json response with
        | Rejects e => (started, inl e)
        | Resolves error =>
            let fallback := "HTTP error! status: " ++ Js.showZ (status response) in
            (started,
             inl (Js.ErrorObject
                    match error with
                    | Some EmptyString | None => fallback
                    | Some m => m
                    end))
        end
      else
        let finalizing := (started ++ report options 90)%list in
        match blob response with
        | Rejects e => (finalizing, inl e)
        | Resolves b =>
            if (Dom.blob_size b =? 0)%Z then
              (finalizing,
               inl (Js.ErrorObject "Background removal produced empty result"))
            else ((finalizing ++ report options 100)%list, inr b)
        end
  end.

(** [Math.min(1000 * Math.pow(2, attempt - 1), 5000)]. *)
Definition backoff (attempt : Z) : Z :=
  Z.min (1000 * 2 ^ (attempt - 1)) 5000.

(** The [while] loop, entered with the current [attempt] and [lastError].
    It leaves either through [return blob] or through its exit, with the
    [lastError] it holds then. *)
Equations? retryLoop (imageFile : Dom.File) (options : BackgroundRemovalOptions)
    (maxRetries : Z) (world : Z -> Attempt)
    (attempt : Z) (lastError : option Js.Thrown)
  : list Event * (option Js.Thrown + Dom.Blob)
  by wf (Z.to_nat (maxRetries - attempt)) lt :=
retryLoop imageFile options maxRetries world attempt lastError
  with Z_lt_dec attempt maxRetries => {
  | right _ => ([], inl lastError);
  | left _ =>
      let attempt' := (attempt + 1)%Z in
      match attemptOnce imageFile options (world attempt') with
      | (events, inr blob) => (events, inr blob)
      | (events, inl error) =>
          let logged := (events ++ [ConsoleError attempt' error])%list in
          if (attempt' >=? maxRetries)%Z then (logged, inl (Some error))
          else
            let delay := backoff attempt' in
            let '(later, outcome) :=
              retryLoop imageFile options maxRetries world attempt' (Some error) in
            ((logged ++ Sleep delay :: later)%list, outcome)
      end }.
Proof. lia. Qed.

(** The destructuring default [maxRetries = 2]. *)
Definition budget (options : BackgroundRemovalOptions) : Z :=
  match maxRetries options with
  | Some n => n
  | None => 2
  end.

(** [processBackgroundRemoval]: the trace of what it did, and the blob it
    resolves to or the error it rejects with. *)
Definition processBackgroundRemoval (imageFile : Dom.File)
    (options : BackgroundRemovalOptions) (world : Z -> Attempt)
  : list Event * (BackgroundRemovalError + Dom.Blob) :=
  let maxRetries := budget options in
  match retryLoop imageFile options maxRetries world 0 None with
  | (events, inr blob) => (events, inr blob)
  | (events, inl lastError) =>
      let errorMessage :=
        match lastError with
        | Some (Js.ErrorObject m) => m
        | _ => "Unknown error occurred"
        end in
      (events,
       inl {| message := "Failed to remove background after "
                           ++ Js.showZ maxRetries ++ " attempts: " ++ errorMessage;
              originalError := lastError;
              retryable := true |})
  end.

(** Whether an attempt ends in the outer [catch], and with what. *)
Definition failure (imageFile : Dom.File) (options : BackgroundRemovalOptions)
    (w : Attempt) : option Js.Thrown :=
  match snd (attemptOnce imageFile options w) with
  | inl e => Some e
  | inr _ => None
  end.

Definition fetches (events : list Event) : nat :=
  List.length (filter (fun e => match e with Fetch _ => true | _ => false end) events).

Fixpoint sleeps (events : list Event) : list Z :=
  match events with
  | [] => []
  | Sleep ms :: rest => ms :: sleeps rest
  | _ :: rest => sleeps rest
  end.

(** The values an attempt passes to [onProgress], in order. *)
Fixpoint progressOf (events : list Event) : list Q :=
  match events with
  | [] => []
  | Progress p :: rest => p :: progressOf rest
  | _ :: rest => progressOf rest
  end.

(** *** Browser support and the cache indicator *)

(** [MODEL_CACHE_CONFIG]. *)
Record ModelCacheConfig : Type := mkConfig
  { enabled : bool;
    defaultModel : string;
    cacheKeyPrefix : string;
    preloadOnInit : bool }.

Definition MODEL_CACHE_CONFIG : ModelCacheConfig :=
  {| enabled := true;
     defaultModel := "medium";
     cacheKeyPrefix := "background-removal";
     preloadOnInit := false |}.

(** [window.localStorage]: its entries, and whether touching it throws
    (storage disabled) or writing to it throws (quota exhausted). *)
Record Storage : Type := mkStorage
  { blocked : bool;
    full : bool;
    items : list (string * string) }.

Fixpoint lookup (key : string) (l : list (string * string)) : option string :=
  match l with
  | [] => None
  | (k, v) :: rest => if String.eqb k key then Some v else lookup key rest
  end.

Fixpoint without (key : string) (l : list (string * string)) : list (string * string) :=
  match l with
  | [] => []
  | (k, v) :: rest =>
      if String.eqb k key then without key rest else (k, v) :: without key rest
  end.

Definition getItem (s : Storage) (key : string) : Js.Thrown + option string :=
  if blocked s then inl (Js.ErrorObject "The operation is insecure.")
  else inr (lookup key (items s)).

Definition setItem (s : Storage) (key value : string) : Js.Thrown + Storage :=
  if blocked s then inl (Js.ErrorObject "The operation is insecure.")
  else if full s then inl (Js.ErrorObject "The quota has been exceeded.")
  else inr {| blocked := blocked s; full := full s;
              items := (key, value) :: without key (items s) |}.

Definition removeItem (s : Storage) (key : string) : Js.Thrown + Storage :=
  if blocked s then inl (Js.ErrorObject "The operation is insecure.")
  else inr {| blocked := blocked s; full := full s;
              items := without key (items s) |}.

(** The features of the browser the checks look at. *)
Record Browser : Type := mkBrowser
  { createElement_throws : bool;
    webgl : bool;
    experimental_webgl : bool;
    canvas_toDataURL : bool;
    canvas_toBlob : bool;
    window_File : bool;
    window_FileReader : bool;
    window_Blob : bool;
    window_indexedDB : bool;
    localStorage : Storage }.

Definition withStorage (b : Browser) (s : Storage) : Browser :=
  {| createElement_throws := createElement_throws b;
     webgl := webgl b;
     experimental_webgl := experimental_webgl b;
     canvas_toDataURL := canvas_toDataURL b;
     canvas_toBlob := canvas_toBlob b;
     window_File := window_File b;
     window_FileReader := window_FileReader b;
     window_Blob := window_Blob b;
     window_indexedDB := window_indexedDB b;
     localStorage := s |}.

Record BrowserSupportResult : Type := mkSupport
  { supported : bool; issues : list string }.

(** [issues.push(m)] when [absent]. *)
Definition pushIf (absent : bool) (m : string) (issues : list string) : list string :=
  if absent then (issues ++ [m])%list else issues.

Definition checkBrowserSupport (b : Browser) : BrowserSupportResult :=
  if createElement_throws b then
    {| supported := false;
       issues := ["Failed to check browser compatibility. Please use a modern browser."] |}
  else
    let issues := [] in
    let issues :=
      pushIf (negb (webgl b || experimental_webgl b))
        "WebGL is not supported. This is required for AI background removal." issues in
    let issues :=
      pushIf (negb (canvas_toDataURL b)) "Canvas toDataURL is not supported." issues in
    let issues :=
      pushIf (negb (canvas_toBlob b)) "Canvas toBlob is not supported." issues in
    let issues :=
      pushIf (negb (window_File b) || negb (window_FileReader b) || negb (window_Blob b))
        "File API is not fully supported." issues in
    {| supported := Nat.eqb (List.length issues) 0; issues := issues |}.

Definition isBrowserSupported (b : Browser) : bool :=
  supported (checkBrowserSupport b).

Definition cacheKey : string := cacheKeyPrefix MODEL_CACHE_CONFIG ++ "-loaded".

Definition isModelCached (b : Browser) : bool :=
  if negb (window_indexedDB b) then false
  else
    match getItem (localStorage b) cacheKey with
    | inl _ => false
    | inr (Some v) => String.eqb v "true"
    | inr None => false
    end.

Definition markModelAsCached (b : Browser) : Browser :=
  match setItem (localStorage b) cacheKey "true" with
  | inl _ => b
  | inr s => withStorage b s
  end.

Definition clearCacheIndicator (b : Browser) : Browser :=
  match removeItem (localStorage b) cacheKey with
  | inl _ => b
  | inr s => withStorage b s
  end.

Definition preloadModel (b : Browser) : Browser := markModelAsCached b.

Definition initializeBackgroundRemoval (b : Browser) : Browser :=
  if negb (enabled MODEL_CACHE_CONFIG) then b
  else if negb (isBrowserSupported b) then b
  else if isModelCached b then b
  else if preloadOnInit MODEL_CACHE_CONFIG then preloadModel b
  else b.

End BackgroundRemoval.

(* ------------------------------------------------------------------ *)
(** ** lib/imageProcessing.ts *)

Module ImageProcessing.
Import Types.

(** The [background] argument of [composeImage]: a tag and its value. *)
Inductive Background : Type :=
| color (value : string)
| image (value : Dom.HTMLImageElement).

Section Compose.

Variable originOffset : Q -> Q -> Q -> Q -> Q -> Q * Q.

(** [composeImage] changes the canvas it is given; the canvas after the
    call is returned.  [canvas.renderAll()] paints and changes nothing
    that is kept here.  The scales pass through Fabric's constructor
    ([Fabric.heldScale]).  For a background image of width or height 0 the
    code divides by zero and gets [Infinity] or [NaN], which [Q] does not
    have: the definition is meant for background images of non-zero size,
    and what is stated of the background's scale assumes one. *)
Definition composeImage (canvas : Fabric.Canvas)
    (foreground : Dom.HTMLImageElement) (background : Background)
    (transform : Transform) : Fabric.Canvas :=
  let canvas := Fabric.clear canvas in
  let canvas :=
    match background with
    | color value => Fabric.set_backgroundColor canvas value
    | image bgImg =>
        let bgImage :=
          {| Fabric.element := bgImg;
             Fabric.left := 0; Fabric.top := 0;
             Fabric.scaleX :=
               Fabric.heldScale (Js.double (Fabric.width canvas / Dom.width bgImg));
             Fabric.scaleY :=
               Fabric.heldScale (Js.double (Fabric.height canvas / Dom.height bgImg));
             Fabric.angle := 0;
             Fabric.selectable := false;
             Fabric.evented := false;
             Fabric.hasControls := true |} in
        Fabric.set_backgroundImage canvas bgImage
    end in
  let fgImage :=
    {| Fabric.element := foreground;
       Fabric.left := x transform;
       Fabric.top := y transform;
       Fabric.scaleX := Fabric.heldScale (scale transform);
       Fabric.scaleY := Fabric.heldScale (scale transform);
       Fabric.angle := rotation transform;
       Fabric.selectable := true;
       Fabric.evented := true;
       Fabric.hasControls := true |} in
  let '(canvas, fgRef) := Fabric.add canvas fgImage in
  Fabric.centerObject originOffset canvas fgRef.

End Compose.

(** [Math.min(a, b, c)]. *)
Definition min3 (a b c : Q) : Q := Qmin (Qmin a b) c.

Definition getDefaultTransform (imageWidth imageHeight canvasWidth canvasHeight : Q)
  : Transform :=
  let scaleX := canvasWidth / imageWidth in
  let scaleY := canvasHeight / imageHeight in
  let scale := min3 scaleX scaleY 1 in
  {| x := canvasWidth / 2;
     y := canvasHeight / 2;
     scale := scale;
     rotation := 0 |}.

(** The result of [validateImageFile]; [reason] is its [error] key. *)
Record Validation : Type := mkValidation
  { valid : bool; reason : option string }.

(** [validateImageFile], for a limit of whole megabytes. *)
Definition validateImageFile (file : Dom.File) (maxSizeInMB : Z)
    (acceptedFormats : list string) : Validation :=
  if negb (Js.includesElement acceptedFormats (Dom.file_type file)) then
    {| valid := false;
       reason := Some ("Invalid file format. Accepted formats: "
                         ++ Js.join ", " acceptedFormats) |}
  else
    let maxSizeInBytes := (maxSizeInMB * 1024 * 1024)%Z in
    if (Dom.file_size file >? maxSizeInBytes)%Z then
      {| valid := false;
         reason := Some ("File size exceeds " ++ Js.showZ maxSizeInMB ++ "MB limit") |}
    else {| valid := true; reason := None |}.

(** [needsResize]; the page passes both bounds (2048), so the defaults do
    not appear. *)
Definition needsResize (image : Dom.HTMLImageElement) (maxWidth maxHeight : Q) : bool :=
  Js.gt (Dom.width image) maxWidth || Js.gt (Dom.height image) maxHeight.

(** What a 2D canvas does for the caller: whether [getContext('2d')] gives
    a context, what [toBlob] hands to its callback and what [toDataURL]
    returns. *)
Record Canvas2D : Type := mkCanvas2D
  { hasContext : bool;
    toBlob : option Dom.Blob;
    toDataURL : string }.

(** The block of [resizeImage] that computes the size to draw at. *)
Definition resizedSize (width height maxWidth maxHeight : Q) : Q * Q :=
  if Js.gt width maxWidth || Js.gt height maxHeight then
    let aspectRatio := width / height in
    if Js.gt width height then
      let width := maxWidth in
      let height := width / aspectRatio in
      (width, height)
    else
      let height := maxHeight in
      let width := height * aspectRatio in
      (width, height)
  else (width, height).

(** [resizeImage]: the size it draws the image at and the blob it resolves
    with, or what it rejects with. *)
Definition resizeImage (image : Dom.HTMLImageElement) (maxWidth maxHeight : Q)
    (canvas : Canvas2D) : Js.Thrown + (Q * Q * Dom.Blob) :=
  if negb (hasContext canvas) then
    inl (Js.ErrorObject "Failed to get canvas context")
  else
    let '(width, height) :=
      resizedSize (Dom.width image) (Dom.height image) maxWidth maxHeight in
    match toBlob canvas with
    | Some blob => inr (width, height, blob)
    | None => inl (Js.ErrorObject "Failed to create blob from canvas")
    end.

(** [createThumbnail]: the size it draws at and the data URL it returns,
    or what it throws.  The division and the product are the code's, on
    doubles; an image of height 0 is outside the definition (the code
    divides by zero there). *)
Definition createThumbnail (image : Dom.HTMLImageElement) (maxSize : Q)
    (canvas : Canvas2D) : Js.Thrown + (Q * Q * string) :=
  if negb (hasContext canvas) then
    inl (Js.ErrorObject "Failed to get canvas context")
  else
    let aspectRatio := Js.double (Dom.width image / Dom.height image) in
    let width := maxSize in
    let height := maxSize in
    let '(width, height) :=
      if Js.gt aspectRatio 1 then (width, Js.double (maxSize / aspectRatio))
      else (Js.double (maxSize * aspectRatio), height) in
    inr (width, height, toDataURL canvas).

End ImageProcessing.

(* ------------------------------------------------------------------ *)
(** ** lib/canvasUtils.ts *)

Module CanvasUtils.

(** [initializeCanvas]: a new canvas of the given size on white. *)
Definition initializeCanvas (canvasElement : Dom.HTMLCanvasElement)
    (width height : Q) : Fabric.Canvas :=
  Fabric.newCanvas canvasElement width height "#ffffff".

Definition clearCanvas (canvas : Fabric.Canvas) : Fabric.Canvas :=
  Fabric.set_backgroundColor (Fabric.clear canvas) "#ffffff".

Record Dimensions : Type := mkDimensions
  { width : Z; height : Z }.

(** [getOptimalCanvasDimensions], with both bounds given (they default to
    1200 and 800).  The divisions and the product are the code's, on
    doubles, and [Math.round] is applied to the double; an image of
    height 0 is outside the definition (the code divides by zero there). *)
Definition getOptimalCanvasDimensions (imageWidth imageHeight maxWidth maxHeight : Q)
  : Dimensions :=
  let aspectRatio := Js.double (imageWidth / imageHeight) in
  let width := imageWidth in
  let height := imageHeight in
  let '(width, height) :=
    if Js.gt width maxWidth then (maxWidth, Js.double (maxWidth / aspectRatio))
    else (width, height) in
  let '(width, height) :=
    if Js.gt height maxHeight then (Js.double (maxHeight * aspectRatio), maxHeight)
    else (width, height) in
  {| width := Js.round width; height := Js.round height |}.

End CanvasUtils.

(* ------------------------------------------------------------------ *)
(** ** components/CanvasEditor.tsx *)

Module CanvasEditor.
Import Types.

(** The props the page passes, without the callback. *)
Record Props : Type := mkProps
  { p_sourceImage : option Dom.HTMLImageElement;
    p_processedImage : option Dom.HTMLImageElement;
    p_backgroundColor : option string;
    p_backgroundImage : option Dom.HTMLImageElement }.

(** What the component keeps between renders.  [fabricCanvas] (behind
    [fabricCanvasRef]) and [hasInitializedTransform] are refs: an effect
    that writes one is seen by the effects that run after it.
    [isInitialized] and [currentTransform] are state: an effect reads
    them as they were at the render it belongs to, and what it sets
    shows at the next render only. *)
Record Editor : Type := mkEditor
  { fabricCanvas : option Fabric.Canvas;
    isInitialized : bool;
    currentTransform : option Transform;
    hasInitializedTransform : bool }.

(** The component before its first effect: [useState(false)],
    [useState(null)] and the two refs as created. *)
Definition initial : Editor :=
  {| fabricCanvas := None; isInitialized := false;
     currentTransform := None; hasInitializedTransform := false |}.

(** A call of a state setter, queued until the next render. *)
Inductive Update : Type :=
| SetIsInitialized (value : bool)
| SetCurrentTransform (value : option Transform).

Definition setState (e : Editor) (u : Update) : Editor :=
  match u with
  | SetIsInitialized value =>
      {| fabricCanvas := fabricCanvas e;
         isInitialized := value;
         currentTransform := currentTransform e;
         hasInitializedTransform := hasInitializedTransform e |}
  | SetCurrentTransform value =>
      {| fabricCanvas := fabricCanvas e;
         isInitialized := isInitialized e;
         currentTransform := value;
         hasInitializedTransform := hasInitializedTransform e |}
  end.

(** The next render: the queued updates applied, oldest first. *)
Definition rerender (e : Editor) (queue : list Update) : Editor :=
  fold_left setState queue e.

(** The [<canvas>] element of the component.  The JSX gives it neither
    [width] nor [height], so it has the sizes of the HTML standard. *)
Definition canvasElement : Dom.HTMLCanvasElement :=
  {| Dom.canvas_width := 300; Dom.canvas_height := 150 |}.

(** [getCanvasSize], from [window.innerWidth], a whole number of pixels. *)
Definition getCanvasSize (innerWidth : Z) : Z * Z :=
  let maxWidth := if (innerWidth <? 640)%Z then (innerWidth - 64)%Z else 800%Z in
  let maxHeight := if (innerWidth <? 640)%Z then 400%Z else 600%Z in
  (Z.min maxWidth 800, Z.min maxHeight 600).

(** The effect that creates the canvas, once: the refs afterwards and the
    updates it queues. *)
Definition initialize (e : Editor) (innerWidth : Z) : Editor * list Update :=
  match fabricCanvas e with
  | Some _ => (e, [])
  | None =>
      let '(width, height) := getCanvasSize innerWidth in
      ({| fabricCanvas :=
            Some (Fabric.newCanvas canvasElement (inject_Z width) (inject_Z height)
                    "#f3f4f6");
          isInitialized := isInitialized e;
          currentTransform := currentTransform e;
          hasInitializedTransform := hasInitializedTransform e |},
       [SetIsInitialized true])
  end.

(** The effect that runs when the source or the processed image changes. *)
Definition imageChanged (e : Editor) : Editor * list Update :=
  ({| fabricCanvas := fabricCanvas e;
      isInitialized := isInitialized e;
      currentTransform := currentTransform e;
      hasInitializedTransform := false |},
   [SetCurrentTransform None]).

(** [a || b] on two images. *)
Definition either (a b : option Dom.HTMLImageElement) : option Dom.HTMLImageElement :=
  match a with
  | Some _ => a
  | None => b
  end.

(** The background handed to [composeImage]: the colour when there is a
    non-empty one, else the image, else white. *)
Definition background (p : Props) : ImageProcessing.Background :=
  match p_backgroundColor p with
  | Some (String c rest) => ImageProcessing.color (String c rest)
  | _ =>
      match p_backgroundImage p with
      | Some img => ImageProcessing.image img
      | None => ImageProcessing.color "#ffffff"
      end
  end.

Section Render.

Variable originOffset : Q -> Q -> Q -> Q -> Q -> Q * Q.

(** The rendering effect: the refs afterwards, the updates it queues and
    the transforms it passes to [onTransformChange]. *)
Definition render (e : Editor) (p : Props) : Editor * list Update * list Transform :=
  match fabricCanvas e with
  | None => (e, [], [])
  | Some canvas =>
      if negb (isInitialized e) then (e, [], [])
      else
        match either (p_processedImage p) (p_sourceImage p) with
        | None =>
            ({| fabricCanvas :=
                  Some (Fabric.set_backgroundColor (Fabric.clear canvas) "#f3f4f6");
                isInitialized := isInitialized e;
                currentTransform := currentTransform e;
                hasInitializedTransform := hasInitializedTransform e |}, [], [])
        | Some imageToRender =>
            let transform :=
              match currentTransform e with
              | Some t => t
              | None =>
                  ImageProcessing.getDefaultTransform
                    (Dom.width imageToRender) (Dom.height imageToRender)
                    (Fabric.width canvas) (Fabric.height canvas)
              end in
            let canvas :=
              ImageProcessing.composeImage originOffset canvas imageToRender
                (background p) transform in
            if negb (hasInitializedTransform e) then
              ({| fabricCanvas := Some canvas;
                  isInitialized := isInitialized e;
                  currentTransform := currentTransform e;
                  hasInitializedTransform := true |},
               [SetCurrentTransform (Some transform)], [transform])
            else
              ({| fabricCanvas := Some canvas;
                  isInitialized := isInitialized e;
                  currentTransform := currentTransform e;
                  hasInitializedTransform := hasInitializedTransform e |}, [], [])
        end
  end.

(** The commit of a render in which [sourceImage] or [processedImage]
    changed: the image-change effect, then the rendering effect, both
    against the state of that render; then the render the queued updates
    cause, after which no effect runs, none depending on
    [currentTransform]. *)
Definition imagesCommitted (e : Editor) (p : Props) : Editor * list Transform :=
  let '(e1, queued1) := imageChanged e in
  let '(e2, queued2, reported) := render e1 p in
  (rerender e2 (queued1 ++ queued2), reported).

(** The commit of a render in which only a background changed. *)
Definition backgroundCommitted (e : Editor) (p : Props) : Editor * list Transform :=
  let '(e1, queued, reported) := render e p in
  (rerender e1 queued, reported).

(** Mounting: every effect runs once against the initial state, in the
    order of the source; [isInitialized] turning true causes a second
    render, after which the rendering effect, which depends on it, runs
    again. *)
Definition mounted (innerWidth : Z) (p : Props) : Editor * list Transform :=
  let '(e1, queued1) := initialize initial innerWidth in
  let '(e2, queued2) := imageChanged e1 in
  let '(e3, queued3, reported3) := render e2 p in
  let e4 := rerender e3 (queued1 ++ queued2 ++ queued3) in
  let '(e5, queued5, reported5) := render e4 p in
  (rerender e5 queued5, (reported3 ++ reported5)%list).

End Render.

(** [updateTransform], once its animation frame runs: the transform read
    off the active object, stored and passed to [onTransformChange]. *)
Definition updateTransform (e : Editor) (activeObject : option Fabric.FabricImage)
  : Editor * list Transform :=
  match activeObject with
  | None => (e, [])
  | Some o =>
      let newTransform :=
        {| x := Js.orElse (Fabric.left o) 0;
           y := Js.orElse (Fabric.top o) 0;
           scale := Js.orElse (Fabric.scaleX o) 1;
           rotation := Js.orElse (Fabric.angle o) 0 |} in
      (rerender e [SetCurrentTransform (Some newTransform)], [newTransform])
  end.

(** [onKeyDown] on the canvas element: the active object afterwards and
    whether the key was handled (default prevented and [object:modified]
    fired).  Without a canvas or an active object nothing happens.  The
    sums and products are the code's, on doubles; [1.1] and [0.9] are the
    doubles those literals denote. *)
Definition onKeyDown (e : Editor) (activeObject : option Fabric.FabricImage)
    (key : string) (shiftKey : bool) : option Fabric.FabricImage * bool :=
  match fabricCanvas e, activeObject with
  | Some _, Some o =>
      let step : Q := if shiftKey then 10 else 1 in
      if String.eqb key "ArrowLeft" then
        (Some (Fabric.set_left o (Js.double (Js.orElse (Fabric.left o) 0 - step))), true)
      else if String.eqb key "ArrowRight" then
        (Some (Fabric.set_left o (Js.double (Js.orElse (Fabric.left o) 0 + step))), true)
      else if String.eqb key "ArrowUp" then
        (Some (Fabric.set_top o (Js.double (Js.orElse (Fabric.top o) 0 - step))), true)
      else if String.eqb key "ArrowDown" then
        (Some (Fabric.set_top o (Js.double (Js.orElse (Fabric.top o) 0 + step))), true)
      else if String.eqb key "+" || String.eqb key "=" then
        (Some (Fabric.scale o
                 (Js.double (Js.orElse (Fabric.scaleX o) 1 * Js.double 1.1))), true)
      else if String.eqb key "-" || String.eqb key "_" then
        (Some (Fabric.scale o
                 (Js.double (Js.orElse (Fabric.scaleX o) 1 * Js.double 0.9))), true)
      else (Some o, false)
  | _, _ => (activeObject, false)
  end.

End CanvasEditor.

(* ------------------------------------------------------------------ *)
(** ** components/ImageUploader.tsx *)

Module ImageUploader.

(** A [FileRejection], as far as [onDrop] reads it: the code of its first
    error, if it has one. *)
Record FileRejection : Type := mkRejection
  { rejected : Dom.File; firstErrorCode : option string }.

(** What a drop leads to: the error shown (after the previous one has been
    cleared) and the files handed to [onImageUpload]. *)
Record Dropped : Type := mkDropped
  { shown : option string; uploaded : list Dom.File }.

Definition onDrop (maxSizeInMB : Z) (acceptedFormats : list string)
    (acceptedFiles : list Dom.File) (rejectedFiles : list FileRejection) : Dropped :=
  let maxSizeInBytes := (maxSizeInMB * 1024 * 1024)%Z in
  match rejectedFiles with
  | rejection :: _ =>
      let code := firstErrorCode rejection in
      if match code with Some c => String.eqb c "file-too-large" | None => false end then
        {| shown := Some ("File size exceeds " ++ Js.showZ maxSizeInMB ++ "MB limit");
           uploaded := [] |}
      else if match code with Some c => String.eqb c "file-invalid-type" | None => false end then
        {| shown := Some ("Invalid file format. Accepted formats: "
                            ++ Js.join ", " acceptedFormats);
           uploaded := [] |}
      else {| shown := Some "Invalid file. Please try again."; uploaded := [] |}
  | [] =>
      match acceptedFiles with
      | file :: _ =>
          if (Dom.file_size file >? maxSizeInBytes)%Z then
            {| shown := Some ("File size exceeds " ++ Js.showZ maxSizeInMB ++ "MB limit");
               uploaded := [] |}
          else {| shown := None; uploaded := [file] |}
      | [] => {| shown := None; uploaded := [] |}
      end
  end.

End ImageUploader.

(* ------------------------------------------------------------------ *)
(** ** app/page.tsx: blob URLs and the callbacks that call the libraries *)

Module Orchestration.
Import Types.

(** [blobUrlsRef.current]: a [Set] of URLs, in insertion order. *)
Definition BlobUrls : Type := list string.

Definition has (urls : BlobUrls) (url : string) : bool :=
  Js.includesElement urls url.

(** [Set.prototype.delete]. *)
Definition delete (urls : BlobUrls) (url : string) : BlobUrls :=
  filter (fun u => negb (String.eqb url u)) urls.

Definition trackBlobUrl (urls : BlobUrls) (url : string) : BlobUrls :=
  if String.prefix "blob:" url then
    if has urls url then urls else (urls ++ [url])%list
  else urls.

(** [revokeBlobUrlTracked]: the set afterwards and the URLs handed to
    [URL.revokeObjectURL]. *)
Definition revokeBlobUrlTracked (urls : BlobUrls) (url : string)
  : BlobUrls * list string :=
  if String.prefix "blob:" url && has urls url then (delete urls url, [url])
  else (urls, []).

(** The clean-up that runs when the component unmounts. *)
Definition unmount (urls : BlobUrls) : BlobUrls * list string := ([], urls).

(** Uses of the set, and a run of them from a given set: the set
    afterwards and every URL revoked on the way, oldest first. *)
Inductive TrackerUse : Type :=
| Track (url : string)
| RevokeTracked (url : string)
| Unmount.

Definition useTracker (state : BlobUrls * list string) (u : TrackerUse)
  : BlobUrls * list string :=
  let '(urls, revoked) := state in
  match u with
  | Track url => (trackBlobUrl urls url, revoked)
  | RevokeTracked url =>
      let '(urls', now) := revokeBlobUrlTracked urls url in
      (urls', (revoked ++ now)%list)
  | Unmount =>
      let '(urls', now) := unmount urls in
      (urls', (revoked ++ now)%list)
  end.

Definition useTrackerAll (uses : list TrackerUse) : BlobUrls * list string :=
  fold_left useTracker uses ([], []).

Fixpoint timesTracked (url : string) (uses : list TrackerUse) : nat :=
  match uses with
  | [] => O
  | Track u :: rest =>
      if String.eqb url u then S (timesTracked url rest) else timesTracked url rest
  | _ :: rest => timesTracked url rest
  end.

Fixpoint timesRevoked (url : string) (revoked : list string) : nat :=
  match revoked with
  | [] => O
  | u :: rest =>
      if String.eqb url u then S (timesRevoked url rest) else timesRevoked url rest
  end.

(** What a callback does besides changing the set of tracked URLs. *)
Inductive Effect : Type :=
| Dispatch (action : EditorAction)
| CreateObjectURL (url : string)
| RevokeObjectURL (url : string).

Definition revoking (urls : list string) : list Effect := map RevokeObjectURL urls.

(** What the surroundings do during [handleImageUpload]: the URL
    [createObjectURL] returns for the file, the size the image decodes to
    (none when it fails to load), the canvas [resizeImage] works on, the
    URL returned for the resized blob and the size that blob decodes to. *)
Record UploadWorld : Type := mkUploadWorld
  { imageUrl : string;
    decoded : option (Q * Q);
    resizeCanvas : ImageProcessing.Canvas2D;
    resizedUrl : string;
    resizedDecoded : option (Q * Q) }.

(** [handleImageUpload], run until its last continuation: the tracked
    URLs afterwards and what it did, in order. *)
Definition handleImageUpload (urls : BlobUrls) (file : Dom.File) (w : UploadWorld)
  : BlobUrls * list Effect :=
  let urls := trackBlobUrl urls (imageUrl w) in
  let begun := [Dispatch RESET; CreateObjectURL (imageUrl w)] in
  match decoded w with
  | None =>
      let '(urls, now) := revokeBlobUrlTracked urls (imageUrl w) in
      (urls,
       (begun ++ [Dispatch (SET_ERROR (Some "Failed to load image. Please try another file."))]
          ++ revoking now)%list)
  | Some (width, height) =>
      let img := Dom.mkImage (imageUrl w) width height in
      if ImageProcessing.needsResize img 2048 2048 then
        match ImageProcessing.resizeImage img 2048 2048 (resizeCanvas w) with
        | inl _ =>
            let '(urls, now) := revokeBlobUrlTracked urls (imageUrl w) in
            (urls,
             (begun ++ [Dispatch (SET_ERROR (Some "Failed to optimize image. Please try a smaller file."))]
                ++ revoking now)%list)
        | inr (_, _, resizedBlob) =>
            let processedFile :=
              Dom.mkFile (Dom.file_name file) "image/png" (Dom.blob_size resizedBlob) in
            let urls := trackBlobUrl urls (resizedUrl w) in
            let '(urls, first) := revokeBlobUrlTracked urls (imageUrl w) in
            let '(urls, second) := revokeBlobUrlTracked urls (resizedUrl w) in
            (urls,
             (begun ++ [CreateObjectURL (resizedUrl w)] ++ revoking first
                ++ [Dispatch
                      match resizedDecoded w with
                      | Some (width', height') =>
                          SET_SOURCE_IMAGE (Dom.mkImage (resizedUrl w) width' height')
                                           processedFile
                      | None =>
                          SET_ERROR (Some "Failed to process resized image. Please try another file.")
                      end]
                ++ revoking second)%list)
        end
      else
        let '(urls, now) := revokeBlobUrlTracked urls (imageUrl w) in
        (urls, (begun ++ [Dispatch (SET_SOURCE_IMAGE img file)] ++ revoking now)%list)
  end.

(** The actions among some effects, in order. *)
Fixpoint dispatches (effects : list Effect) : list EditorAction :=
  match effects with
  | [] => []
  | Dispatch a :: rest => a :: dispatches rest
  | _ :: rest => dispatches rest
  end.

Fixpoint created (effects : list Effect) : list string :=
  match effects with
  | [] => []
  | CreateObjectURL u :: rest => u :: created rest
  | _ :: rest => created rest
  end.

Fixpoint revokedBy (effects : list Effect) : list string :=
  match effects with
  | [] => []
  | RevokeObjectURL u :: rest => u :: revokedBy rest
  | _ :: rest => revokedBy rest
  end.

(** The props the page renders [CanvasEditor] with. *)
Definition canvasEditorProps (state : EditorState) : CanvasEditor.Props :=
  {| CanvasEditor.p_sourceImage := sourceImage state;
     CanvasEditor.p_processedImage := processedImage state;
     CanvasEditor.p_backgroundColor := backgroundColor state;
     CanvasEditor.p_backgroundImage := backgroundImage state |}.

(** The options [processRemoveBackground] passes to the client. *)
Definition removalOptions : BackgroundRemoval.BackgroundRemovalOptions :=
  {| BackgroundRemoval.onProgress := true;
     BackgroundRemoval.maxRetries := Some 2%Z |}.

(** [processRemoveBackground], run until its last continuation with no
    other callback in between: the callbacks of [Page.Callback] it amounts
    to.  [world] is what the transport does, [decode] the size the
    resulting blob decodes to (none when it fails to load), [url] the URL
    created for it. *)
Definition processRemoveBackground (s : Page.Session)
    (world : Z -> BackgroundRemoval.Attempt)
    (url : string) (decode : option (Q * Q)) : list Page.Callback :=
  match sourceFile (Page.editor s) with
  | None => [Page.processRemoveBackground]
  | Some file =>
      let '(events, outcome) :=
        BackgroundRemoval.processBackgroundRemoval file removalOptions world in
      (Page.processRemoveBackground
         :: map Page.processRemoveBackground_onProgress
                (BackgroundRemoval.progressOf events)
         ++ match outcome with
            | inr blob =>
                match decode with
                | Some (width, height) =>
                    [Page.processRemoveBackground_onload (Page.generation s)
                       (Dom.mkImage url width height) blob]
                | None => [Page.processRemoveBackground_onerror (Page.generation s)]
                end
            | inl e =>
                [Page.processRemoveBackground_catch (Page.generation s)
                   (Js.ErrorObject (BackgroundRemoval.message e))]
            end)%list
  end.

End Orchestration.

(* ------------------------------------------------------------------ *)
(** ** app/api/remove-background/route.ts *)

Module Route.

(** The temporary directory: paths and their contents. *)
Definition Files : Type := list (string * string).

Definition existsSync (fs : Files) (path : string) : bool :=
  match BackgroundRemoval.lookup path fs with
  | Some _ => true
  | None => false
  end.

Definition write (fs : Files) (path data : string) : Files :=
  (path, data) :: BackgroundRemoval.without path fs.

Definition readFileSync (fs : Files) (path : string) : Js.Thrown + string :=
  match BackgroundRemoval.lookup path fs with
  | Some data => inr data
  | None => inl (Js.ErrorObject ("ENOENT: no such file or directory, open '" ++ path ++ "'"))
  end.

Definition unlinkSync (fs : Files) (path : string) : Js.Thrown + Files :=
  if existsSync fs path then inr (BackgroundRemoval.without path fs)
  else inl (Js.ErrorObject ("ENOENT: no such file or directory, unlink '" ++ path ++ "'")).

(** [try { unlinkSync(path) } catch {}]. *)
Definition tryUnlink (fs : Files) (path : string) : Files :=
  match unlinkSync fs path with
  | inr fs' => fs'
  | inl _ => fs
  end.

(** The request: its form data cannot be read, or holds no image, or
    holds an image with these bytes. *)
Inductive Request : Type :=
| Unreadable (e : Js.Thrown)
| NoImage
| Image (bytes : string).

(** What the disk does on [writeFileSync]: it writes, or it throws,
    leaving nothing or a truncated file. *)
Inductive Disk : Type :=
| Writes
| WriteThrows (e : Js.Thrown) (remains : option string).

(** What running the Python command does: it resolves (exit status 0) or
    rejects (non-zero exit, time-out, buffer overflow), having left
    nothing or something at the output path. *)
Inductive Python : Type :=
| Resolved (remains : option string) (stderr : string)
| Rejected (e : Js.Thrown) (remains : option string).

Inductive Response : Type :=
| Json (status : Z) (error : string)
| Png (status : Z) (body : string) (contentLength : nat).

Definition messageOf (e : Js.Thrown) : string :=
  match e with
  | Js.ErrorObject m => m
  | Js.OtherValue _ => "Failed to process image"
  end.

Definition leave (fs : Files) (path : string) (remains : option string) : Files :=
  match remains with
  | Some data => write fs path data
  | None => fs
  end.

(** [POST]: the temporary directory afterwards and the response.
    [now1] and [now2] are the two readings of [Date.now()]. *)
Definition POST (fs : Files) (request : Request) (tempDir : string)
    (now1 now2 : Z) (disk : Disk) (python : Python) : Files * Response :=
  match request with
  | Unreadable e => (fs, Json 500 (messageOf e))
  | NoImage => (fs, Json 400 "No image file provided")
  | Image imageBuffer =>
      let inputPath := tempDir ++ "/input-" ++ Js.showZ now1 ++ ".png" in
      let outputPath := tempDir ++ "/output-" ++ Js.showZ now2 ++ ".png" in
      let cleanedUp (fs : Files) (error : Js.Thrown) : Files * Response :=
        (tryUnlink (tryUnlink fs inputPath) outputPath, Json 500 (messageOf error)) in
      match disk with
      | WriteThrows e remains => cleanedUp (leave fs inputPath remains) e
      | Writes =>
          let fs := write fs inputPath imageBuffer in
          match python with
          | Rejected e remains => cleanedUp (leave fs outputPath remains) e
          | Resolved remains _ =>
              let fs := leave fs outputPath remains in
              match readFileSync fs outputPath with
              | inl e => cleanedUp fs e
              | inr resultBuffer =>
                  match unlinkSync fs inputPath with
                  | inl e => cleanedUp fs e
                  | inr fs =>
                      match unlinkSync fs outputPath with
                      | inl e => cleanedUp fs e
                      | inr fs =>
                          (fs, Png 200 resultBuffer (String.length resultBuffer))
                      end
                  end
              end
          end
      end
  end.

End Route.

(* ================================================================== *)
(** * Predicates and scenarios used below *)

Import Types.
Import Page.
Import BackgroundRemoval.
Import ImageProcessing.

(** ** Predicates on sessions *)

(** Every field except the three the [SET_ERROR] case writes. *)
Definition sameOutsideErrorCase (s s' : EditorState) : Prop :=
  sourceImage s' = sourceImage s /\
  sourceFile s' = sourceFile s /\
  processedImage s' = processedImage s /\
  processedBlob s' = processedBlob s /\
  backgroundColor s' = backgroundColor s /\
  backgroundImage s' = backgroundImage s /\
  transform s' = transform s /\
  canvasRef s' = canvasRef s.

(** Every field except the three the [SET_SOURCE_IMAGE] case writes. *)
Definition sameOutsideSourceCase (s s' : EditorState) : Prop :=
  processedImage s' = processedImage s /\
  processedBlob s' = processedBlob s /\
  backgroundColor s' = backgroundColor s /\
  backgroundImage s' = backgroundImage s /\
  transform s' = transform s /\
  isProcessing s' = isProcessing s /\
  processingProgress s' = processingProgress s /\
  canvasRef s' = canvasRef s.

(** What the canvas dispatches through [onTransformChange]. *)
Definition isTransformReport (a : EditorAction) : Prop :=
  exists payload, a = UPDATE_TRANSFORM payload.

Definition oneBackground (s : EditorState) : Prop :=
  backgroundColor s = None \/ backgroundImage s = None.

Definition quietWhileProcessing (s : EditorState) : Prop :=
  isProcessing s = true -> error s = None.

(** ** Sample objects and runs *)

Definition firstImage : Dom.HTMLImageElement := Dom.mkImage "blob:first" 640 480.
Definition firstFile : Dom.File := Dom.mkFile "first.png" "image/png" 1000.
Definition secondImage : Dom.HTMLImageElement := Dom.mkImage "blob:second" 800 600.
Definition secondFile : Dom.File := Dom.mkFile "second.png" "image/png" 2000.
Definition cutout : Dom.HTMLImageElement := Dom.mkImage "blob:cutout-of-first" 640 480.
Definition cutoutBlob : Dom.Blob := Dom.mkBlob "image/png" 900.

(** A session that is processing and has seen progress 30. *)
Definition processingAt30 : EditorState :=
  dispatchAll initialState [SET_PROCESSING true; SET_PROGRESS 0; SET_PROGRESS 30].

(** An error is showing, a removal has been started and has reported 15
    before the dismissal is delivered. *)
Definition dismissalDuringProcessing : list Callback :=
  [ handleImageUpload;
    handleImageUpload_onload (Dom.mkImage "blob:a" 640 480)
                             (Dom.mkFile "a.png" "image/png" 1000);
    handleImageSelect_onerror;
    processRemoveBackground;
    processRemoveBackground_onProgress 15 ].

(** A first upload, a removal started on it (under generation 1), and a
    second upload before that removal has resolved. *)
Definition uploadedAgainMeanwhile : Session :=
  run mount
    [ handleImageUpload; handleImageUpload_onload firstImage firstFile;
      processRemoveBackground;
      handleImageUpload; handleImageUpload_onload secondImage secondFile ].

(** ** Sample surroundings of the client *)

(** The delays waited from attempt [a] on when [k] attempts remain. *)
Definition delaysAfter (a : Z) (k : nat) : list Z :=
  map (fun i => backoff (a + Z.of_nat i)%Z) (seq 1 (k - 1)%nat).

(** The transport calls and the waits of a trace, in the order in which
    they happened. *)
Definition callsAndWaits (events : list Event) : list Event :=
  filter (fun e => match e with Fetch _ | Sleep _ => true | _ => false end) events.

(** [n] transport calls, the first of them attempt [attempt], with the
    wait that follows each call but the last. *)
Fixpoint paced (imageFile : Dom.File) (attempt : Z) (n : nat) : list Event :=
  match n with
  | O => []
  | S n' =>
      match n' with
      | O => [Fetch imageFile]
      | S _ => Fetch imageFile :: Sleep (backoff attempt)
                 :: paced imageFile (attempt + 1) n'
      end
  end.

Definition asThePageCalls : BackgroundRemovalOptions :=
  {| onProgress := true; maxRetries := Some 2%Z |}.

(** Two failures in a row, of different kinds. *)
Definition twoFailures (attempt : Z) : Attempt :=
  if (attempt =? 1)%Z then
    {| draws := [7; 12]%Q; fetched := Rejects (Js.ErrorObject "network unreachable") |}
  else
    {| draws := [3]%Q;
       fetched := Resolves {| ok := false; status := 500;
                              json := Resolves (Some "rembg exited with code 1");
                              blob := Rejects (Js.OtherValue "body already read") |} |}.

(** A failure followed by a success. *)
Definition secondTimeLucky (attempt : Z) : Attempt :=
  if (attempt =? 1)%Z then
    {| draws := []; fetched := Rejects (Js.ErrorObject "network unreachable") |}
  else
    {| draws := [10]%Q;
       fetched := Resolves {| ok := true; status := 200;
                              json := Rejects (Js.OtherValue "not JSON");
                              blob := Resolves cutoutBlob |} |}.

(** ** Sample canvas *)

(** Fabric's classic top-left origin, for an unrotated image. *)
Definition topLeftOrigin (w h sx sy a : Q) : Q * Q := ((w * sx / 2)%Q, (h * sy / 2)%Q).

Definition emptyCanvas : Fabric.Canvas :=
  {| Fabric.width := 800; Fabric.height := 600;
     Fabric.backgroundColor := "#f3f4f6";
     Fabric.backgroundImage := None;
     Fabric.objects := [] |}.

(** A 400 x 200 cut-out, and a transform asking for it at (10, 20) with
    scale 1/2. *)
Definition smallCutout : Dom.HTMLImageElement := Dom.mkImage "blob:c" 400 200.

Definition askedTransform : Transform :=
  {| x := 10; y := 20; scale := 0.5; rotation := 0 |}.


(** ** Further predicates *)

(** [l] never goes down and starts at [lo] or above. *)
Fixpoint nondecreasingFrom (lo : Q) (l : list Q) : Prop :=
  match l with
  | [] => True
  | p :: rest => (lo <= p)%Q /\ nondecreasingFrom p rest
  end.

(** What an attempt reports after the response has arrived. *)
Definition reportedAfterResponse (w : Attempt) : list Q :=
  match fetched w with
  | Rejects _ => []
  | Resolves r =>
      if ok r then
        match blob r with
        | Rejects _ => [90]
        | Resolves b => if (Dom.blob_size b =? 0)%Z then [90] else [90; 100]
        end
      else []
  end.

(** A browser with every feature and an empty, writable storage. *)
Definition freshBrowser : Browser :=
  {| createElement_throws := false;
     webgl := true; experimental_webgl := false;
     canvas_toDataURL := true; canvas_toBlob := true;
     window_File := true; window_FileReader := true; window_Blob := true;
     window_indexedDB := true;
     localStorage := {| blocked := false; full := false;
                        items := [("theme", "dark")] |} |}.

(** A 6000 x 4000 photograph. *)
Definition hugeImage : Dom.HTMLImageElement := Dom.mkImage "blob:huge" 6000 4000.

(** A canvas whose context and encoders work. *)
Definition workingCanvas : Canvas2D :=
  {| hasContext := true;
     toBlob := Some (Dom.mkBlob "image/png" 4096);
     toDataURL := "data:image/jpeg;base64,AAAA" |}.

(** What holds of the set of tracked URLs and of the revoked ones after
    any run of uses. *)
Definition trackerInvariant (uses : list Orchestration.TrackerUse)
    (state : Orchestration.BlobUrls * list string) : Prop :=
  NoDup (fst state) /\
  (forall u, In u (fst state) \/ In u (snd state) -> String.prefix "blob:" u = true) /\
  (forall url,
     (Orchestration.timesRevoked url (snd state)
      + (if Orchestration.has (fst state) url then 1 else 0)
      <= Orchestration.timesTracked url uses)%nat).

(** An upload of a 6000 x 4000 photograph, which is resized on the way. *)
Definition largeUpload : Orchestration.UploadWorld :=
  {| Orchestration.imageUrl := "blob:upload-1";
     Orchestration.decoded := Some (6000, 4000);
     Orchestration.resizeCanvas := workingCanvas;
     Orchestration.resizedUrl := "blob:upload-2";
     Orchestration.resizedDecoded := Some (resizedSize 6000 4000 2048 2048) |}.

(** The props the page passes after the second upload. *)
Definition secondUploadProps : CanvasEditor.Props :=
  Orchestration.canvasEditorProps (editor uploadedAgainMeanwhile).

(** An editor whose canvas has been created, and a cut-out placed on it. *)
Definition readyEditor : CanvasEditor.Editor :=
  {| CanvasEditor.fabricCanvas := Some emptyCanvas;
     CanvasEditor.isInitialized := true;
     CanvasEditor.currentTransform := None;
     CanvasEditor.hasInitializedTransform := false |}.

Definition placedCutout : Fabric.FabricImage :=
  {| Fabric.element := cutout;
     Fabric.left := 80; Fabric.top := 60;
     Fabric.scaleX := 0.5; Fabric.scaleY := 0.5; Fabric.angle := 0;
     Fabric.selectable := true; Fabric.evented := true;
     Fabric.hasControls := true |}.

(* ================================================================== *)
(** * Properties *)

(* ------------------------------------------------------------------ *)
(** ** The reducer *)

Lemma reduce_SET_PROGRESS (s : EditorState) (p : Q) :
  processingProgress (reduce s (SET_PROGRESS p)) = p.
Proof. reflexivity. Qed.

Lemma observedProgress_raw (ticks : list Q) :
  forall s, observedProgress s ticks = ticks.
Proof.
  induction ticks as [| p rest IH]; intros s; simpl.
  - reflexivity.
  - now rewrite IH.
Qed.

Lemma dispatchAll_app (s : EditorState) (l1 l2 : list EditorAction) :
  dispatchAll s (l1 ++ l2) = dispatchAll (dispatchAll s l1) l2.
Proof. unfold dispatchAll. apply fold_left_app. Qed.

(** An invariant of the reducer holds after every run from the initial
    state. *)
Lemma reducer_invariant (P : EditorState -> Prop) :
  P initialState ->
  (forall s a, P s -> P (reduce s a)) ->
  forall actions, P (dispatchAll initialState actions).
Proof.
  intros Hinit Hstep actions.
  induction actions as [| a rest IH] using rev_ind.
  - exact Hinit.
  - rewrite dispatchAll_app. simpl. apply Hstep, IH.
Qed.

(** *** Progress ticks *)

(** C1, as stated, fails: in a processing state whose progress is 30 the
    tick 20 is observed as 20, not as max(30, 20) = 30; and the ticks
    30, 20, 50 fed to a processing state are observed as 30, 20, 50, whose
    second entry differs from that of 30, 30, 50. *)
Lemma progress_tick_not_clamped :
  isProcessing processingAt30 = true /\
  processingProgress processingAt30 == 30 /\
  ~ processingProgress (reduce processingAt30 (SET_PROGRESS 20))
      == Qmax (processingProgress processingAt30) 20 /\
  observedProgress (dispatchAll initialState [SET_PROCESSING true; SET_PROGRESS 0])
                   [30; 20; 50] = [30; 20; 50] /\
  ~ Forall2 Qeq
      (observedProgress
         (dispatchAll initialState [SET_PROCESSING true; SET_PROGRESS 0])
         [30; 20; 50])
      [30; 30; 50].
Proof.
  repeat split.
  - intros H. vm_compute in H. discriminate H.
  - intros H. vm_compute in H.
    inversion H as [| ? ? ? ? _ Hrest]; subst.
    inversion Hrest as [| ? ? ? ? Hhead _]; subst.
    vm_compute in Hhead. discriminate Hhead.
Qed.

(** C1, amended: [SET_PROGRESS] stores the reported value as it is and
    changes no other field; the observed progress is max(p0, p) exactly
    when the tick does not go backwards (p0 <= p); a run of ticks is
    observed unchanged, so 30, 20, 50 is observed as 30, 20, 50. *)
Theorem progress_tick_stores_reported_value (s : EditorState) (p : Q) :
  processingProgress (reduce s (SET_PROGRESS p)) = p /\
  isProcessing (reduce s (SET_PROGRESS p)) = isProcessing s /\
  error (reduce s (SET_PROGRESS p)) = error s /\
  sameOutsideErrorCase s (reduce s (SET_PROGRESS p)) /\
  (processingProgress (reduce s (SET_PROGRESS p)) == Qmax (processingProgress s) p
   <-> processingProgress s <= p) /\
  (forall ticks, observedProgress s ticks = ticks) /\
  observedProgress s [30; 20; 50] = [30; 20; 50].
Proof.
  repeat match goal with |- _ /\ _ => split end; try reflexivity.
  - repeat split.
  - rewrite reduce_SET_PROGRESS. rewrite <- Q.max_r_iff.
    split; intros H; symmetry; exact H.
  - intros ticks. apply observedProgress_raw.
Qed.

(** *** Dismissing an error *)

(** C4, as stated, fails: dismissing also writes [isProcessing] and
    [processingProgress]. *)
Lemma dismissal_resets_processing_fields :
  let before := editor (run mount dismissalDuringProcessing) in
  let after := editor (step (run mount dismissalDuringProcessing) handleDismissError) in
  isProcessing before = true /\ isProcessing after = false /\
  processingProgress before == 15 /\ processingProgress after == 0 /\
  isProcessing after <> isProcessing before /\
  ~ processingProgress after == processingProgress before.
Proof.
  vm_compute. repeat split; try discriminate.
Qed.

(** C4, amended: dismissing the error sets [error] to null, [isProcessing]
    to false and [processingProgress] to 0, leaves every other field of
    the session as it was, and revokes no URL. *)
Theorem dismissal_frame (s : Session) :
  let s' := step s handleDismissError in
  error (editor s') = None /\
  isProcessing (editor s') = false /\
  processingProgress (editor s') = 0 /\
  sameOutsideErrorCase (editor s) (editor s') /\
  generation s' = generation s /\
  snd (editorReducer (editor s) (SET_ERROR None)) = [].
Proof.
  repeat split.
Qed.

(** *** Reset *)

(** C5: [RESET] applied to the result of [RESET] gives that result again;
    the result keeps the source image and file of the state before the
    first reset and holds the initial value in every other field.  The
    second reset revokes nothing, and the same holds for two calls of
    [handleReset].  (With no source loaded the result is the initial
    state itself.) *)
Theorem reset_idempotent (s : EditorState) :
  reduce (reduce s RESET) RESET = reduce s RESET /\
  dispatchAll s [RESET; RESET] = dispatchAll s [RESET] /\
  sourceImage (reduce s RESET) = sourceImage s /\
  sourceFile (reduce s RESET) = sourceFile s /\
  processedImage (reduce s RESET) = None /\
  processedBlob (reduce s RESET) = None /\
  backgroundColor (reduce s RESET) = None /\
  backgroundImage (reduce s RESET) = None /\
  transform (reduce s RESET) = {| x := 0; y := 0; scale := 1; rotation := 0 |} /\
  isProcessing (reduce s RESET) = false /\
  processingProgress (reduce s RESET) = 0 /\
  error (reduce s RESET) = None /\
  canvasRef (reduce s RESET) = None /\
  snd (editorReducer (reduce s RESET) RESET) = [] /\
  (forall g : nat,
     run (mkSession s g) [handleReset; handleReset] = run (mkSession s g) [handleReset]).
Proof.
  repeat split.
Qed.

(** *** Background *)

Lemma oneBackground_step (s : EditorState) (a : EditorAction) :
  oneBackground s -> oneBackground (reduce s a).
Proof.
  unfold oneBackground.
  destruct a; simpl; intros H; try exact H; auto.
Qed.

(** C6: choosing a colour clears the background image, choosing an image
    clears the colour, and after any run of actions from the initial
    state at most one of the two is set. *)
Theorem background_exclusive (actions : list EditorAction)
    (s : EditorState) (c : string) (i : Dom.HTMLImageElement) :
  (backgroundColor (reduce s (SET_BACKGROUND_COLOR c)) = Some c /\
   backgroundImage (reduce s (SET_BACKGROUND_COLOR c)) = None) /\
  (backgroundImage (reduce s (SET_BACKGROUND_IMAGE i)) = Some i /\
   backgroundColor (reduce s (SET_BACKGROUND_IMAGE i)) = None) /\
  (backgroundColor (dispatchAll initialState actions) = None \/
   backgroundImage (dispatchAll initialState actions) = None).
Proof.
  split; [ split; reflexivity | split; [ split; reflexivity | ] ].
  apply (reducer_invariant oneBackground).
  - left. reflexivity.
  - apply oneBackground_step.
Qed.

(** *** Processing and error *)

Lemma quietWhileProcessing_step (s : EditorState) (a : EditorAction) :
  quietWhileProcessing s -> quietWhileProcessing (reduce s a).
Proof.
  unfold quietWhileProcessing.
  destruct a as [ | | | | | b | | | ]; simpl; intros H; try exact H;
    try discriminate; try reflexivity.
  destruct b; [ reflexivity | discriminate ].
Qed.

(** A processing state with a value in [error] is not excluded by the
    types: the invariant is a fact about the reducer. *)
Example processing_is_reachable :
  isProcessing (dispatchAll initialState [SET_ERROR (Some "x"); SET_PROCESSING true]) = true.
Proof. reflexivity. Qed.

(** C10: after any run of actions from the initial state, a session that
    is processing has no error; [SET_PROCESSING true] clears the error
    from any state; [SET_ERROR] stores its payload and sets [isProcessing]
    to false; and from any state, an action that leaves a value in [error]
    which was not there before leaves [isProcessing] false. *)
Theorem processing_excludes_error (actions : list EditorAction)
    (s : EditorState) (a : EditorAction) :
  (isProcessing (dispatchAll initialState actions) = true ->
   error (dispatchAll initialState actions) = None) /\
  (isProcessing (reduce s (SET_PROCESSING true)) = true /\
   error (reduce s (SET_PROCESSING true)) = None) /\
  (forall payload : option string,
     error (reduce s (SET_ERROR payload)) = payload /\
     isProcessing (reduce s (SET_ERROR payload)) = false) /\
  (error (reduce s a) <> None -> error (reduce s a) <> error s ->
   isProcessing (reduce s a) = false).
Proof.
  split; [ | split; [ | split ] ].
  - apply (reducer_invariant quietWhileProcessing).
    + intros H. reflexivity.
    + apply quietWhileProcessing_step.
  - split; reflexivity.
  - intros payload. split; reflexivity.
  - destruct a as [ | | | | | b | | | ]; simpl; intros Hsome Hnew;
      try reflexivity; try (exfalso; apply Hnew; reflexivity);
      try (exfalso; apply Hsome; reflexivity).
    destruct b; [ exfalso; apply Hsome; reflexivity
                | reflexivity ].
Qed.

(** *** A removal that resolves after a new upload *)

(** C2, as stated, fails: the removal submitted under generation 1
    resolves when the generation is 2, and its image and blob are put in
    the processed slots, next to the second upload's source. *)
Lemma stale_result_is_applied :
  generation uploadedAgainMeanwhile = 2%nat /\
  processedImage (editor uploadedAgainMeanwhile) = None /\
  sourceImage
    (editor (step uploadedAgainMeanwhile
               (processRemoveBackground_onload 1 cutout cutoutBlob)))
  = Some secondImage /\
  processedImage
    (editor (step uploadedAgainMeanwhile
               (processRemoveBackground_onload 1 cutout cutoutBlob)))
  = Some cutout /\
  processedImage
    (editor (step uploadedAgainMeanwhile
               (processRemoveBackground_onload 1 cutout cutoutBlob)))
  <> processedImage (editor uploadedAgainMeanwhile).
Proof.
  repeat split. discriminate.
Qed.

(** C2, amended: the session carries no generation and the completion of
    a removal is applied whenever it arrives: whatever the generation it
    was submitted under, its image and blob become the processed image
    and blob, processing ends with progress 0 and no error, and the
    source and the other fields stay as they are. *)
Theorem removal_result_always_applied (s : Session) (submitted : nat)
    (image : Dom.HTMLImageElement) (blob : Dom.Blob) :
  let s' := step s (processRemoveBackground_onload submitted image blob) in
  processedImage (editor s') = Some image /\
  processedBlob (editor s') = Some blob /\
  isProcessing (editor s') = false /\
  processingProgress (editor s') = 0 /\
  error (editor s') = None /\
  sourceImage (editor s') = sourceImage (editor s) /\
  sourceFile (editor s') = sourceFile (editor s) /\
  backgroundColor (editor s') = backgroundColor (editor s) /\
  backgroundImage (editor s') = backgroundImage (editor s) /\
  transform (editor s') = transform (editor s) /\
  generation s' = generation s.
Proof.
  repeat split.
Qed.

(* ------------------------------------------------------------------ *)
(** ** The retrying client *)

Local Open Scope Z_scope.

Lemma fetches_app (l1 l2 : list Event) :
  fetches (l1 ++ l2) = (fetches l1 + fetches l2)%nat.
Proof. unfold fetches. now rewrite filter_app, length_app. Qed.

Lemma sleeps_app (l1 l2 : list Event) :
  sleeps (l1 ++ l2) = (sleeps l1 ++ sleeps l2)%list.
Proof.
  induction l1 as [| e l1 IH]; simpl; [ reflexivity | ].
  destruct e; simpl; now rewrite IH.
Qed.

Lemma report_quiet (o : BackgroundRemovalOptions) (p : Q) :
  fetches (report o p) = 0%nat /\ sleeps (report o p) = [].
Proof. unfold report. destruct (onProgress o); split; reflexivity. Qed.

Lemma reports_quiet (o : BackgroundRemovalOptions) (ps : list Q) :
  fetches (flat_map (report o) ps) = 0%nat /\ sleeps (flat_map (report o) ps) = [].
Proof.
  induction ps as [| p ps [IHf IHs]]; simpl; [ split; reflexivity | ].
  destruct (report_quiet o p) as [Hf Hs].
  rewrite fetches_app, sleeps_app, Hf, Hs, IHf, IHs. split; reflexivity.
Qed.

(** One attempt calls the transport once and does not wait. *)
Lemma attemptOnce_trace (f : Dom.File) (o : BackgroundRemovalOptions) (w : Attempt) :
  fetches (fst (attemptOnce f o w)) = 1%nat /\ sleeps (fst (attemptOnce f o w)) = [].
Proof.
  assert (Hstart :
    fetches (report o 5 ++ report o 15 ++ [Fetch f]
               ++ flat_map (report o) (progressUpdater 15 (draws w))) = 1%nat /\
    sleeps (report o 5 ++ report o 15 ++ [Fetch f]
              ++ flat_map (report o) (progressUpdater 15 (draws w))) = []).
  { destruct (report_quiet o 5) as [F5 S5], (report_quiet o 15) as [F15 S15].
    destruct (reports_quiet o (progressUpdater 15 (draws w))) as [Fd Sd].
    rewrite !fetches_app, !sleeps_app, F5, F15, Fd, S5, S15, Sd.
    split; reflexivity. }
  destruct Hstart as [Hf Hs].
  destruct (report_quiet o 90) as [F90 S90], (report_quiet o 100) as [F100 S100].
  unfold attemptOnce. cbv zeta.
  set (started := (report o 5 ++ _)%list) in *.
  destruct (fetched w) as [e | r]; cbn [fst]; [ now split | ].
  destruct (ok r); cbn [negb fst].
  - destruct (blob r) as [e | b]; cbn [fst].
    + rewrite fetches_app, sleeps_app, Hf, Hs, F90, S90. now split.
    + destruct (Dom.blob_size b =? 0); cbn [fst];
        rewrite ?fetches_app, ?sleeps_app, Hf, Hs, F90, S90, ?F100, ?S100;
        now split.
  - destruct (json r) as [e | m]; cbn [fst]; now split.
Qed.

(** The defining equation of the loop. *)
Lemma retryLoop_unfold (f : Dom.File) (o : BackgroundRemovalOptions) (m : Z)
    (w : Z -> Attempt) (a : Z) (le : option Js.Thrown) :
  retryLoop f o m w a le =
  if Z_lt_dec a m then
    match attemptOnce f o (w (a + 1)) with
    | (events, inr blob) => (events, inr blob)
    | (events, inl error) =>
        let logged := (events ++ [ConsoleError (a + 1) error])%list in
        if a + 1 >=? m then (logged, inl (Some error))
        else
          let '(later, outcome) := retryLoop f o m w (a + 1) (Some error) in
          ((logged ++ Sleep (backoff (a + 1)) :: later)%list, outcome)
    end
  else ([], inl le).
Proof.
  simp retryLoop. destruct (Z_lt_dec a m); reflexivity.
Qed.

Lemma backoff_bounds (attempt : Z) :
  1 <= attempt -> 1000 <= backoff attempt <= 5000.
Proof.
  intros H. unfold backoff.
  assert (Hp : 0 < 2 ^ (attempt - 1)) by (apply Z.pow_pos_nonneg; lia).
  lia.
Qed.

Lemma delaysAfter_next (a : Z) (k : nat) :
  (1 <= k)%nat ->
  delaysAfter a (S k) = backoff (a + 1) :: delaysAfter (a + 1) k.
Proof.
  intros Hk. unfold delaysAfter.
  replace (S k - 1)%nat with (S (k - 1)) by lia.
  simpl seq. simpl map. f_equal.
  rewrite <- seq_shift, map_map.
  apply map_ext. intros i. f_equal. lia.
Qed.

(** When every remaining attempt fails, the loop is left through its exit
    holding the failure of the last attempt, after one transport call per
    remaining attempt and one wait between consecutive attempts. *)
Lemma retryLoop_exhausted (f : Dom.File) (o : BackgroundRemovalOptions) (m : Z)
    (w : Z -> Attempt) :
  forall (k : nat) (a : Z) (le : option Js.Thrown),
    Z.to_nat (m - a) = k ->
    (forall i, a < i <= m -> failure f o (w i) <> None) ->
    snd (retryLoop f o m w a le)
      = inl (if Z_lt_dec a m then failure f o (w m) else le) /\
    fetches (fst (retryLoop f o m w a le)) = k /\
    sleeps (fst (retryLoop f o m w a le)) = delaysAfter a k.
Proof.
  induction k as [| k IH]; intros a le Hk Hfail; rewrite retryLoop_unfold.
  - destruct (Z_lt_dec a m) as [Hlt | Hge]; [ lia | ].
    repeat split.
  - destruct (Z_lt_dec a m) as [Hlt | Hge]; [ | lia ].
    pose proof (Hfail (a + 1) ltac:(lia)) as Hnow.
    pose proof (attemptOnce_trace f o (w (a + 1))) as [Hf Hs].
    unfold failure in Hnow.
    destruct (attemptOnce f o (w (a + 1))) as [events [e | b]] eqn:Hrun;
      simpl in Hnow, Hf, Hs; [ | congruence ].
    cbv zeta.
    destruct (a + 1 >=? m) eqn:Hlast.
    + assert (m = a + 1) by lia. subst m.
      simpl. rewrite fetches_app, sleeps_app, Hf, Hs.
      unfold failure. rewrite Hrun. simpl.
      replace k with 0%nat by lia.
      repeat split.
    + assert (Hk' : Z.to_nat (m - (a + 1)) = k) by lia.
      destruct (IH (a + 1) (Some e) Hk' ltac:(intros; apply Hfail; lia))
        as (Hres & Hfs & Hsl).
      destruct (retryLoop f o m w (a + 1) (Some e)) as [later outcome].
      simpl in Hres, Hfs, Hsl. simpl.
      destruct (Z_lt_dec (a + 1) m) as [_ | ?]; [ | lia ].
      rewrite !fetches_app, !sleeps_app, Hf, Hs. simpl.
      change (fetches (Sleep (backoff (a + 1)) :: later)) with (fetches later).
      rewrite Hfs, Hsl, delaysAfter_next by lia.
      repeat split. exact Hres.
Qed.

(** The whole call, when every attempt within the budget fails. *)
Lemma exhausted_call (f : Dom.File) (o : BackgroundRemovalOptions) (w : Z -> Attempt) :
  (forall attempt, 1 <= attempt <= budget o -> failure f o (w attempt) <> None) ->
  fetches (fst (processBackgroundRemoval f o w)) = Z.to_nat (budget o) /\
  sleeps (fst (processBackgroundRemoval f o w)) = delaysAfter 0 (Z.to_nat (budget o)) /\
  exists lastError,
    lastError = (if Z_lt_dec 0 (budget o) then failure f o (w (budget o)) else None) /\
    snd (processBackgroundRemoval f o w)
    = inl {| message :=
               ("Failed to remove background after " ++ Js.showZ (budget o)
                  ++ " attempts: "
                  ++ match lastError with
                     | Some (Js.ErrorObject m) => m
                     | _ => "Unknown error occurred"
                     end)%string;
             originalError := lastError;
             retryable := true |}.
Proof.
  intros Hfail.
  destruct (retryLoop_exhausted f o (budget o) w (Z.to_nat (budget o)) 0 None)
    as (Hres & Hf & Hs).
  - f_equal. lia.
  - intros i Hi. apply Hfail. lia.
  - unfold processBackgroundRemoval. cbv zeta.
    destruct (retryLoop f o (budget o) w 0 None) as [events outcome].
    simpl in Hres, Hf, Hs. subst outcome. simpl.
    repeat split; try assumption.
    eexists. split; reflexivity.
Qed.

Lemma callsAndWaits_app (l1 l2 : list Event) :
  callsAndWaits (l1 ++ l2) = (callsAndWaits l1 ++ callsAndWaits l2)%list.
Proof. unfold callsAndWaits. apply filter_app. Qed.

Lemma reports_call_nothing (o : BackgroundRemovalOptions) (ps : list Q) :
  callsAndWaits (flat_map (report o) ps) = [].
Proof.
  induction ps as [| p ps IH]; simpl; [ reflexivity | ].
  rewrite callsAndWaits_app, IH. unfold report. now destruct (onProgress o).
Qed.

(** One attempt is one transport call. *)
Lemma attemptOnce_calls (f : Dom.File) (o : BackgroundRemovalOptions) (w : Attempt) :
  callsAndWaits (fst (attemptOnce f o w)) = [Fetch f].
Proof.
  pose proof (reports_call_nothing o) as Hq.
  assert (Hone : forall p, callsAndWaits (report o p) = [])
    by (intros p; specialize (Hq [p]); simpl in Hq; now rewrite app_nil_r in Hq).
  assert (Hstart :
    callsAndWaits (report o 5 ++ report o 15 ++ [Fetch f]
                     ++ flat_map (report o) (progressUpdater 15 (draws w))) = [Fetch f]).
  { now rewrite !callsAndWaits_app, !Hone, Hq. }
  unfold attemptOnce. cbv zeta.
  set (started := (report o 5 ++ _)%list) in *.
  destruct (fetched w) as [e | r]; cbn [fst]; [ exact Hstart | ].
  destruct (ok r); cbn [negb fst].
  - destruct (blob r) as [e | b]; cbn [fst].
    + now rewrite callsAndWaits_app, Hstart, Hone.
    + destruct (Dom.blob_size b =? 0); cbn [fst];
        now rewrite ?callsAndWaits_app, Hstart, !Hone.
  - destruct (json r) as [e | m]; cbn [fst]; exact Hstart.
Qed.

(** Whatever the transport does, the calls and waits of the loop alternate:
    a call, the wait for that attempt, the next call, and so on, ending
    with a call. *)
Lemma retryLoop_paced (f : Dom.File) (o : BackgroundRemovalOptions) (m : Z)
    (w : Z -> Attempt) :
  forall (n : nat) (a : Z) (le : option Js.Thrown),
    Z.to_nat (m - a) = n ->
    callsAndWaits (fst (retryLoop f o m w a le))
      = paced f (a + 1) (fetches (fst (retryLoop f o m w a le))) /\
    (a < m -> (1 <= fetches (fst (retryLoop f o m w a le)))%nat).
Proof.
  induction n as [| n IH]; intros a le Hn; rewrite retryLoop_unfold.
  - destruct (Z_lt_dec a m) as [Hlt | Hge]; [ lia | ]. split; [ reflexivity | lia ].
  - destruct (Z_lt_dec a m) as [Hlt | Hge]; [ | lia ].
    pose proof (attemptOnce_trace f o (w (a + 1))) as [Hf _].
    pose proof (attemptOnce_calls f o (w (a + 1))) as Hc.
    destruct (attemptOnce f o (w (a + 1))) as [events [e | b']]; simpl in Hf, Hc.
    + cbv zeta. destruct (a + 1 >=? m) eqn:Hlast.
      * simpl. rewrite callsAndWaits_app, fetches_app, Hf, Hc.
        split; [ reflexivity | intros _; simpl; lia ].
      * destruct (IH (a + 1) (Some e) ltac:(lia)) as [Hlater Hpos].
        specialize (Hpos ltac:(lia)).
        destruct (retryLoop f o m w (a + 1) (Some e)) as [later outcome].
        simpl in Hlater, Hpos. simpl.
        rewrite !callsAndWaits_app, !fetches_app, Hf, Hc. simpl.
        change (fetches (Sleep (backoff (a + 1)) :: later)) with (fetches later).
        change (fetches [ConsoleError (a + 1) e]) with 0%nat.
        rewrite Hlater. split; [ | lia ].
        destruct (fetches later) as [| k]; [ lia | reflexivity ].
    + simpl. rewrite Hf, Hc. split; [ reflexivity | lia ].
Qed.

(** The same for the whole call. *)
Lemma call_paced (f : Dom.File) (o : BackgroundRemovalOptions) (w : Z -> Attempt) :
  callsAndWaits (fst (processBackgroundRemoval f o w))
    = paced f 1 (fetches (fst (processBackgroundRemoval f o w))).
Proof.
  destruct (retryLoop_paced f o (budget o) w (Z.to_nat (budget o - 0)) 0 None eq_refl)
    as [H _].
  unfold processBackgroundRemoval. cbv zeta.
  destruct (retryLoop f o (budget o) w 0 None) as [events [lastError | b]];
    exact H.
Qed.

Example secondTimeLucky_trace :
  processBackgroundRemoval firstFile asThePageCalls secondTimeLucky
  = ([ Progress 5; Progress 15; Fetch firstFile;
       ConsoleError 1 (Js.ErrorObject "network unreachable");
       Sleep 1000;
       Progress 5; Progress 15; Fetch firstFile; Progress (Qmin (15 + 10) 85);
       Progress 90; Progress 100 ],
     inr cutoutBlob).
Proof. reflexivity. Qed.

(** C3: with a budget of two attempts that both fail, the transport is
    called exactly twice and the client waits once, between the two calls
    and not after the second, for min(1000 * 2^(1-1), 5000) = 1000 ms:
    its calls and waits are, in this order, a call, that wait, a call.
    The wait after any attempt [n >= 1] is min(1000 * 2^(n-1), 5000),
    which lies between 1000 and 5000. *)
Theorem retry_budget_and_backoff (imageFile : Dom.File)
    (options : BackgroundRemovalOptions) (world : Z -> Attempt) :
  budget options = 2 ->
  (forall attempt, 1 <= attempt <= 2 ->
     failure imageFile options (world attempt) <> None) ->
  fetches (fst (processBackgroundRemoval imageFile options world)) = 2%nat /\
  sleeps (fst (processBackgroundRemoval imageFile options world))
    = [Z.min (1000 * 2 ^ (1 - 1)) 5000] /\
  callsAndWaits (fst (processBackgroundRemoval imageFile options world))
    = [Fetch imageFile; Sleep (Z.min (1000 * 2 ^ (1 - 1)) 5000); Fetch imageFile] /\
  Forall (fun delay => 1000 <= delay <= 5000)
         (sleeps (fst (processBackgroundRemoval imageFile options world))) /\
  (forall attempt, 1 <= attempt ->
     backoff attempt = Z.min (1000 * 2 ^ (attempt - 1)) 5000 /\
     1000 <= backoff attempt <= 5000).
Proof.
  intros Hbudget Hfail.
  destruct (exhausted_call imageFile options world) as (Hf & Hs & _).
  { rewrite Hbudget. exact Hfail. }
  rewrite Hbudget in Hf, Hs.
  rewrite call_paced, Hf, Hs.
  repeat split; try reflexivity.
  - constructor; [ vm_compute; split; discriminate | constructor ].
  - apply backoff_bounds. assumption.
  - apply backoff_bounds. assumption.
Qed.

Lemma twoFailures_fail (o : BackgroundRemovalOptions) (attempt : Z) :
  failure firstFile o (twoFailures attempt) <> None.
Proof.
  unfold twoFailures. destruct (attempt =? 1); discriminate.
Qed.

Lemma retry_budget_and_backoff_witness :
  fetches (fst (processBackgroundRemoval firstFile asThePageCalls twoFailures)) = 2%nat /\
  sleeps (fst (processBackgroundRemoval firstFile asThePageCalls twoFailures))
    = [Z.min (1000 * 2 ^ (1 - 1)) 5000] /\
  callsAndWaits (fst (processBackgroundRemoval firstFile asThePageCalls twoFailures))
    = [Fetch firstFile; Sleep (Z.min (1000 * 2 ^ (1 - 1)) 5000); Fetch firstFile] /\
  Forall (fun delay => 1000 <= delay <= 5000)
         (sleeps (fst (processBackgroundRemoval firstFile asThePageCalls twoFailures))) /\
  (forall attempt, 1 <= attempt ->
     backoff attempt = Z.min (1000 * 2 ^ (attempt - 1)) 5000 /\
     1000 <= backoff attempt <= 5000).
Proof.
  apply (retry_budget_and_backoff firstFile asThePageCalls twoFailures).
  - reflexivity.
  - intros attempt _. apply twoFailures_fail.
Defined.

(** C8: when every attempt within the budget fails, the call rejects with
    a [BackgroundRemovalError] and never resolves: the error is retryable,
    its message names the budget and the cause, and when at least one
    attempt was made its [originalError] is what the last attempt failed
    with. *)
Theorem exhaustion_rejects_with_typed_error (imageFile : Dom.File)
    (options : BackgroundRemovalOptions) (world : Z -> Attempt) :
  (forall attempt, 1 <= attempt <= budget options ->
     failure imageFile options (world attempt) <> None) ->
  exists e : BackgroundRemovalError,
    snd (processBackgroundRemoval imageFile options world) = inl e /\
    retryable e = true /\
    (1 <= budget options ->
     originalError e <> None /\
     originalError e = failure imageFile options (world (budget options))) /\
    (budget options < 1 -> originalError e = None) /\
    message e
    = ("Failed to remove background after " ++ Js.showZ (budget options)
         ++ " attempts: "
         ++ match originalError e with
            | Some (Js.ErrorObject m) => m
            | _ => "Unknown error occurred"
            end)%string.
Proof.
  intros Hfail.
  destruct (exhausted_call imageFile options world Hfail)
    as (_ & _ & lastError & Hlast & Hres).
  eexists. split; [ exact Hres | ]. simpl.
  split; [ reflexivity | ].
  destruct (Z_lt_dec 0 (budget options)) as [Hpos | Hnone]; subst lastError.
  - repeat split; try lia. apply Hfail. lia.
  - repeat split; try lia; intros; lia.
Qed.

Lemma exhaustion_rejects_with_typed_error_witness :
  exists e : BackgroundRemovalError,
    snd (processBackgroundRemoval firstFile asThePageCalls twoFailures) = inl e /\
    retryable e = true /\
    (1 <= budget asThePageCalls ->
     originalError e <> None /\
     originalError e = failure firstFile asThePageCalls (twoFailures (budget asThePageCalls))) /\
    (budget asThePageCalls < 1 -> originalError e = None) /\
    message e
    = ("Failed to remove background after " ++ Js.showZ (budget asThePageCalls)
         ++ " attempts: "
         ++ match originalError e with
            | Some (Js.ErrorObject m) => m
            | _ => "Unknown error occurred"
            end)%string.
Proof.
  apply (exhaustion_rejects_with_typed_error firstFile asThePageCalls twoFailures).
  intros attempt _. apply twoFailures_fail.
Defined.

Example twoFailures_outcome :
  snd (processBackgroundRemoval firstFile asThePageCalls twoFailures)
  = inl {| message := "Failed to remove background after 2 attempts: rembg exited with code 1";
           originalError := Some (Js.ErrorObject "rembg exited with code 1");
           retryable := true |}.
Proof. reflexivity. Qed.

(* ------------------------------------------------------------------ *)
(** ** Composition *)

Local Open Scope Q_scope.

Lemma Qdiv_pos (a b : Q) : 0 < a -> 0 < b -> 0 < a / b.
Proof.
  intros Ha Hb. apply Qlt_shift_div_l; [ exact Hb | ].
  rewrite Qmult_0_l. exact Ha.
Qed.





(** A 400 x 200 cut-out asked for at (10, 20) with scale 1/2 ends up with
    its corner at (300, 250), that is, with its centre at (400, 300). *)
Example compose_overrides_position :
  Fabric.objects
    (composeImage topLeftOrigin emptyCanvas (Dom.mkImage "blob:c" 400 200)
       (color "#ffffff") {| x := 10; y := 20; scale := 0.5; rotation := 0 |})
  = [ {| Fabric.element := Dom.mkImage "blob:c" 400 200;
         Fabric.left := 800 / 2 - 400 * 0.5 / 2;
         Fabric.top := 600 / 2 - 200 * 0.5 / 2;
         Fabric.scaleX := 0.5; Fabric.scaleY := 0.5; Fabric.angle := 0;
         Fabric.selectable := true; Fabric.evented := true;
         Fabric.hasControls := true |} ].
Proof. reflexivity. Qed.

(** Moving an object's centre to [p] puts its centre point at [p] and
    keeps its element, scales and angle. *)
Lemma setCenter_centre (originOffset : Q -> Q -> Q -> Q -> Q -> Q * Q)
    (p : Q * Q) (o : Fabric.FabricImage) :
  fst (Fabric.getCenterPoint originOffset (Fabric.setCenter originOffset p o)) == fst p /\
  snd (Fabric.getCenterPoint originOffset (Fabric.setCenter originOffset p o)) == snd p.
Proof.
  unfold Fabric.getCenterPoint, Fabric.setCenter, Fabric.offsetOf. simpl.
  split; ring.
Qed.

(** A positive scale is held as it is given. *)
Lemma heldScale_positive (v : Q) : 0 < v -> Fabric.heldScale v = v.
Proof.
  intros Hv. unfold Fabric.heldScale, Js.lt.
  assert (Hz : Qeq_bool v 0 = false).
  { destruct (Qeq_bool v 0) eqn:H; [ | reflexivity ].
    apply Qeq_bool_iff in H. rewrite H in Hv. discriminate Hv. }
  assert (Hle : Qle_bool 0 v = true) by (apply Qle_bool_iff, Qlt_le_weak, Hv).
  now rewrite Hz, Hle.
Qed.

(** C9: for every transform whose scale is positive (the invariant of a
    [Transform]), whatever its [x] and [y], the canvas [composeImage]
    leaves holds the foreground alone, with its centre point at the
    centre of the canvas, its two scales equal to [transform.scale] and
    its angle equal to [transform.rotation]; and the result does not
    depend on [transform.x] and [transform.y]. *)
Theorem compose_recenters (originOffset : Q -> Q -> Q -> Q -> Q -> Q * Q)
    (canvas : Fabric.Canvas) (foreground : Dom.HTMLImageElement)
    (background : Background) (transform : Transform) :
  0 < scale transform ->
  (exists fg : Fabric.FabricImage,
     Fabric.objects (composeImage originOffset canvas foreground background transform)
       = [fg] /\
     Fabric.element fg = foreground /\
     fst (Fabric.getCenterPoint originOffset fg) == Fabric.width canvas / 2 /\
     snd (Fabric.getCenterPoint originOffset fg) == Fabric.height canvas / 2 /\
     Fabric.scaleX fg = scale transform /\
     Fabric.scaleY fg = scale transform /\
     Fabric.angle fg = rotation transform) /\
  (forall x' y' : Q,
     composeImage originOffset canvas foreground background
       {| x := x'; y := y'; scale := scale transform; rotation := rotation transform |}
     = composeImage originOffset canvas foreground background transform).
Proof.
  intros Hscale. split.
  - unfold composeImage.
    destruct background as [value | bgImg]; simpl;
      eexists; (split; [ reflexivity | ]);
      (split; [ reflexivity | ]);
      (split; [ apply setCenter_centre | ]);
      (split; [ apply setCenter_centre | ]);
      cbn [Fabric.scaleX Fabric.scaleY Fabric.angle Fabric.setCenter];
      rewrite (heldScale_positive _ Hscale); repeat split.
  - intros x' y'. unfold composeImage.
    destruct background as [value | bgImg]; reflexivity.
Qed.

Lemma compose_recenters_witness :
  (exists fg : Fabric.FabricImage,
     Fabric.objects
       (composeImage topLeftOrigin emptyCanvas smallCutout (color "#ffffff")
          askedTransform)
       = [fg] /\
     Fabric.element fg = smallCutout /\
     fst (Fabric.getCenterPoint topLeftOrigin fg) == Fabric.width emptyCanvas / 2 /\
     snd (Fabric.getCenterPoint topLeftOrigin fg) == Fabric.height emptyCanvas / 2 /\
     Fabric.scaleX fg = scale askedTransform /\
     Fabric.scaleY fg = scale askedTransform /\
     Fabric.angle fg = rotation askedTransform) /\
  (forall x' y' : Q,
     composeImage topLeftOrigin emptyCanvas smallCutout (color "#ffffff")
       {| x := x'; y := y'; scale := scale askedTransform;
          rotation := rotation askedTransform |}
     = composeImage topLeftOrigin emptyCanvas smallCutout (color "#ffffff")
         askedTransform).
Proof.
  apply (compose_recenters topLeftOrigin emptyCanvas smallCutout (color "#ffffff")
           askedTransform).
  reflexivity.
Defined.

(* ================================================================== *)
(** * Further properties *)

(* ------------------------------------------------------------------ *)
(** ** The retrying client, for every behaviour of the transport *)

Local Open Scope Z_scope.

(** What it takes for an attempt to succeed. *)
Lemma attemptOnce_success (f : Dom.File) (o : BackgroundRemovalOptions)
    (w : Attempt) (b : Dom.Blob) :
  snd (attemptOnce f o w) = inr b ->
  exists r, fetched w = Resolves r /\ ok r = true /\
            blob r = Resolves b /\ Dom.blob_size b <> 0.
Proof.
  unfold attemptOnce. cbv zeta.
  destruct (fetched w) as [e | r]; cbn [snd]; [ discriminate | ].
  destruct (ok r) eqn:Hok; cbn [negb snd].
  - destruct (blob r) as [e | b'] eqn:Hblob; cbn [snd]; [ discriminate | ].
    destruct (Dom.blob_size b' =? 0) eqn:Hsize; cbn [snd]; [ discriminate | ].
    intros H. injection H as ->.
    exists r. repeat split; try assumption. now apply Z.eqb_neq.
  - destruct (json r); cbn [snd]; discriminate.
Qed.

(** X6: an attempt fails unless the request resolves with an OK response
    whose body can be read and is not empty; what it fails with is the
    rejection of the request, of the payload or of the body, the error
    text of a non-OK payload (the HTTP status when that text is missing or
    empty), or the empty-result error. *)
Theorem attempt_failure_conditions (f : Dom.File) (o : BackgroundRemovalOptions)
    (w : Attempt) :
  (failure f o w = None <->
   exists r b, fetched w = Resolves r /\ ok r = true /\
               blob r = Resolves b /\ Dom.blob_size b <> 0) /\
  (forall e, fetched w = Rejects e -> failure f o w = Some e) /\
  (forall r e, fetched w = Resolves r -> ok r = false -> json r = Rejects e ->
     failure f o w = Some e) /\
  (forall r c m, fetched w = Resolves r -> ok r = false ->
     json r = Resolves (Some (String c m)) ->
     failure f o w = Some (Js.ErrorObject (String c m))) /\
  (forall r m, fetched w = Resolves r -> ok r = false ->
     json r = Resolves m -> m = None \/ m = Some EmptyString ->
     failure f o w
     = Some (Js.ErrorObject ("HTTP error! status: " ++ Js.showZ (status r))%string)) /\
  (forall r e, fetched w = Resolves r -> ok r = true -> blob r = Rejects e ->
     failure f o w = Some e) /\
  (forall r b, fetched w = Resolves r -> ok r = true -> blob r = Resolves b ->
     Dom.blob_size b = 0 ->
     failure f o w = Some (Js.ErrorObject "Background removal produced empty result")).
Proof.
  split; [ split | ].
  - unfold failure. destruct (snd (attemptOnce f o w)) as [e | b] eqn:Hrun;
      [ discriminate | intros _ ].
    destruct (attemptOnce_success f o w b Hrun) as (r & H). now exists r, b.
  - intros (r & b & Hf & Hok & Hb & Hsize).
    unfold failure, attemptOnce. cbv zeta. rewrite Hf, Hok, Hb. cbn [negb].
    apply Z.eqb_neq in Hsize. now rewrite Hsize.
  - unfold failure, attemptOnce. cbv zeta.
    repeat split.
    + intros e ->. reflexivity.
    + intros r e -> -> ->. reflexivity.
    + intros r c m -> -> ->. reflexivity.
    + intros r m -> -> -> [-> | ->]; reflexivity.
    + intros r e -> -> ->. reflexivity.
    + intros r b -> -> -> Hsize. cbn [negb].
      apply Z.eqb_eq in Hsize. now rewrite Hsize.
Qed.

(** The loop, entered with attempts [a+1 .. k-1] failing and attempt [k]
    succeeding. *)
Lemma retryLoop_first_success (f : Dom.File) (o : BackgroundRemovalOptions)
    (m : Z) (w : Z -> Attempt) (k : Z) (b : Dom.Blob) :
  k <= m ->
  snd (attemptOnce f o (w k)) = inr b ->
  forall (n : nat) (a : Z) (le : option Js.Thrown),
    Z.to_nat (k - a) = S n ->
    (forall i, a < i < k -> failure f o (w i) <> None) ->
    snd (retryLoop f o m w a le) = inr b /\
    fetches (fst (retryLoop f o m w a le)) = S n /\
    sleeps (fst (retryLoop f o m w a le)) = delaysAfter a (S n).
Proof.
  intros Hkm Hwin.
  induction n as [| n IH]; intros a le Hn Hfail; rewrite retryLoop_unfold;
    (destruct (Z_lt_dec a m) as [Hlt | ?]; [ | lia ]);
    pose proof (attemptOnce_trace f o (w (a + 1))) as [Hf Hs].
  - assert (k = a + 1) by lia. subst k.
    destruct (attemptOnce f o (w (a + 1))) as [events [e | b']];
      simpl in Hwin, Hf, Hs; [ discriminate | ].
    injection Hwin as ->. repeat split; assumption.
  - pose proof (Hfail (a + 1) ltac:(lia)) as Hnow. unfold failure in Hnow.
    destruct (attemptOnce f o (w (a + 1))) as [events [e | b']];
      simpl in Hnow, Hf, Hs; [ | congruence ].
    cbv zeta.
    destruct (a + 1 >=? m) eqn:Hlast; [ lia | ].
    destruct (IH (a + 1) (Some e) ltac:(lia) ltac:(intros; apply Hfail; lia))
      as (Hres & Hfs & Hsl).
    destruct (retryLoop f o m w (a + 1) (Some e)) as [later outcome].
    simpl in Hres, Hfs, Hsl. simpl.
    rewrite !fetches_app, !sleeps_app, Hf, Hs. simpl.
    change (fetches (Sleep (backoff (a + 1)) :: later)) with (fetches later).
    rewrite Hfs, Hsl, (delaysAfter_next a (S n)) by lia.
    repeat split. exact Hres.
Qed.

(** X1: when attempt [k] of the budget is the first to succeed, the call
    resolves with that attempt's blob after exactly [k] transport calls
    and [k - 1] waits, of [backoff 1], ..., [backoff (k - 1)]; no attempt
    is made after a success. *)
Theorem first_success_stops_retrying (imageFile : Dom.File)
    (options : BackgroundRemovalOptions) (world : Z -> Attempt)
    (k : Z) (b : Dom.Blob) :
  1 <= k <= budget options ->
  (forall i, 1 <= i < k -> failure imageFile options (world i) <> None) ->
  snd (attemptOnce imageFile options (world k)) = inr b ->
  snd (processBackgroundRemoval imageFile options world) = inr b /\
  fetches (fst (processBackgroundRemoval imageFile options world)) = Z.to_nat k /\
  sleeps (fst (processBackgroundRemoval imageFile options world))
    = map (fun i => backoff (Z.of_nat i)) (seq 1 (Z.to_nat k - 1)).
Proof.
  intros Hk Hfail Hwin.
  destruct (retryLoop_first_success imageFile options (budget options) world k b
              ltac:(lia) Hwin (Z.to_nat k - 1) 0 None)
    as (Hres & Hf & Hs).
  - lia.
  - intros i Hi. apply Hfail. lia.
  - unfold processBackgroundRemoval. cbv zeta.
    destruct (retryLoop imageFile options (budget options) world 0 None)
      as [events outcome].
    simpl in Hres, Hf, Hs. subst outcome. simpl.
    rewrite Hf, Hs. unfold delaysAfter.
    replace (S (Z.to_nat k - 1) - 1)%nat with (Z.to_nat k - 1)%nat by lia.
    repeat split. lia.
Qed.

Lemma first_success_stops_retrying_witness :
  snd (processBackgroundRemoval firstFile asThePageCalls secondTimeLucky)
    = inr cutoutBlob /\
  fetches (fst (processBackgroundRemoval firstFile asThePageCalls secondTimeLucky))
    = Z.to_nat 2 /\
  sleeps (fst (processBackgroundRemoval firstFile asThePageCalls secondTimeLucky))
    = map (fun i => backoff (Z.of_nat i)) (seq 1 (Z.to_nat 2 - 1)).
Proof.
  apply (first_success_stops_retrying firstFile asThePageCalls secondTimeLucky 2 cutoutBlob).
  - vm_compute. split; discriminate.
  - intros i Hi. assert (i = 1) by lia. subst i. discriminate.
  - reflexivity.
Defined.

(** The loop, whatever the transport does. *)
Lemma retryLoop_bounds (f : Dom.File) (o : BackgroundRemovalOptions) (m : Z)
    (w : Z -> Attempt) :
  forall (n : nat) (a : Z) (le : option Js.Thrown),
    Z.to_nat (m - a) = n -> 0 <= a ->
    (fetches (fst (retryLoop f o m w a le)) <= n)%nat /\
    (a < m -> (1 <= fetches (fst (retryLoop f o m w a le)))%nat) /\
    List.length (sleeps (fst (retryLoop f o m w a le)))
      = Nat.pred (fetches (fst (retryLoop f o m w a le))) /\
    Forall (fun delay => 1000 <= delay <= 5000)
           (sleeps (fst (retryLoop f o m w a le))) /\
    (m <= a -> retryLoop f o m w a le = ([], inl le)) /\
    (forall b, snd (retryLoop f o m w a le) = inr b ->
       exists i, a < i <= m /\ snd (attemptOnce f o (w i)) = inr b).
Proof.
  induction n as [| n IH]; intros a le Hn Ha; rewrite retryLoop_unfold.
  - destruct (Z_lt_dec a m) as [Hlt | Hge]; [ lia | ].
    simpl. repeat match goal with |- _ /\ _ => split end;
      try (intros; lia); try apply Forall_nil; try reflexivity.
    intros b Hb. discriminate Hb.
  - destruct (Z_lt_dec a m) as [Hlt | Hge]; [ | lia ].
    pose proof (attemptOnce_trace f o (w (a + 1))) as [Hf Hs].
    destruct (attemptOnce f o (w (a + 1))) as [events [e | b']] eqn:Hrun;
      simpl in Hf, Hs.
    + cbv zeta. destruct (a + 1 >=? m) eqn:Hlast.
      * simpl. rewrite fetches_app, sleeps_app, Hf, Hs. simpl.
        change (fetches [ConsoleError (a + 1) e]) with 0%nat.
        repeat match goal with |- _ /\ _ => split end;
          try (intros; lia); try apply Forall_nil.
        intros b Hb. discriminate Hb.
      * destruct (IH (a + 1) (Some e) ltac:(lia) ltac:(lia))
          as (Hle & Hpos & Hlen & Hall & _ & Hwin).
        specialize (Hpos ltac:(lia)).
        destruct (retryLoop f o m w (a + 1) (Some e)) as [later outcome].
        simpl in Hle, Hpos, Hlen, Hall, Hwin. simpl.
        rewrite !fetches_app, !sleeps_app, Hf, Hs. simpl.
        change (fetches (Sleep (backoff (a + 1)) :: later)) with (fetches later).
        change (fetches [ConsoleError (a + 1) e]) with 0%nat.
        repeat match goal with |- _ /\ _ => split end;
          try (intros; lia).
        -- constructor; [ apply backoff_bounds; lia | exact Hall ].
        -- intros b Hb. destruct (Hwin b Hb) as (i & Hi & Hok).
           exists i. split; [ lia | exact Hok ].
    + simpl. rewrite Hf, Hs. simpl.
      repeat match goal with |- _ /\ _ => split end;
        try (intros; lia); try apply Forall_nil.
      intros b Hb. injection Hb as ->.
      exists (a + 1). split; [ lia | ]. now rewrite Hrun.
Qed.

(** X2: whatever the transport does, the call makes at most as many
    transport calls as its budget; its calls and waits alternate, starting
    and ending with a call, so that it waits exactly once between two
    consecutive calls and never after the last one; the wait after
    attempt [n] is [backoff n], and every wait is between 1000 and
    5000 ms; with a budget below 1 it does nothing and rejects with an
    error that wraps no cause. *)
Theorem client_stays_within_budget (imageFile : Dom.File)
    (options : BackgroundRemovalOptions) (world : Z -> Attempt) :
  (fetches (fst (processBackgroundRemoval imageFile options world))
     <= Z.to_nat (budget options))%nat /\
  callsAndWaits (fst (processBackgroundRemoval imageFile options world))
    = paced imageFile 1
        (fetches (fst (processBackgroundRemoval imageFile options world))) /\
  List.length (sleeps (fst (processBackgroundRemoval imageFile options world)))
    = Nat.pred (fetches (fst (processBackgroundRemoval imageFile options world))) /\
  Forall (fun delay => 1000 <= delay <= 5000)
         (sleeps (fst (processBackgroundRemoval imageFile options world))) /\
  (budget options < 1 ->
   processBackgroundRemoval imageFile options world
   = ([], inl {| message :=
                   ("Failed to remove background after " ++ Js.showZ (budget options)
                      ++ " attempts: Unknown error occurred")%string;
                 originalError := None;
                 retryable := true |})).
Proof.
  destruct (retryLoop_bounds imageFile options (budget options) world
              (Z.to_nat (budget options)) 0 None ltac:(f_equal; lia) ltac:(lia))
    as (Hle & _ & Hlen & Hall & Hnone & _).
  pose proof (call_paced imageFile options world) as Hpaced.
  revert Hpaced.
  unfold processBackgroundRemoval. cbv zeta.
  destruct (retryLoop imageFile options (budget options) world 0 None)
    as [events [lastError | b]] eqn:Hrun; simpl in *; intros Hpaced.
  - repeat split; try assumption.
    intros Hb. specialize (Hnone ltac:(lia)).
    injection Hnone as -> ->. reflexivity.
  - repeat split; try assumption.
    intros Hb. specialize (Hnone ltac:(lia)). discriminate Hnone.
Qed.

(** X3: a blob the call resolves with is never empty: it is the body of an
    OK response to one of the attempts within the budget. *)
Theorem resolved_blob_is_nonempty (imageFile : Dom.File)
    (options : BackgroundRemovalOptions) (world : Z -> Attempt) (b : Dom.Blob) :
  snd (processBackgroundRemoval imageFile options world) = inr b ->
  Dom.blob_size b <> 0 /\
  exists attempt r,
    1 <= attempt <= budget options /\
    fetched (world attempt) = Resolves r /\ ok r = true /\ blob r = Resolves b.
Proof.
  intros Hres.
  destruct (retryLoop_bounds imageFile options (budget options) world
              (Z.to_nat (budget options)) 0 None ltac:(f_equal; lia) ltac:(lia))
    as (_ & _ & _ & _ & _ & Hwin).
  unfold processBackgroundRemoval in Hres. cbv zeta in Hres.
  destruct (retryLoop imageFile options (budget options) world 0 None)
    as [events [lastError | b']]; simpl in Hres, Hwin; [ discriminate | ].
  injection Hres as ->.
  destruct (Hwin b eq_refl) as (i & Hi & Hok).
  destruct (attemptOnce_success imageFile options (world i) b Hok)
    as (r & Hf & Hokr & Hb & Hsize).
  split; [ exact Hsize | ].
  exists i, r. repeat split; try assumption; lia.
Qed.

Lemma resolved_blob_is_nonempty_witness :
  Dom.blob_size cutoutBlob <> 0 /\
  exists attempt r,
    1 <= attempt <= budget asThePageCalls /\
    fetched (secondTimeLucky attempt) = Resolves r /\ ok r = true /\
    blob r = Resolves cutoutBlob.
Proof.
  apply (resolved_blob_is_nonempty firstFile asThePageCalls secondTimeLucky cutoutBlob).
  reflexivity.
Defined.

(** X4: from the first attempt on the wait grows with the attempt number:
    it is 1000, 2000 and 4000 after attempts 1, 2 and 3, and 5000 after
    every later one. *)
Theorem backoff_grows_then_saturates (attempt attempt' : Z) :
  1 <= attempt <= attempt' ->
  backoff attempt <= backoff attempt' /\
  backoff 1 = 1000 /\ backoff 2 = 2000 /\ backoff 3 = 4000 /\
  (4 <= attempt -> backoff attempt = 5000).
Proof.
  intros H. unfold backoff.
  assert (Hmono : 2 ^ (attempt - 1) <= 2 ^ (attempt' - 1))
    by (apply Z.pow_le_mono_r; lia).
  repeat split; try reflexivity; try lia.
  intros H4.
  assert (2 ^ 3 <= 2 ^ (attempt - 1)) by (apply Z.pow_le_mono_r; lia).
  change (2 ^ 3) with 8 in *. lia.
Qed.

Lemma backoff_grows_then_saturates_witness :
  backoff 5 <= backoff 7 /\
  backoff 1 = 1000 /\ backoff 2 = 2000 /\ backoff 3 = 4000 /\
  (4 <= 5 -> backoff 5 = 5000).
Proof.
  apply (backoff_grows_then_saturates 5 7). lia.
Defined.

(* ------------------------------------------------------------------ *)
(** ** Synthesised progress *)

Local Open Scope Q_scope.

Lemma nondecreasingFrom_weaken (lo lo' : Q) (l : list Q) :
  lo' <= lo -> nondecreasingFrom lo l -> nondecreasingFrom lo' l.
Proof.
  destruct l as [| p rest]; simpl; [ trivial | ].
  intros Hlo [Hp Hrest]. split; [ | exact Hrest ].
  eapply Qle_trans; eassumption.
Qed.

Lemma nondecreasingFrom_app (lo hi : Q) (l1 l2 : list Q) :
  lo <= hi ->
  nondecreasingFrom lo l1 -> Forall (fun p => p <= hi) l1 ->
  nondecreasingFrom hi l2 ->
  nondecreasingFrom lo (l1 ++ l2).
Proof.
  revert lo. induction l1 as [| p rest IH]; intros lo Hlo H1 Hall H2; simpl.
  - now apply nondecreasingFrom_weaken with hi.
  - destruct H1 as [Hp Hrest]. inversion Hall as [| ? ? Hphi Hall']; subst.
    split; [ exact Hp | ]. now apply IH.
Qed.

Lemma nondecreasingFrom_lower (lo : Q) (l : list Q) :
  nondecreasingFrom lo l -> Forall (fun p => lo <= p) l.
Proof.
  revert lo. induction l as [| p rest IH]; intros lo H; constructor.
  - apply H.
  - destruct H as [Hp Hrest].
    eapply Forall_impl; [ | apply IH, Hrest ].
    intros q Hq. simpl in Hq. eapply Qle_trans; eassumption.
Qed.

(** The interval's reports rise from the starting value and stay below 85. *)
Lemma progressUpdater_rises (rs : list Q) :
  forall c, Forall (fun r => 0 <= r) rs ->
    nondecreasingFrom c (progressUpdater c rs) /\
    Forall (fun p => p < 85) (progressUpdater c rs).
Proof.
  induction rs as [| r rs IH]; intros c Hrs; simpl.
  - split; [ exact I | constructor ].
  - inversion Hrs as [| ? ? Hr Hrs']; subst.
    assert (Hc : c <= c + r).
    { rewrite <- (Qplus_0_r c) at 1. apply Qplus_le_r. exact Hr. }
    destruct (IH (c + r) Hrs') as [Hsorted Hbelow].
    destruct (c + r ?= 85) eqn:Hcmp.
    + split; [ | exact Hbelow ]. now apply nondecreasingFrom_weaken with (c + r).
    + apply Qlt_alt in Hcmp.
      assert (Hmin : Qmin (c + r) 85 == c + r)
        by (apply Q.min_l, Qlt_le_weak, Hcmp).
      split.
      * simpl. split.
        -- rewrite Hmin. exact Hc.
        -- apply nondecreasingFrom_weaken with (c + r); [ | exact Hsorted ].
           apply Q.le_min_l.
      * constructor; [ | exact Hbelow ]. rewrite Hmin. exact Hcmp.
    + split; [ | exact Hbelow ]. now apply nondecreasingFrom_weaken with (c + r).
Qed.

Lemma progressOf_app (l1 l2 : list Event) :
  progressOf (l1 ++ l2) = (progressOf l1 ++ progressOf l2)%list.
Proof.
  induction l1 as [| e l1 IH]; simpl; [ reflexivity | ].
  destruct e; simpl; now rewrite IH.
Qed.

Lemma progressOf_reports (o : BackgroundRemovalOptions) (ps : list Q) :
  onProgress o = true -> progressOf (flat_map (report o) ps) = ps.
Proof.
  intros Hcb. induction ps as [| p ps IH]; simpl; [ reflexivity | ].
  rewrite progressOf_app, IH. unfold report. rewrite Hcb. reflexivity.
Qed.

(** The reports of one attempt, in order. *)
Lemma attemptOnce_progress (f : Dom.File) (o : BackgroundRemovalOptions) (w : Attempt) :
  onProgress o = true ->
  progressOf (fst (attemptOnce f o w))
  = (5 :: 15 :: progressUpdater 15 (draws w) ++ reportedAfterResponse w)%list.
Proof.
  intros Hcb.
  assert (Hstart :
    progressOf (report o 5 ++ report o 15 ++ [Fetch f]
                  ++ flat_map (report o) (progressUpdater 15 (draws w)))
    = (5 :: 15 :: progressUpdater 15 (draws w))%list).
  { rewrite !progressOf_app, (progressOf_reports o _ Hcb).
    unfold report. rewrite Hcb. reflexivity. }
  assert (H90 : progressOf (report o 90) = [90])
    by (unfold report; now rewrite Hcb).
  assert (H100 : progressOf (report o 100) = [100])
    by (unfold report; now rewrite Hcb).
  unfold attemptOnce, reportedAfterResponse. cbv zeta.
  set (started := (report o 5 ++ _)%list) in *.
  destruct (fetched w) as [e | r]; cbn [fst].
  - rewrite Hstart, app_nil_r. reflexivity.
  - destruct (ok r); cbn [negb fst].
    + destruct (blob r) as [e | b]; cbn [fst].
      * rewrite progressOf_app, Hstart, H90. reflexivity.
      * destruct (Dom.blob_size b =? 0)%Z; cbn [fst];
          rewrite ?progressOf_app, Hstart, H90, ?H100, <- ?app_assoc; reflexivity.
    + destruct (json r); cbn [fst]; rewrite Hstart, app_nil_r; reflexivity.
Qed.

Lemma reportedAfterResponse_cases (f : Dom.File) (o : BackgroundRemovalOptions)
    (w : Attempt) :
  ((reportedAfterResponse w = [] \/ reportedAfterResponse w = [90]) /\
   exists e, snd (attemptOnce f o w) = inl e) \/
  (reportedAfterResponse w = [90; 100] /\
   exists b, snd (attemptOnce f o w) = inr b).
Proof.
  unfold reportedAfterResponse, attemptOnce. cbv zeta.
  destruct (fetched w) as [e | r]; cbn [snd]; [ left; eauto | ].
  destruct (ok r); cbn [negb snd].
  - destruct (blob r) as [e | b]; cbn [snd]; [ left; eauto | ].
    destruct (Dom.blob_size b =? 0)%Z; cbn [snd]; [ left; eauto | right; eauto ].
  - destruct (json r); cbn [snd]; left; eauto.
Qed.

(** X5: when a progress callback is given and the interval's draws are not
    negative, the progress reported during one attempt never goes down:
    it starts with 5 and 15, the interval's reports stay below 85, and
    every report lies between 5 and 100; 100 is reported exactly when the
    attempt succeeds. *)
Theorem attempt_progress_never_goes_down (imageFile : Dom.File)
    (options : BackgroundRemovalOptions) (w : Attempt) :
  onProgress options = true ->
  Forall (fun r => 0 <= r) (draws w) ->
  nondecreasingFrom 5 (progressOf (fst (attemptOnce imageFile options w))) /\
  Forall (fun p => 5 <= p <= 100) (progressOf (fst (attemptOnce imageFile options w))) /\
  (exists rest, progressOf (fst (attemptOnce imageFile options w)) = 5 :: 15 :: rest) /\
  Forall (fun p => 15 <= p < 85) (progressUpdater 15 (draws w)) /\
  ((exists p, In p (progressOf (fst (attemptOnce imageFile options w))) /\ p == 100)
   <-> exists b, snd (attemptOnce imageFile options w) = inr b).
Proof.
  intros Hcb Hdraws.
  rewrite (attemptOnce_progress imageFile options w Hcb).
  destruct (progressUpdater_rises (draws w) 15 Hdraws) as [Hsorted Hbelow].
  pose proof (nondecreasingFrom_lower _ _ Hsorted) as Habove.
  assert (Hticks : Forall (fun p => 15 <= p < 85) (progressUpdater 15 (draws w))).
  { rewrite Forall_forall in *. intros p Hp. split; [ apply Habove | apply Hbelow ]; exact Hp. }
  assert (Htail : nondecreasingFrom 85 (reportedAfterResponse w) /\
                  Forall (fun p => 85 <= p <= 100) (reportedAfterResponse w)).
  { destruct (reportedAfterResponse_cases imageFile options w)
      as [[[-> | ->] _] | [-> _]]; simpl;
      repeat split; repeat constructor; discriminate. }
  destruct Htail as [Htsorted Htbounds].
  repeat match goal with |- _ /\ _ => split end.
  - simpl. split; [ discriminate | split; [ discriminate | ] ].
    apply nondecreasingFrom_app with 85; try assumption; [ discriminate | ].
    eapply Forall_impl; [ | exact Hbelow ]. intros p Hp. apply Qlt_le_weak, Hp.
  - constructor; [ split; discriminate | ].
    constructor; [ split; discriminate | ].
    apply Forall_app. split.
    + eapply Forall_impl; [ | exact Hticks ]. intros p [Hlo Hhi]. split.
      * apply Qle_trans with 15; [ discriminate | exact Hlo ].
      * apply Qle_trans with 85; [ apply Qlt_le_weak, Hhi | discriminate ].
    + eapply Forall_impl; [ | exact Htbounds ]. intros p [Hlo Hhi]. split.
      * apply Qle_trans with 85; [ discriminate | exact Hlo ].
      * exact Hhi.
  - eexists. reflexivity.
  - exact Hticks.
  - split.
    + intros (p & Hin & Hp).
    destruct (reportedAfterResponse_cases imageFile options w)
      as [[Hshape _] | [_ Hwin]]; [ exfalso | exact Hwin ].
      simpl in Hin. rewrite in_app_iff in Hin.
      destruct Hin as [<- | [<- | [Hin | Hin]]]; try discriminate Hp.
      * rewrite Forall_forall in Hbelow. specialize (Hbelow p Hin).
        rewrite Hp in Hbelow. discriminate Hbelow.
      * destruct Hshape as [Hshape | Hshape]; rewrite Hshape in Hin; simpl in Hin.
        -- exact Hin.
        -- destruct Hin as [<- | []]. discriminate Hp.
    + intros Hwin.
      destruct (reportedAfterResponse_cases imageFile options w)
        as [[_ (e & He)] | [Hshape _]].
      * destruct Hwin as (b & Hb). congruence.
      * exists 100. split; [ | reflexivity ].
        rewrite Hshape. simpl. right; right.
        apply in_or_app. right. simpl. auto.
Qed.

Lemma attempt_progress_never_goes_down_witness :
  nondecreasingFrom 5
    (progressOf (fst (attemptOnce firstFile asThePageCalls (secondTimeLucky 2)))) /\
  Forall (fun p => 5 <= p <= 100)
    (progressOf (fst (attemptOnce firstFile asThePageCalls (secondTimeLucky 2)))) /\
  (exists rest,
     progressOf (fst (attemptOnce firstFile asThePageCalls (secondTimeLucky 2)))
     = 5 :: 15 :: rest) /\
  Forall (fun p => 15 <= p < 85) (progressUpdater 15 (draws (secondTimeLucky 2))) /\
  ((exists p,
      In p (progressOf (fst (attemptOnce firstFile asThePageCalls (secondTimeLucky 2))))
      /\ p == 100)
   <-> exists b, snd (attemptOnce firstFile asThePageCalls (secondTimeLucky 2)) = inr b).
Proof.
  apply (attempt_progress_never_goes_down firstFile asThePageCalls (secondTimeLucky 2)).
  - reflexivity.
  - repeat constructor. discriminate.
Defined.

(* ------------------------------------------------------------------ *)
(** ** Browser support and the cache indicator *)

(** X7: the browser counts as supported exactly when no check threw and
    WebGL (under either name), [toDataURL], [toBlob], [File], [FileReader]
    and [Blob] are all there; it is supported exactly when the list of
    issues is empty, and that list never has more than four entries. *)
Theorem browser_supported_iff_every_feature (b : Browser) :
  (isBrowserSupported b = true <->
   createElement_throws b = false /\
   (webgl b = true \/ experimental_webgl b = true) /\
   canvas_toDataURL b = true /\ canvas_toBlob b = true /\
   window_File b = true /\ window_FileReader b = true /\ window_Blob b = true) /\
  (supported (checkBrowserSupport b) = true <-> issues (checkBrowserSupport b) = []) /\
  (List.length (issues (checkBrowserSupport b)) <= 4)%nat.
Proof.
  destruct b as [throws gl egl dataURL toBlob fileC readerC blobC idb storage].
  unfold isBrowserSupported, checkBrowserSupport; simpl.
  destruct throws, gl, egl, dataURL, toBlob, fileC, readerC, blobC; simpl;
    (split; [ | split ]); try lia;
    split; intros H; try discriminate H; try reflexivity;
    repeat match goal with
           | H : _ /\ _ |- _ => destruct H
           | H : _ \/ _ |- _ => destruct H
           end;
    try discriminate; auto 10.
Qed.

Lemma lookup_without_same (key : string) (l : list (string * string)) :
  lookup key (without key l) = None.
Proof.
  induction l as [| [k v] l IH]; simpl; [ reflexivity | ].
  destruct (String.eqb k key) eqn:Hk; simpl; [ exact IH | ].
  now rewrite Hk.
Qed.

Lemma lookup_without_other (key k' : string) (l : list (string * string)) :
  k' <> key -> lookup k' (without key l) = lookup k' l.
Proof.
  intros Hne. induction l as [| [k v] l IH]; simpl; [ reflexivity | ].
  destruct (String.eqb k key) eqn:Hk; simpl.
  - apply String.eqb_eq in Hk. subst k.
    destruct (String.eqb key k') eqn:Hk'; [ | exact IH ].
    apply String.eqb_eq in Hk'. congruence.
  - now rewrite IH.
Qed.

Lemma without_twice (key : string) (l : list (string * string)) :
  without key (without key l) = without key l.
Proof.
  induction l as [| [k v] l IH]; simpl; [ reflexivity | ].
  destruct (String.eqb k key) eqn:Hk; simpl; [ exact IH | ].
  now rewrite Hk, IH.
Qed.

(** X8: with a storage that can be written and IndexedDB present, marking
    the model as cached (directly or through [preloadModel]) makes
    [isModelCached] true, clearing the indicator afterwards makes it false
    again, marking twice is marking once, and no other key of the storage
    is changed. *)
Theorem marking_is_read_back (b : Browser) :
  blocked (localStorage b) = false ->
  full (localStorage b) = false ->
  window_indexedDB b = true ->
  isModelCached (markModelAsCached b) = true /\
  isModelCached (preloadModel b) = true /\
  isModelCached (clearCacheIndicator (markModelAsCached b)) = false /\
  markModelAsCached (markModelAsCached b) = markModelAsCached b /\
  (forall key, key <> cacheKey ->
     getItem (localStorage (markModelAsCached b)) key = getItem (localStorage b) key /\
     getItem (localStorage (clearCacheIndicator b)) key = getItem (localStorage b) key).
Proof.
  destruct b as [throws gl egl dataURL toBlob fileC readerC blobC idb [bl fu its]].
  simpl. intros -> -> ->.
  unfold preloadModel, isModelCached, markModelAsCached, clearCacheIndicator,
    setItem, removeItem, getItem, withStorage;
    cbn -[String.eqb cacheKey].
  rewrite String.eqb_refl, without_twice, lookup_without_same.
  cbn -[String.eqb cacheKey].
  repeat match goal with |- _ /\ _ => split end; try reflexivity.
  intros key Hkey. split.
  - destruct (String.eqb cacheKey key) eqn:Hk.
    + apply String.eqb_eq in Hk. congruence.
    + now rewrite lookup_without_other.
  - now rewrite lookup_without_other.
Qed.

Lemma marking_is_read_back_witness :
  isModelCached (markModelAsCached freshBrowser) = true /\
  isModelCached (preloadModel freshBrowser) = true /\
  isModelCached (clearCacheIndicator (markModelAsCached freshBrowser)) = false /\
  markModelAsCached (markModelAsCached freshBrowser) = markModelAsCached freshBrowser /\
  (forall key, key <> cacheKey ->
     getItem (localStorage (markModelAsCached freshBrowser)) key
       = getItem (localStorage freshBrowser) key /\
     getItem (localStorage (clearCacheIndicator freshBrowser)) key
       = getItem (localStorage freshBrowser) key).
Proof.
  apply (marking_is_read_back freshBrowser); reflexivity.
Defined.

(** X9: clearing the indicator always leaves [isModelCached] false; a
    storage that throws, or a missing IndexedDB, makes [isModelCached]
    false whatever was marked; marking and clearing change nothing but
    the storage; and [initializeBackgroundRemoval] never touches the
    browser, since preloading on initialisation is switched off. *)
Theorem indicator_without_storage (b : Browser) :
  isModelCached (clearCacheIndicator b) = false /\
  (blocked (localStorage b) = true \/ window_indexedDB b = false ->
   isModelCached (markModelAsCached b) = false) /\
  (blocked (localStorage b) = true \/ full (localStorage b) = true ->
   markModelAsCached b = b) /\
  isBrowserSupported (markModelAsCached b) = isBrowserSupported b /\
  isBrowserSupported (clearCacheIndicator b) = isBrowserSupported b /\
  initializeBackgroundRemoval b = b.
Proof.
  destruct b as [throws gl egl dataURL toBlob fileC readerC blobC idb [bl fu its]].
  unfold initializeBackgroundRemoval, isModelCached, markModelAsCached,
    clearCacheIndicator, setItem, removeItem, getItem, withStorage;
    cbn -[String.eqb cacheKey isBrowserSupported].
  repeat match goal with |- _ /\ _ => split end.
  - destruct bl, idb; cbn -[String.eqb cacheKey]; try reflexivity.
    now rewrite lookup_without_same.
  - intros [-> | ->]; [ now destruct idb | now destruct bl, fu ].
  - intros [-> | ->]; [ reflexivity | now destruct bl ].
  - destruct bl, fu; reflexivity.
  - destruct bl; reflexivity.
  - destruct (isBrowserSupported _); cbn -[String.eqb cacheKey]; [ | reflexivity ].
    destruct idb, bl; cbn -[String.eqb cacheKey]; try reflexivity.
    destruct (lookup cacheKey its) as [v |]; [ | reflexivity ].
    destruct (String.eqb v "true"); reflexivity.
Qed.

(* ------------------------------------------------------------------ *)
(** ** Doubles *)

Lemma pow2_pos (k : Z) : 0 < 2 ^ k.
Proof. apply Qpower_0_lt. reflexivity. Qed.

Lemma pow2_plus (a b : Z) : 2 ^ (a + b) == 2 ^ a * 2 ^ b.
Proof. apply Qpower_plus. discriminate. Qed.

Lemma pow2_le (a b : Z) : (a <= b)%Z -> 2 ^ a <= 2 ^ b.
Proof. intros H. apply Qpower_le_compat_l; [ exact H | discriminate ]. Qed.

Lemma pow2_lt (a b : Z) : (a < b)%Z -> 2 ^ a < 2 ^ b.
Proof. intros H. apply Qpower_lt_compat_l; [ exact H | reflexivity ]. Qed.

Lemma pow2_lt_inv (a b : Z) : 2 ^ a < 2 ^ b -> (a < b)%Z.
Proof. intros H. apply (Qpower_lt_compat_l_inv 2); [ exact H | reflexivity ]. Qed.

Lemma pow2_Z (n : Z) : (0 <= n)%Z -> 2 ^ n == inject_Z (2 ^ n).
Proof. intros H. symmetry. apply (Zpower_Qpower 2 n H). Qed.

Lemma inject_Z_pos (n : Z) : (0 < n)%Z -> 0 < inject_Z n.
Proof. intros H. unfold Qlt. simpl. lia. Qed.

(** The binade of a positive number. *)
Lemma exponent_spec (x : Q) :
  0 < x -> 2 ^ Js.exponent x <= x /\ x < 2 ^ (Js.exponent x + 1).
Proof.
  intros Hx. destruct x as [n d].
  assert (Hn : (0 < n)%Z) by (unfold Qlt in Hx; simpl in Hx; lia).
  pose proof (Z.log2_spec n Hn) as [Hn1 Hn2].
  pose proof (Z.log2_spec (Z.pos d) (Pos2Z.is_pos d)) as [Hd1 Hd2].
  pose proof (Z.log2_nonneg n) as Ha. pose proof (Z.log2_nonneg (Z.pos d)) as Hb.
  set (a := Z.log2 n) in *. set (b := Z.log2 (Z.pos d)) in *.
  replace (Z.succ a) with (a + 1)%Z in Hn2 by lia.
  replace (Z.succ b) with (b + 1)%Z in Hd2 by lia.
  assert (Hpa : (0 < 2 ^ a)%Z) by (apply Z.pow_pos_nonneg; lia).
  assert (Hpb : (0 < 2 ^ b)%Z) by (apply Z.pow_pos_nonneg; lia).
  assert (Hlow : 2 ^ (a - b - 1) <= n # d).
  { replace (a - b - 1)%Z with (a + - (b + 1))%Z by lia.
    rewrite pow2_plus, Qpower_opp, !pow2_Z by lia.
    apply Qle_shift_div_r.
    - apply inject_Z_pos; lia.
    - unfold Qle. cbn [Qnum Qden Qmult inject_Z]. rewrite !Z.mul_1_r, Pos.mul_1_r.
      apply Z.mul_le_mono_nonneg; lia. }
  assert (Hhigh : n # d < 2 ^ (a - b + 1)).
  { replace (a - b + 1)%Z with ((a + 1) + - b)%Z by lia.
    rewrite pow2_plus, Qpower_opp, !pow2_Z by lia.
    apply Qlt_shift_div_l.
    - apply inject_Z_pos; lia.
    - unfold Qlt. cbn [Qnum Qden Qmult inject_Z]. rewrite !Z.mul_1_r.
      rewrite Pos.mul_1_r. apply Z.le_lt_trans with (n * Z.pos d)%Z;
        [ apply Z.mul_le_mono_nonneg_l; lia | apply Z.mul_lt_mono_pos_r; lia ]. }
  unfold Js.exponent. cbn [Qnum Qden]. fold a b.
  destruct (Qle_bool (2 ^ (a - b)) (n # d)) eqn:Hc.
  - apply Qle_bool_iff in Hc. split; assumption.
  - split; [ exact Hlow | ].
    replace (a - b - 1 + 1)%Z with (a - b)%Z by lia.
    apply Qnot_le_lt. intros H. apply Qle_bool_iff in H. congruence.
Qed.

Lemma exponent_unique (x : Q) (e : Z) :
  0 < x -> 2 ^ e <= x -> x < 2 ^ (e + 1) -> Js.exponent x = e.
Proof.
  intros Hx Hlo Hhi. destruct (exponent_spec x Hx) as [Hlo' Hhi'].
  assert (H1 : (e < Js.exponent x + 1)%Z)
    by (apply pow2_lt_inv; eapply Qle_lt_trans; eassumption).
  assert (H2 : (Js.exponent x < e + 1)%Z)
    by (apply pow2_lt_inv; eapply Qle_lt_trans; eassumption).
  lia.
Qed.

Lemma exponent_le (x y : Q) : 0 < x -> x <= y -> (Js.exponent x <= Js.exponent y)%Z.
Proof.
  intros Hx Hxy.
  destruct (exponent_spec x Hx) as [Hlo _].
  destruct (exponent_spec y (Qlt_le_trans _ _ _ Hx Hxy)) as [_ Hhi].
  assert (H : (Js.exponent x < Js.exponent y + 1)%Z).
  { apply pow2_lt_inv. eapply Qle_lt_trans; [ exact Hlo | ].
    eapply Qle_lt_trans; eassumption. }
  lia.
Qed.

Lemma exponent_comp (x y : Q) : 0 < x -> x == y -> Js.exponent x = Js.exponent y.
Proof.
  intros Hx Hxy. symmetry. apply exponent_unique.
  - now rewrite <- Hxy.
  - rewrite <- Hxy. apply exponent_spec, Hx.
  - rewrite <- Hxy. apply exponent_spec, Hx.
Qed.

(** ** Rounding to the nearest integer, ties to even *)

Lemma roundToEven_cases (m : Q) :
  (Js.roundToEven m = Qfloor m /\ m - inject_Z (Qfloor m) <= 1 # 2) \/
  (Js.roundToEven m = (Qfloor m + 1)%Z /\ 1 # 2 <= m - inject_Z (Qfloor m)).
Proof.
  unfold Js.roundToEven. cbv zeta.
  destruct (m - inject_Z (Qfloor m) ?= 1 # 2) eqn:Hc.
  - apply Qeq_alt in Hc.
    destruct (Z.even (Qfloor m)); [ left | right ]; split;
      try reflexivity; rewrite Hc; apply Qle_refl.
  - apply Qlt_alt in Hc. left. split; [ reflexivity | apply Qlt_le_weak, Hc ].
  - apply Qgt_alt in Hc. right. split; [ reflexivity | apply Qlt_le_weak, Hc ].
Qed.

Lemma floor_bounds (m : Q) : inject_Z (Qfloor m) <= m /\ m < inject_Z (Qfloor m) + 1.
Proof.
  split; [ apply Qfloor_le | ].
  pose proof (Qlt_floor m) as H. rewrite inject_Z_plus in H. exact H.
Qed.

Lemma roundToEven_near (m : Q) :
  m - (1 # 2) <= inject_Z (Js.roundToEven m) <= m + (1 # 2).
Proof.
  destruct (floor_bounds m) as [Hlo Hhi].
  destruct (roundToEven_cases m) as [[-> H] | [-> H]];
    rewrite ?inject_Z_plus; change (inject_Z 1) with 1; split; lra.
Qed.

Lemma roundToEven_comp (m m' : Q) : m == m' -> Js.roundToEven m = Js.roundToEven m'.
Proof.
  intros H. unfold Js.roundToEven. cbv zeta.
  rewrite (Qfloor_comp _ _ H).
  assert (Hc : (m - inject_Z (Qfloor m') ?= 1 # 2) = (m' - inject_Z (Qfloor m') ?= 1 # 2))
    by now rewrite H.
  now rewrite Hc.
Qed.

Lemma roundToEven_Z (n : Z) : Js.roundToEven (inject_Z n) = n.
Proof.
  unfold Js.roundToEven. cbv zeta. rewrite Qfloor_Z.
  assert (Hc : (inject_Z n - inject_Z n ?= 1 # 2) = Lt).
  { apply Qlt_alt. setoid_replace (inject_Z n - inject_Z n) with 0 by ring. reflexivity. }
  now rewrite Hc.
Qed.

Lemma roundToEven_le (m m' : Q) : m <= m' -> (Js.roundToEven m <= Js.roundToEven m')%Z.
Proof.
  intros H.
  pose proof (Qfloor_resp_le _ _ H) as Hf.
  destruct (floor_bounds m) as [Hlo Hhi], (floor_bounds m') as [Hlo' Hhi'].
  destruct (Z.eq_dec (Qfloor m) (Qfloor m')) as [Heq | Hne].
  - unfold Js.roundToEven. cbv zeta. rewrite <- Heq.
    destruct (Qcompare_spec (m - inject_Z (Qfloor m)) (1 # 2)) as [Hc | Hc | Hc],
             (Qcompare_spec (m' - inject_Z (Qfloor m)) (1 # 2)) as [Hc' | Hc' | Hc'];
      try (destruct (Z.even (Qfloor m))); try lia; exfalso; lra.
  - destruct (roundToEven_cases m) as [[-> _] | [-> _]],
             (roundToEven_cases m') as [[-> _] | [-> _]]; lia.
Qed.

(** ** Rounding a positive number to 53 significant bits *)

Lemma pow2_cancel (e : Z) : 2 ^ (52 - e) * 2 ^ (e - 52) == 1.
Proof.
  rewrite <- (pow2_plus (52 - e) (e - 52)).
  replace (52 - e + (e - 52))%Z with 0%Z by lia. reflexivity.
Qed.

Lemma mantissa_bounds (x : Q) :
  0 < x ->
  inject_Z (2 ^ 52) <= x * 2 ^ (52 - Js.exponent x) /\
  x * 2 ^ (52 - Js.exponent x) <= inject_Z (2 ^ 53).
Proof.
  intros Hx. destruct (exponent_spec x Hx) as [Hlo Hhi].
  pose proof (pow2_pos (52 - Js.exponent x)) as Ht.
  set (e := Js.exponent x) in *.
  rewrite <- !pow2_Z by lia. split.
  - apply Qle_trans with (2 ^ e * 2 ^ (52 - e)).
    + rewrite <- (pow2_plus e (52 - e)).
      replace (e + (52 - e))%Z with 52%Z by lia. apply Qle_refl.
    + apply Qmult_le_compat_r; [ exact Hlo | apply Qlt_le_weak, Ht ].
  - apply Qle_trans with (2 ^ (e + 1) * 2 ^ (52 - e)).
    + apply Qmult_le_compat_r; apply Qlt_le_weak; assumption.
    + rewrite <- (pow2_plus (e + 1) (52 - e)).
      replace (e + 1 + (52 - e))%Z with 53%Z by lia. apply Qle_refl.
Qed.

Lemma significand_bounds (x : Q) :
  0 < x ->
  (2 ^ 52 <= Js.roundToEven (x * 2 ^ (52 - Js.exponent x)) <= 2 ^ 53)%Z.
Proof.
  intros Hx. destruct (mantissa_bounds x Hx) as [Hlo Hhi].
  apply roundToEven_le in Hlo, Hhi. rewrite roundToEven_Z in Hlo, Hhi.
  split; assumption.
Qed.

Lemma roundPositive_bounds (x : Q) :
  0 < x ->
  2 ^ Js.exponent x <= Js.roundPositive x /\
  Js.roundPositive x <= 2 ^ (Js.exponent x + 1).
Proof.
  intros Hx. destruct (significand_bounds x Hx) as [Hlo Hhi].
  pose proof (pow2_pos (Js.exponent x - 52)) as Hs.
  unfold Js.roundPositive. cbv zeta.
  set (e := Js.exponent x) in *. split.
  - apply Qle_trans with (inject_Z (2 ^ 52) * 2 ^ (e - 52)).
    + rewrite <- pow2_Z, <- (pow2_plus 52 (e - 52)) by lia.
      replace (52 + (e - 52))%Z with e by lia. apply Qle_refl.
    + apply Qmult_le_compat_r; [ | apply Qlt_le_weak, Hs ].
      rewrite <- Zle_Qle. exact Hlo.
  - apply Qle_trans with (inject_Z (2 ^ 53) * 2 ^ (e - 52)).
    + apply Qmult_le_compat_r; [ | apply Qlt_le_weak, Hs ].
      rewrite <- Zle_Qle. exact Hhi.
    + rewrite <- pow2_Z, <- (pow2_plus 53 (e - 52)) by lia.
      replace (53 + (e - 52))%Z with (e + 1)%Z by lia. apply Qle_refl.
Qed.

Lemma roundPositive_comp (x y : Q) :
  0 < x -> x == y -> Js.roundPositive x == Js.roundPositive y.
Proof.
  intros Hx Hxy. unfold Js.roundPositive. cbv zeta.
  rewrite <- (exponent_comp x y Hx Hxy).
  rewrite (roundToEven_comp (x * 2 ^ (52 - Js.exponent x)) (y * 2 ^ (52 - Js.exponent x)));
    [ reflexivity | apply Qmult_comp; [ exact Hxy | reflexivity ] ].
Qed.

Lemma roundPositive_le (x y : Q) :
  0 < x -> x <= y -> Js.roundPositive x <= Js.roundPositive y.
Proof.
  intros Hx Hxy.
  assert (Hy : 0 < y) by (eapply Qlt_le_trans; eassumption).
  pose proof (exponent_le x y Hx Hxy) as He.
  destruct (Z.eq_dec (Js.exponent x) (Js.exponent y)) as [Heq | Hne].
  - unfold Js.roundPositive. cbv zeta. rewrite <- Heq.
    apply Qmult_le_compat_r; [ | apply Qlt_le_weak, pow2_pos ].
    rewrite <- Zle_Qle. apply roundToEven_le.
    apply Qmult_le_compat_r; [ exact Hxy | apply Qlt_le_weak, pow2_pos ].
  - destruct (roundPositive_bounds x Hx) as [_ Hhi].
    destruct (roundPositive_bounds y Hy) as [Hlo _].
    eapply Qle_trans; [ exact Hhi | ].
    eapply Qle_trans; [ | exact Hlo ].
    apply pow2_le. lia.
Qed.

(** A number whose significand needs no rounding is kept. *)
Lemma roundPositive_exact (x : Q) (k : Z) :
  x * 2 ^ (52 - Js.exponent x) == inject_Z k -> Js.roundPositive x == x.
Proof.
  intros Hk. unfold Js.roundPositive. cbv zeta.
  rewrite (roundToEven_comp _ _ Hk), roundToEven_Z, <- Hk.
  rewrite <- Qmult_assoc, pow2_cancel. ring.
Qed.

(** The relative error of rounding is at most 2^-53. *)
Lemma roundPositive_error (x : Q) :
  0 < x ->
  x * (1 - (1 # 9007199254740992)) <= Js.roundPositive x /\
  Js.roundPositive x <= x * (1 + (1 # 9007199254740992)).
Proof.
  intros Hx. destruct (exponent_spec x Hx) as [Hlo _].
  pose proof (roundToEven_near (x * 2 ^ (52 - Js.exponent x))) as [Hn1 Hn2].
  pose proof (pow2_cancel (Js.exponent x)) as Hst.
  pose proof (pow2_pos (Js.exponent x - 52)) as Hs.
  unfold Js.roundPositive. cbv zeta.
  set (e := Js.exponent x) in *.
  assert (He : 2 ^ e == 4503599627370496 * 2 ^ (e - 52)).
  { change 4503599627370496 with (2 ^ 52). rewrite <- (pow2_plus 52 (e - 52)).
    replace (52 + (e - 52))%Z with e by lia. reflexivity. }
  rewrite He in Hlo.
  set (r := inject_Z (Js.roundToEven (x * 2 ^ (52 - e)))) in *.
  set (s := 2 ^ (e - 52)) in *.
  set (t := 2 ^ (52 - e)) in *.
  assert (Hx' : x * t * s == x) by (rewrite <- Qmult_assoc, Hst; ring).
  apply (Qmult_le_compat_r _ _ s) in Hn1, Hn2; try (apply Qlt_le_weak, Hs).
  split; nra.
Qed.

(** ** Rounding to the nearest double *)

Lemma double_zero (x : Q) : x == 0 -> Js.double x == 0.
Proof.
  intros H. unfold Js.double. rewrite Qred_correct.
  destruct (Qcompare_spec 0 x) as [_ | Hc | Hc]; [ reflexivity | | ];
    rewrite H in Hc; discriminate Hc.
Qed.

Lemma double_of_pos (x : Q) : 0 < x -> Js.double x == Js.roundPositive x.
Proof.
  intros H. unfold Js.double. rewrite Qred_correct.
  destruct (Qcompare_spec 0 x) as [Hc | Hc | Hc]; [ | reflexivity | ]; exfalso; lra.
Qed.

Lemma double_of_neg (x : Q) : x < 0 -> Js.double x == - Js.roundPositive (- x).
Proof.
  intros H. unfold Js.double. rewrite Qred_correct.
  destruct (Qcompare_spec 0 x) as [Hc | Hc | Hc]; [ | | reflexivity ]; exfalso; lra.
Qed.

Lemma double_comp (x y : Q) : x == y -> Js.double x == Js.double y.
Proof.
  intros H. destruct (Qcompare_spec 0 x) as [Hc | Hc | Hc].
  - rewrite !double_zero; [ reflexivity | | ]; lra.
  - rewrite !double_of_pos by lra. apply roundPositive_comp; assumption.
  - rewrite !double_of_neg by lra. apply Qopp_comp, roundPositive_comp; lra.
Qed.

Lemma double_opp (x : Q) : Js.double (- x) == - Js.double x.
Proof.
  destruct (Qcompare_spec 0 x) as [Hc | Hc | Hc].
  - rewrite !double_zero; [ reflexivity | | ]; lra.
  - rewrite double_of_neg, double_of_pos by lra.
    apply Qopp_comp, roundPositive_comp; [ lra | ring ].
  - rewrite double_of_pos, double_of_neg by lra. ring.
Qed.

Lemma double_pos (x : Q) : 0 < x -> 0 < Js.double x.
Proof.
  intros H. rewrite double_of_pos by exact H.
  destruct (roundPositive_bounds x H) as [Hlo _].
  eapply Qlt_le_trans; [ apply pow2_pos | exact Hlo ].
Qed.

(** Rounding keeps the order. *)
Lemma double_le (x y : Q) : x <= y -> Js.double x <= Js.double y.
Proof.
  intros H.
  destruct (Qcompare_spec 0 x) as [Hx | Hx | Hx],
           (Qcompare_spec 0 y) as [Hy | Hy | Hy]; try (exfalso; lra).
  - rewrite !double_zero by lra. apply Qle_refl.
  - rewrite (double_zero x) by lra. apply Qlt_le_weak, double_pos, Hy.
  - rewrite !double_of_pos by assumption. now apply roundPositive_le.
  - rewrite (double_zero y) by lra.
    pose proof (double_pos (- x) ltac:(lra)) as Hp. rewrite double_opp in Hp. lra.
  - pose proof (double_pos (- x) ltac:(lra)) as Hp. rewrite double_opp in Hp.
    pose proof (double_pos y Hy). lra.
  - rewrite !double_of_neg by assumption.
    apply Qopp_le_compat, roundPositive_le; lra.
Qed.

(** The relative error of rounding is at most 2^-53. *)
Lemma double_error (x : Q) :
  0 <= x ->
  x * (1 - (1 # 9007199254740992)) <= Js.double x /\
  Js.double x <= x * (1 + (1 # 9007199254740992)).
Proof.
  intros H. destruct (Qcompare_spec 0 x) as [Hx | Hx | Hx]; [ | | exfalso; lra ].
  - rewrite double_zero by lra. split; lra.
  - rewrite double_of_pos by exact Hx. now apply roundPositive_error.
Qed.

(** Integers of at most 53 bits are doubles. *)
Lemma double_Z (n : Z) :
  (Z.abs n <= 2 ^ 53)%Z -> Js.double (inject_Z n) == inject_Z n.
Proof.
  assert (Hpos : forall k, (0 < k <= 2 ^ 53)%Z -> Js.double (inject_Z k) == inject_Z k).
  { intros k [Hk0 Hk].
    destruct (Z.eq_dec k (2 ^ 53)) as [-> | Hne]; [ reflexivity | ].
    assert (Hq : 0 < inject_Z k) by now apply inject_Z_pos.
    rewrite double_of_pos by exact Hq.
    destruct (exponent_spec _ Hq) as [Hlo _].
    assert (He : (Js.exponent (inject_Z k) < 53)%Z).
    { apply pow2_lt_inv. eapply Qle_lt_trans; [ exact Hlo | ].
      rewrite pow2_Z, <- Zlt_Qlt by lia. lia. }
    apply (roundPositive_exact _ (k * 2 ^ (52 - Js.exponent (inject_Z k)))).
    rewrite inject_Z_mult, pow2_Z by lia. reflexivity. }
  intros Hn. destruct (Z.compare_spec n 0) as [-> | Hneg | Hp].
  - reflexivity.
  - replace n with (- - n)%Z by lia. rewrite inject_Z_opp, double_opp.
    apply Qopp_comp, Hpos. lia.
  - apply Hpos. lia.
Qed.


(** Rounding a double again changes nothing. *)
Lemma double_idempotent (x : Q) : Js.double (Js.double x) == Js.double x.
Proof.
  assert (Hpos : forall y, 0 < y -> Js.double (Js.roundPositive y) == Js.roundPositive y).
  { intros y Hy.
    destruct (roundPositive_bounds y Hy) as [Hlo Hhi].
    destruct (significand_bounds y Hy) as [Hs1 Hs2].
    assert (Hr : 0 < Js.roundPositive y)
      by (eapply Qlt_le_trans; [ apply pow2_pos | exact Hlo ]).
    rewrite double_of_pos by exact Hr.
    set (e := Js.exponent y) in *.
    destruct (Z.eq_dec (Js.roundToEven (y * 2 ^ (52 - e))) (2 ^ 53)) as [Htop | Hin].
    - assert (Hval : Js.roundPositive y == 2 ^ (e + 1)).
      { unfold Js.roundPositive. cbv zeta. fold e. rewrite Htop.
        rewrite <- pow2_Z, <- (pow2_plus 53 (e - 52)) by lia.
        replace (53 + (e - 52))%Z with (e + 1)%Z by lia. reflexivity. }
      assert (He : Js.exponent (Js.roundPositive y) = (e + 1)%Z).
      { apply exponent_unique; [ exact Hr | | ]; rewrite Hval;
          [ apply Qle_refl | apply pow2_lt; lia ]. }
      apply (roundPositive_exact _ (2 ^ 52)). rewrite He, Hval.
      rewrite <- (pow2_plus (e + 1) (52 - (e + 1))), <- pow2_Z by lia.
      replace (e + 1 + (52 - (e + 1)))%Z with 52%Z by lia. reflexivity.
    - assert (He : Js.exponent (Js.roundPositive y) = e).
      { apply exponent_unique; [ exact Hr | exact Hlo | ].
        unfold Js.roundPositive. cbv zeta. fold e.
        apply Qlt_le_trans with (inject_Z (2 ^ 53) * 2 ^ (e - 52)).
        - apply Qmult_lt_compat_r; [ apply pow2_pos | ].
          rewrite <- Zlt_Qlt. lia.
        - rewrite <- pow2_Z, <- (pow2_plus 53 (e - 52)) by lia.
          replace (53 + (e - 52))%Z with (e + 1)%Z by lia. apply Qle_refl. }
      apply (roundPositive_exact _ (Js.roundToEven (y * 2 ^ (52 - e)))).
      rewrite He. unfold Js.roundPositive. cbv zeta. fold e.
      rewrite <- Qmult_assoc, (Qmult_comm (2 ^ (e - 52))), pow2_cancel. ring. }
  destruct (Qcompare_spec 0 x) as [Hx | Hx | Hx].
  - rewrite (double_comp (Js.double x) 0); [ | apply double_zero; lra ].
    rewrite !double_zero; [ reflexivity | lra | reflexivity ].
  - rewrite (double_comp (Js.double x) (Js.roundPositive x)) by now apply double_of_pos.
    rewrite (double_of_pos x Hx). now apply Hpos.
  - rewrite (double_comp (Js.double x) (- Js.roundPositive (- x)))
      by now apply double_of_neg.
    rewrite (double_of_neg x Hx), double_opp.
    apply Qopp_comp, Hpos. lra.
Qed.

(** The values the code gets where the exact ones differ. *)
Example double_samples :
  Js.double (1 # 10) == 3602879701896397 # 36028797018963968 /\
  Js.double (11 * Js.double (15 / 22)) == 8444249301319679 # 1125899906842624 /\
  Js.double (Js.double (800 / 1060) * 1060) == 7036874417766401 # 8796093022208 /\
  Js.double (200 * Js.double (1 / 3)) * 3 == 7036874417766399 # 35184372088832.
Proof. repeat split; vm_compute; reflexivity. Qed.

(* ------------------------------------------------------------------ *)
(** ** Validation and sizes *)

Lemma gt_true (a b : Q) : Js.gt a b = true <-> b < a.
Proof.
  unfold Js.gt. rewrite negb_true_iff.
  split; intros H.
  - apply Qnot_le_lt. intros Hle. apply Qle_bool_iff in Hle. congruence.
  - destruct (Qle_bool a b) eqn:Hb; [ | reflexivity ].
    apply Qle_bool_iff in Hb. exfalso. exact (Qlt_not_le _ _ H Hb).
Qed.

Lemma gt_false (a b : Q) : Js.gt a b = false <-> a <= b.
Proof.
  unfold Js.gt. rewrite negb_false_iff. apply Qle_bool_iff.
Qed.

Lemma Qpos_nonzero (a : Q) : 0 < a -> ~ a == 0.
Proof. intros H E. rewrite E in H. discriminate H. Qed.

(** Scaling [m] by a ratio of at most one. *)
Lemma scaled_down (m a b : Q) :
  0 < m -> 0 < a -> 0 < b -> a <= b ->
  m * (a / b) <= m /\ 0 < m * (a / b) /\ m / (b / a) == m * (a / b).
Proof.
  intros Hm Ha Hb Hab.
  pose proof (Qpos_nonzero a Ha) as Ha0. pose proof (Qpos_nonzero b Hb) as Hb0.
  repeat split.
  - rewrite <- (Qmult_1_r m) at 2. apply Qmult_le_l; [ exact Hm | ].
    apply Qle_shift_div_r; [ exact Hb | ]. now rewrite Qmult_1_l.
  - apply Qmult_lt_0_compat; [ exact Hm | now apply Qdiv_pos ].
  - field. split; assumption.
Qed.

Lemma includesElement_In (a : list string) (s : string) :
  Js.includesElement a s = true <-> In s a.
Proof.
  unfold Js.includesElement. rewrite existsb_exists. split.
  - intros (s' & Hs & Heq). apply String.eqb_eq in Heq. now subst.
  - intros H. exists s. split; [ exact H | apply String.eqb_refl ].
Qed.

(** X10: a file is accepted exactly when its type is one of the accepted
    formats and its size is at most the limit in bytes (the limit itself
    is accepted); a rejection always carries a reason and an acceptance
    never does; a file of the wrong type is rejected for its type, whatever
    its size. *)
Theorem validation_accepts_iff (file : Dom.File) (maxSizeInMB : Z)
    (acceptedFormats : list string) :
  (valid (validateImageFile file maxSizeInMB acceptedFormats) = true <->
   In (Dom.file_type file) acceptedFormats /\
   (Dom.file_size file <= maxSizeInMB * 1048576)%Z) /\
  (valid (validateImageFile file maxSizeInMB acceptedFormats) = true <->
   reason (validateImageFile file maxSizeInMB acceptedFormats) = None) /\
  (~ In (Dom.file_type file) acceptedFormats ->
   validateImageFile file maxSizeInMB acceptedFormats
   = {| valid := false;
        reason := Some ("Invalid file format. Accepted formats: "
                          ++ Js.join ", " acceptedFormats)%string |}) /\
  (In (Dom.file_type file) acceptedFormats ->
   (maxSizeInMB * 1048576 < Dom.file_size file)%Z ->
   validateImageFile file maxSizeInMB acceptedFormats
   = {| valid := false;
        reason := Some ("File size exceeds " ++ Js.showZ maxSizeInMB ++ "MB limit")%string |}).
Proof.
  pose proof (includesElement_In acceptedFormats (Dom.file_type file)) as Hin.
  unfold validateImageFile.
  destruct (Js.includesElement acceptedFormats (Dom.file_type file));
    cbn [negb].
  - assert (Hyes : In (Dom.file_type file) acceptedFormats) by now apply Hin.
    destruct (Dom.file_size file >? maxSizeInMB * 1024 * 1024)%Z eqn:Hsize; simpl;
      repeat split; try discriminate; try tauto; intros; try reflexivity; lia.
  - assert (Hnot : ~ In (Dom.file_type file) acceptedFormats).
    { intros H. apply Hin in H. discriminate H. }
    simpl. repeat split; try discriminate; try tauto; intros; try reflexivity.
Qed.

(** X11: for an image of positive size and a square bound [m], the size
    [resizeImage] draws at is positive and fits the bound in both
    directions, is the image's own size when the image already fits and
    touches the bound when it does not, and needs no further resizing;
    the call rejects when there is no 2D context or no blob. *)
Theorem resize_fits_square_bound (image : Dom.HTMLImageElement) (m : Q)
    (canvas : Canvas2D) :
  0 < Dom.width image -> 0 < Dom.height image -> 0 < m ->
  fst (resizedSize (Dom.width image) (Dom.height image) m m) <= m /\
  snd (resizedSize (Dom.width image) (Dom.height image) m m) <= m /\
  0 < fst (resizedSize (Dom.width image) (Dom.height image) m m) /\
  0 < snd (resizedSize (Dom.width image) (Dom.height image) m m) /\
  (needsResize image m m = false ->
   resizedSize (Dom.width image) (Dom.height image) m m
   = (Dom.width image, Dom.height image)) /\
  (needsResize image m m = true ->
   fst (resizedSize (Dom.width image) (Dom.height image) m m) = m \/
   snd (resizedSize (Dom.width image) (Dom.height image) m m) = m) /\
  needsResize
    {| Dom.src := Dom.src image;
       Dom.width := fst (resizedSize (Dom.width image) (Dom.height image) m m);
       Dom.height := snd (resizedSize (Dom.width image) (Dom.height image) m m) |}
    m m = false /\
  resizeImage image m m canvas
  = (if hasContext canvas then
       match toBlob canvas with
       | Some blob =>
           inr (fst (resizedSize (Dom.width image) (Dom.height image) m m),
                snd (resizedSize (Dom.width image) (Dom.height image) m m), blob)
       | None => inl (Js.ErrorObject "Failed to create blob from canvas")
       end
     else inl (Js.ErrorObject "Failed to get canvas context")).
Proof.
  intros Hw Hh Hm.
  assert (Hcall : forall size,
    size = resizedSize (Dom.width image) (Dom.height image) m m ->
    resizeImage image m m canvas
    = (if hasContext canvas then
         match toBlob canvas with
         | Some blob => inr (fst size, snd size, blob)
         | None => inl (Js.ErrorObject "Failed to create blob from canvas")
         end
       else inl (Js.ErrorObject "Failed to get canvas context"))).
  { intros size ->. unfold resizeImage.
    destruct (hasContext canvas); cbn [negb]; [ | reflexivity ].
    now destruct (resizedSize _ _ m m). }
  specialize (Hcall _ eq_refl). revert Hcall.
  unfold needsResize, resizedSize. cbn [Dom.width Dom.height].
  destruct (Js.gt (Dom.width image) m || Js.gt (Dom.height image) m) eqn:Hneeds.
  - destruct (Js.gt (Dom.width image) (Dom.height image)) eqn:Hwh; cbv zeta;
      cbn [fst snd]; intros Hcall.
    + apply gt_true in Hwh.
      destruct (scaled_down m (Dom.height image) (Dom.width image) Hm Hh Hw
                  (Qlt_le_weak _ _ Hwh)) as (Hle & Hpos & Heq).
      repeat match goal with |- _ /\ _ => split end;
        try assumption; try apply Qle_refl; try discriminate; auto.
      * now rewrite Heq.
      * now rewrite Heq.
      * apply orb_false_iff. split; apply gt_false; [ apply Qle_refl | now rewrite Heq ].
    + apply gt_false in Hwh.
      destruct (scaled_down m (Dom.width image) (Dom.height image) Hm Hw Hh Hwh)
        as (Hle & Hpos & _).
      repeat match goal with |- _ /\ _ => split end;
        try assumption; try apply Qle_refl; try discriminate; auto.
      apply orb_false_iff. split; apply gt_false; [ exact Hle | apply Qle_refl ].
  - cbn [fst snd]. intros Hcall.
    apply orb_false_iff in Hneeds. destruct Hneeds as [Hw' Hh'].
    rewrite Hw', Hh'. apply gt_false in Hw', Hh'.
    repeat match goal with |- _ /\ _ => split end;
      try assumption; try reflexivity; try discriminate; auto.
Qed.

Lemma resize_fits_square_bound_witness :
  fst (resizedSize (Dom.width hugeImage) (Dom.height hugeImage) 2048 2048) <= 2048 /\
  snd (resizedSize (Dom.width hugeImage) (Dom.height hugeImage) 2048 2048) <= 2048 /\
  0 < fst (resizedSize (Dom.width hugeImage) (Dom.height hugeImage) 2048 2048) /\
  0 < snd (resizedSize (Dom.width hugeImage) (Dom.height hugeImage) 2048 2048) /\
  (needsResize hugeImage 2048 2048 = false ->
   resizedSize (Dom.width hugeImage) (Dom.height hugeImage) 2048 2048
   = (Dom.width hugeImage, Dom.height hugeImage)) /\
  (needsResize hugeImage 2048 2048 = true ->
   fst (resizedSize (Dom.width hugeImage) (Dom.height hugeImage) 2048 2048) = 2048 \/
   snd (resizedSize (Dom.width hugeImage) (Dom.height hugeImage) 2048 2048) = 2048) /\
  needsResize
    {| Dom.src := Dom.src hugeImage;
       Dom.width := fst (resizedSize (Dom.width hugeImage) (Dom.height hugeImage) 2048 2048);
       Dom.height := snd (resizedSize (Dom.width hugeImage) (Dom.height hugeImage) 2048 2048) |}
    2048 2048 = false /\
  resizeImage hugeImage 2048 2048 workingCanvas
  = (if hasContext workingCanvas then
       match toBlob workingCanvas with
       | Some blob =>
           inr (fst (resizedSize (Dom.width hugeImage) (Dom.height hugeImage) 2048 2048),
                snd (resizedSize (Dom.width hugeImage) (Dom.height hugeImage) 2048 2048),
                blob)
       | None => inl (Js.ErrorObject "Failed to create blob from canvas")
       end
     else inl (Js.ErrorObject "Failed to get canvas context")).
Proof.
  apply (resize_fits_square_bound hugeImage 2048 workingCanvas); reflexivity.
Defined.

(** X12: for an image and a [maxSize] in the range of pixel sizes (from 1
    to 2^32), [maxSize] being a double, a thumbnail is drawn at a
    positive size that fits [maxSize] in both directions and has one side
    equal to [maxSize] (also when the image is smaller than that); its
    aspect ratio is the image's up to the rounding of the two operations
    that compute it, a relative 3 * 2^-53; without a 2D context the call
    throws. *)
Theorem thumbnail_fits (image : Dom.HTMLImageElement) (maxSize : Q)
    (canvas : Canvas2D) :
  1 <= Dom.width image <= 4294967296 ->
  1 <= Dom.height image <= 4294967296 ->
  1 <= maxSize <= 4294967296 ->
  Js.double maxSize == maxSize ->
  (hasContext canvas = false ->
   createThumbnail image maxSize canvas
   = inl (Js.ErrorObject "Failed to get canvas context")) /\
  (hasContext canvas = true ->
   exists width height,
     createThumbnail image maxSize canvas = inr (width, height, toDataURL canvas) /\
     0 < width <= maxSize /\ 0 < height <= maxSize /\
     (width = maxSize \/ height = maxSize) /\
     Qabs (width * Dom.height image - height * Dom.width image)
       <= (3 # 9007199254740992) * (width * Dom.height image)).
Proof.
  intros [Hw _] [Hh _] [Hm _] Hexact.
  set (w := Dom.width image) in *. set (h := Dom.height image) in *.
  assert (Hw0 : 0 < w) by lra. assert (Hh0 : 0 < h) by lra.
  assert (Hm0 : 0 < maxSize) by lra.
  pose proof (Qdiv_pos _ _ Hw0 Hh0) as Hratio.
  pose proof (double_pos _ Hratio) as Ha.
  pose proof (double_error (w / h) (Qlt_le_weak _ _ Hratio)) as [Ha1 Ha2].
  assert (Hback : w / h * h == w) by (field; lra).
  apply (Qmult_le_compat_r _ _ h) in Ha1, Ha2; try lra.
  unfold createThumbnail. fold w h. split; intros ->; cbn [negb]; [ reflexivity | ].
  set (a := Js.double (w / h)) in *.
  destruct (Js.gt a 1) eqn:Hwide.
  - apply gt_true in Hwide.
    pose proof (Qdiv_pos _ _ Hm0 Ha) as Hq.
    pose proof (double_pos _ Hq) as Hpos.
    pose proof (double_error (maxSize / a) (Qlt_le_weak _ _ Hq)) as [Hb1 Hb2].
    assert (Hback' : maxSize / a * a == maxSize) by (field; lra).
    apply (Qmult_le_compat_r _ _ a) in Hb1, Hb2; try lra.
    assert (Hle : Js.double (maxSize / a) <= maxSize).
    { rewrite <- Hexact at 2. apply double_le.
      apply Qle_shift_div_r; [ exact Ha | ]. nra. }
    set (ht := Js.double (maxSize / a)) in *.
    exists maxSize, ht.
    repeat match goal with |- _ /\ _ => split end;
      try reflexivity; try assumption; try apply Qle_refl; auto.
    apply Qabs_Qle_condition. split; nra.
  - apply gt_false in Hwide.
    assert (Hq : 0 < maxSize * a) by nra.
    pose proof (double_pos _ Hq) as Hpos.
    pose proof (double_error (maxSize * a) (Qlt_le_weak _ _ Hq)) as [Hb1 Hb2].
    assert (Hle : Js.double (maxSize * a) <= maxSize).
    { rewrite <- Hexact at 2. apply double_le. nra. }
    set (wd := Js.double (maxSize * a)) in *.
    exists wd, maxSize.
    repeat match goal with |- _ /\ _ => split end;
      try reflexivity; try assumption; try apply Qle_refl; auto.
    apply Qabs_Qle_condition. split; nra.
Qed.

Lemma thumbnail_fits_witness :
  (hasContext workingCanvas = false ->
   createThumbnail firstImage 200 workingCanvas
   = inl (Js.ErrorObject "Failed to get canvas context")) /\
  (hasContext workingCanvas = true ->
   exists width height,
     createThumbnail firstImage 200 workingCanvas
       = inr (width, height, toDataURL workingCanvas) /\
     0 < width <= 200 /\ 0 < height <= 200 /\
     (width = 200 \/ height = 200) /\
     Qabs (width * Dom.height firstImage - height * Dom.width firstImage)
       <= (3 # 9007199254740992) * (width * Dom.height firstImage)).
Proof.
  apply (thumbnail_fits firstImage 200 workingCanvas);
    try (split; discriminate); reflexivity.
Defined.

(** A 1 x 3 image at 200: the width is the double next below 200 / 3. *)
Example thumbnail_of_a_third :
  createThumbnail (Dom.mkImage "blob:strip" 1 3) 200 workingCanvas
  = inr (2345624805922133 # 35184372088832, 200, toDataURL workingCanvas).
Proof. vm_compute. reflexivity. Qed.

Lemma round_le (a b : Q) : a <= b -> (Js.round a <= Js.round b)%Z.
Proof.
  intros H. unfold Js.round. apply Qfloor_resp_le. now apply Qplus_le_l.
Qed.

Lemma round_inject_Z (n : Z) : Js.round (inject_Z n) = n.
Proof.
  unfold Js.round, Qfloor, Qplus, inject_Z. simpl.
  rewrite Z.div_add_l by discriminate. change (1 / 2)%Z with 0%Z. lia.
Qed.

(** A pixel size as a number. *)
Lemma pixels_as_number (n : Z) :
  (1 <= n <= 4294967296)%Z ->
  1 <= inject_Z n /\ inject_Z n <= 4294967296 /\ Js.double (inject_Z n) == inject_Z n.
Proof.
  intros [H1 H2]. repeat split.
  - change 1 with (inject_Z 1). rewrite <- Zle_Qle. exact H1.
  - change 4294967296 with (inject_Z 4294967296). rewrite <- Zle_Qle. exact H2.
  - apply double_Z. change (2 ^ 53)%Z with 9007199254740992%Z. lia.
Qed.

(** X13: for an image and bounds that are whole numbers of pixels (from 1
    to 2^32), the canvas size chosen is within both bounds, is never
    larger than the image, is not negative, and is the image's own size
    when the image fits the bounds. *)
Theorem optimal_canvas_within_bounds (imageWidth imageHeight maxWidth maxHeight : Z) :
  (1 <= imageWidth <= 4294967296)%Z -> (1 <= imageHeight <= 4294967296)%Z ->
  (1 <= maxWidth <= 4294967296)%Z -> (1 <= maxHeight <= 4294967296)%Z ->
  (0 <= CanvasUtils.width
          (CanvasUtils.getOptimalCanvasDimensions (inject_Z imageWidth)
             (inject_Z imageHeight) (inject_Z maxWidth) (inject_Z maxHeight))
     <= maxWidth)%Z /\
  (0 <= CanvasUtils.height
          (CanvasUtils.getOptimalCanvasDimensions (inject_Z imageWidth)
             (inject_Z imageHeight) (inject_Z maxWidth) (inject_Z maxHeight))
     <= maxHeight)%Z /\
  (CanvasUtils.width
     (CanvasUtils.getOptimalCanvasDimensions (inject_Z imageWidth)
        (inject_Z imageHeight) (inject_Z maxWidth) (inject_Z maxHeight))
   <= imageWidth)%Z /\
  (CanvasUtils.height
     (CanvasUtils.getOptimalCanvasDimensions (inject_Z imageWidth)
        (inject_Z imageHeight) (inject_Z maxWidth) (inject_Z maxHeight))
   <= imageHeight)%Z /\
  ((imageWidth <= maxWidth)%Z -> (imageHeight <= maxHeight)%Z ->
   CanvasUtils.getOptimalCanvasDimensions (inject_Z imageWidth)
     (inject_Z imageHeight) (inject_Z maxWidth) (inject_Z maxHeight)
   = {| CanvasUtils.width := imageWidth; CanvasUtils.height := imageHeight |}).
Proof.
  intros Hiw Hih HW HH.
  destruct (pixels_as_number _ Hiw) as (Hiw1 & Hiw2 & Hiwd).
  destruct (pixels_as_number _ Hih) as (Hih1 & Hih2 & Hihd).
  destruct (pixels_as_number _ HW) as (HW1 & HW2 & HWd).
  destruct (pixels_as_number _ HH) as (HH1 & HH2 & HHd).
  assert (Hround : forall v (n : Z), v <= inject_Z n -> (Js.round v <= n)%Z).
  { intros v n Hv. rewrite <- (round_inject_Z n). now apply round_le. }
  assert (Hzero : forall v, 0 < v -> (0 <= Js.round v)%Z).
  { intros v Hv. change 0%Z with (Js.round 0). apply round_le, Qlt_le_weak, Hv. }
  assert (Hstep : forall n k : Z, inject_Z n < inject_Z k -> inject_Z n <= inject_Z k - 1).
  { intros n k H. rewrite <- Zlt_Qlt in H.
    change 1 with (inject_Z 1). unfold Qminus. rewrite <- inject_Z_opp, <- inject_Z_plus.
    rewrite <- Zle_Qle. lia. }
  set (iw := inject_Z imageWidth) in *. set (ih := inject_Z imageHeight) in *.
  set (W := inject_Z maxWidth) in *. set (H := inject_Z maxHeight) in *.
  assert (HrW : Js.round W = maxWidth) by apply round_inject_Z.
  assert (HrH : Js.round H = maxHeight) by apply round_inject_Z.
  assert (Hriw : Js.round iw = imageWidth) by apply round_inject_Z.
  assert (Hrih : Js.round ih = imageHeight) by apply round_inject_Z.
  assert (Hr : 0 < iw / ih) by (apply Qdiv_pos; lra).
  pose proof (double_pos _ Hr) as Ha.
  pose proof (double_error (iw / ih) (Qlt_le_weak _ _ Hr)) as [Ha1 Ha2].
  assert (Hback : iw / ih * ih == iw) by (field; lra).
  apply (Qmult_le_compat_r _ _ ih) in Ha1, Ha2; try lra.
  unfold CanvasUtils.getOptimalCanvasDimensions. cbv zeta. fold iw ih W H.
  set (a := Js.double (iw / ih)) in *.
  assert (Hsmall : H * a <= iw -> Js.double (H * a) <= iw).
  { intros Hle. rewrite <- Hiwd. now apply double_le. }
  assert (Hpos : 0 < Js.double (H * a)) by (apply double_pos; nra).
  assert (Hdone : forall v (n : Z), 0 < v -> v <= inject_Z n -> (0 <= Js.round v <= n)%Z).
  { intros v n Hv Hn. split; [ now apply Hzero | now apply Hround ]. }
  destruct (Js.gt iw W) eqn:H1.
  - apply gt_true in H1. pose proof (Hstep _ _ H1) as H1'. fold W iw in H1'.
    assert (HWiw : (maxWidth < imageWidth)%Z) by (rewrite Zlt_Qlt; exact H1).
    assert (Hq : 0 < W / a) by (apply Qdiv_pos; lra).
    assert (Hh1 : Js.double (W / a) <= ih).
    { rewrite <- Hihd. apply double_le.
      apply Qle_shift_div_r; [ exact Ha | ]. nra. }
    pose proof (double_pos _ Hq) as Hh1pos.
    destruct (Js.gt (Js.double (W / a)) H) eqn:H2; cbn [CanvasUtils.width CanvasUtils.height].
    + apply gt_true in H2.
      assert (Hlt : H * a < W).
      { apply Qnot_le_lt. intros Hge.
        assert (Hdiv : W / a <= H) by (apply Qle_shift_div_r; [ exact Ha | exact Hge ]).
        apply double_le in Hdiv. rewrite HHd in Hdiv. lra. }
      assert (Hfit : Js.double (H * a) <= W).
      { rewrite <- HWd. apply double_le. lra. }
      assert (HHih : (maxHeight < imageHeight)%Z).
      { rewrite Zlt_Qlt. fold H ih. lra. }
      pose proof (Hdone _ maxWidth Hpos Hfit) as Hwidth.
      rewrite HrH. repeat match goal with |- _ /\ _ => split end; lia.
    + apply gt_false in H2.
      pose proof (Hdone _ maxHeight Hh1pos H2) as Hheight1.
      pose proof (Hdone _ imageHeight Hh1pos Hh1) as Hheight2.
      rewrite HrW. repeat match goal with |- _ /\ _ => split end; lia.
  - apply gt_false in H1.
    assert (HiwW : (imageWidth <= maxWidth)%Z) by (rewrite Zle_Qle; exact H1).
    destruct (Js.gt ih H) eqn:H2; cbn [CanvasUtils.width CanvasUtils.height].
    + apply gt_true in H2. pose proof (Hstep _ _ H2) as H2'. fold H ih in H2'.
      assert (HHih : (maxHeight < imageHeight)%Z) by (rewrite Zlt_Qlt; exact H2).
      assert (Hfit : Js.double (H * a) <= iw).
      { apply Hsmall.
        assert (Hp1 : 0 <= (ih - 1 - H) * a) by (apply Qmult_le_0_compat; lra).
        assert (Hp2 : 0 <= (4294967296 - ih) * a) by (apply Qmult_le_0_compat; lra).
        nra. }
      pose proof (Hdone _ imageWidth Hpos Hfit) as Hwidth.
      rewrite HrH. repeat match goal with |- _ /\ _ => split end; lia.
    + apply gt_false in H2.
      assert (HihH : (imageHeight <= maxHeight)%Z) by (rewrite Zle_Qle; exact H2).
      rewrite Hriw, Hrih.
      repeat match goal with |- _ /\ _ => split end; try lia.
      intros _ _. reflexivity.
Qed.

Lemma optimal_canvas_within_bounds_witness :
  (0 <= CanvasUtils.width
          (CanvasUtils.getOptimalCanvasDimensions (inject_Z 15)
             (inject_Z 22) (inject_Z 1000) (inject_Z 11))
     <= 1000)%Z /\
  (0 <= CanvasUtils.height
          (CanvasUtils.getOptimalCanvasDimensions (inject_Z 15)
             (inject_Z 22) (inject_Z 1000) (inject_Z 11))
     <= 11)%Z /\
  (CanvasUtils.width
     (CanvasUtils.getOptimalCanvasDimensions (inject_Z 15)
        (inject_Z 22) (inject_Z 1000) (inject_Z 11))
   <= 15)%Z /\
  (CanvasUtils.height
     (CanvasUtils.getOptimalCanvasDimensions (inject_Z 15)
        (inject_Z 22) (inject_Z 1000) (inject_Z 11))
   <= 22)%Z /\
  ((15 <= 1000)%Z -> (22 <= 11)%Z ->
   CanvasUtils.getOptimalCanvasDimensions (inject_Z 15)
     (inject_Z 22) (inject_Z 1000) (inject_Z 11)
   = {| CanvasUtils.width := 15; CanvasUtils.height := 22 |}).
Proof.
  apply (optimal_canvas_within_bounds 15 22 1000 11); lia.
Defined.

(** A large photograph lands on the default bounds; an extreme strip
    rounds to height 0; and half-way cases round as the code's doubles
    do: 11 * (15 / 22) is just below 7.5 there, so the width is 7. *)
Example optimal_canvas_example :
  CanvasUtils.getOptimalCanvasDimensions 6000 4000 1200 800
  = {| CanvasUtils.width := 1200; CanvasUtils.height := 800 |} /\
  CanvasUtils.getOptimalCanvasDimensions 10000 1 1200 800
  = {| CanvasUtils.width := 1200; CanvasUtils.height := 0 |} /\
  CanvasUtils.getOptimalCanvasDimensions 15 22 1000 11
  = {| CanvasUtils.width := 7; CanvasUtils.height := 11 |}.
Proof. repeat split; vm_compute; reflexivity. Qed.

(* ------------------------------------------------------------------ *)
(** ** Blob URLs *)

Lemma revokeBlobUrl_In (o : option Dom.HTMLImageElement) (url : string) :
  In url (revokeBlobUrl o) <->
  exists img, o = Some img /\ Dom.src img = url /\ String.prefix "blob:" url = true.
Proof.
  unfold revokeBlobUrl. destruct o as [img |].
  - destruct (String.prefix "blob:" (Dom.src img)) eqn:Hp; simpl.
    + split.
      * intros [<- | []]. exists img. auto.
      * intros (img' & Himg & Hsrc & _). injection Himg as <-. auto.
    + split; [ intros [] | ].
      intros (img' & Himg & Hsrc & Hblob). injection Himg as <-.
      subst url. congruence.
  - simpl. split; [ intros [] | intros (img & H & _); discriminate H ].
Qed.

(** X14: the reducer revokes only URLs that begin with [blob:] and belong
    to an image the state held, and whenever an action takes an image
    with such a URL out of the source, processed or background slot, that
    URL is revoked. *)
Theorem reducer_revokes_what_it_drops (s : EditorState) (a : EditorAction) :
  (forall url, In url (snd (editorReducer s a)) ->
     String.prefix "blob:" url = true /\
     exists img, Dom.src img = url /\
       (sourceImage s = Some img \/ processedImage s = Some img \/
        backgroundImage s = Some img)) /\
  (forall img, String.prefix "blob:" (Dom.src img) = true ->
     (sourceImage s = Some img /\ sourceImage (reduce s a) <> Some img) \/
     (processedImage s = Some img /\ processedImage (reduce s a) <> Some img) \/
     (backgroundImage s = Some img /\ backgroundImage (reduce s a) <> Some img) ->
     In (Dom.src img) (snd (editorReducer s a))).
Proof.
  split.
  - intros url Hin.
    assert (Hcases : In url (revokeBlobUrl (sourceImage s)) \/
                     In url (revokeBlobUrl (processedImage s)) \/
                     In url (revokeBlobUrl (backgroundImage s))).
    { destruct a; simpl in Hin; try contradiction; auto.
      apply in_app_or in Hin. tauto. }
    destruct Hcases as [H | [H | H]]; apply revokeBlobUrl_In in H;
      destruct H as (img & Hslot & Hsrc & Hblob);
      (split; [ exact Hblob | exists img; auto ]).
  - intros img Hblob Hdropped.
    assert (Hrev : forall o, o = Some img -> In (Dom.src img) (revokeBlobUrl o)).
    { intros o ->. apply revokeBlobUrl_In. exists img. auto. }
    destruct a; simpl in *;
      destruct Hdropped as [[Hs Hn] | [[Hs Hn] | [Hs Hn]]];
      try contradiction; auto using in_or_app.
Qed.

Lemma has_In (urls : Orchestration.BlobUrls) (url : string) :
  Orchestration.has urls url = true <-> In url urls.
Proof. apply includesElement_In. Qed.

Lemma has_delete_same (urls : Orchestration.BlobUrls) (url : string) :
  Orchestration.has (Orchestration.delete urls url) url = false.
Proof.
  destruct (Orchestration.has (Orchestration.delete urls url) url) eqn:H;
    [ | reflexivity ].
  apply has_In in H. unfold Orchestration.delete in H.
  apply filter_In in H. destruct H as [_ H].
  now rewrite String.eqb_refl in H.
Qed.

Lemma has_delete_other (urls : Orchestration.BlobUrls) (url u : string) :
  u <> url ->
  Orchestration.has (Orchestration.delete urls url) u = Orchestration.has urls u.
Proof.
  intros Hne. apply eq_true_iff_eq. rewrite !has_In.
  unfold Orchestration.delete. rewrite filter_In. split.
  - tauto.
  - intros H. split; [ exact H | ].
    apply negb_true_iff, String.eqb_neq. congruence.
Qed.

Lemma has_app_single (urls : Orchestration.BlobUrls) (url u : string) :
  Orchestration.has (urls ++ [url])%list u
  = Orchestration.has urls u || String.eqb u url.
Proof.
  unfold Orchestration.has, Js.includesElement.
  rewrite existsb_app. simpl. now rewrite orb_false_r.
Qed.

Lemma timesRevoked_app (url : string) (l1 l2 : list string) :
  Orchestration.timesRevoked url (l1 ++ l2)
  = (Orchestration.timesRevoked url l1 + Orchestration.timesRevoked url l2)%nat.
Proof.
  induction l1 as [| u l1 IH]; simpl; [ reflexivity | ].
  destruct (String.eqb url u); simpl; now rewrite IH.
Qed.

Lemma timesRevoked_NoDup (url : string) (urls : list string) :
  NoDup urls ->
  Orchestration.timesRevoked url urls
  = if Orchestration.has urls url then 1%nat else 0%nat.
Proof.
  induction urls as [| u urls IH]; intros Hnd; [ reflexivity | ].
  inversion Hnd as [| ? ? Hnotin Hnd']; subst.
  specialize (IH Hnd').
  change (Orchestration.has (u :: urls) url)
    with (String.eqb url u || Orchestration.has urls url).
  simpl. destruct (String.eqb url u) eqn:Heq; simpl.
  - apply String.eqb_eq in Heq. subst u.
    destruct (Orchestration.has urls url) eqn:Hhas.
    + apply has_In in Hhas. contradiction.
    + now rewrite IH.
  - exact IH.
Qed.

Lemma timesTracked_app (url : string) (l1 l2 : list Orchestration.TrackerUse) :
  Orchestration.timesTracked url (l1 ++ l2)
  = (Orchestration.timesTracked url l1 + Orchestration.timesTracked url l2)%nat.
Proof.
  induction l1 as [| u l1 IH]; simpl; [ reflexivity | ].
  destruct u as [u | u |]; simpl; try exact IH.
  destruct (String.eqb url u); simpl; now rewrite IH.
Qed.

Lemma trackerInvariant_holds (uses : list Orchestration.TrackerUse) :
  trackerInvariant uses (Orchestration.useTrackerAll uses).
Proof.
  unfold Orchestration.useTrackerAll.
  induction uses as [| u uses IH] using rev_ind.
  - repeat split; simpl; [ constructor | tauto | lia ].
  - rewrite fold_left_app. simpl.
    destruct (fold_left Orchestration.useTracker uses ([], []))
      as [urls revoked].
    destruct IH as (Hnd & Hblob & Hcount). simpl in Hnd, Hblob, Hcount.
    unfold trackerInvariant.
    destruct u as [url | url |]; simpl.
    + (* Track *)
      unfold Orchestration.trackBlobUrl.
      destruct (String.prefix "blob:" url) eqn:Hp;
        [ destruct (Orchestration.has urls url) eqn:Hhas | ]; simpl.
      * repeat split; try assumption.
        intros v. rewrite timesTracked_app. specialize (Hcount v). simpl. lia.
      * repeat split.
        -- apply NoDup_app; [ exact Hnd | repeat constructor; intros [] | ].
           intros v Hv [<- | []]. apply has_In in Hv. congruence.
        -- intros v [Hv | Hv]; [ | now apply Hblob; right ].
           apply in_app_or in Hv. destruct Hv as [Hv | [<- | []]];
             [ apply Hblob; now left | exact Hp ].
        -- intros v. rewrite timesTracked_app, has_app_single. simpl.
           specialize (Hcount v).
           destruct (String.eqb v url) eqn:Hv.
           ++ apply String.eqb_eq in Hv. subst v. rewrite Hhas in *.
              simpl. lia.
           ++ rewrite orb_false_r. lia.
      * repeat split; try assumption.
        intros v. rewrite timesTracked_app. specialize (Hcount v). simpl. lia.
    + (* RevokeTracked *)
      unfold Orchestration.revokeBlobUrlTracked.
      destruct (String.prefix "blob:" url && Orchestration.has urls url) eqn:Hc; simpl.
      * apply andb_true_iff in Hc. destruct Hc as [Hp Hhas].
        repeat split.
        -- unfold Orchestration.delete. now apply NoDup_filter.
        -- intros v [Hv | Hv].
           ++ unfold Orchestration.delete in Hv. apply filter_In in Hv.
              apply Hblob. left. tauto.
           ++ apply in_app_or in Hv. destruct Hv as [Hv | [<- | []]];
                [ apply Hblob; now right | exact Hp ].
        -- intros v. rewrite timesTracked_app, timesRevoked_app. simpl.
           specialize (Hcount v).
           destruct (String.eqb v url) eqn:Hv.
           ++ apply String.eqb_eq in Hv. subst v.
              rewrite has_delete_same. rewrite Hhas in Hcount. lia.
           ++ apply String.eqb_neq in Hv. rewrite has_delete_other by exact Hv. lia.
      * rewrite app_nil_r. repeat split; try assumption.
        intros v. rewrite timesTracked_app. specialize (Hcount v). simpl. lia.
    + (* Unmount *)
      repeat split.
      * constructor.
      * intros v [[] | Hv]. apply in_app_or in Hv. apply Hblob. tauto.
      * intros v. rewrite timesTracked_app, timesRevoked_app. simpl.
        specialize (Hcount v). rewrite (timesRevoked_NoDup v urls Hnd). lia.
Qed.

(** X15: after any run of [trackBlobUrl], [revokeBlobUrlTracked] and
    unmounting, the set holds no URL twice, every tracked or revoked URL
    begins with [blob:], and no URL has been revoked more often than it
    was tracked (a URL still in the set counting as one revocation to
    come); revoking a URL a second time does nothing, and unmounting
    empties the set. *)
Theorem tracker_never_revokes_twice (uses : list Orchestration.TrackerUse)
    (url : string) :
  NoDup (fst (Orchestration.useTrackerAll uses)) /\
  (forall u, In u (fst (Orchestration.useTrackerAll uses)) \/
             In u (snd (Orchestration.useTrackerAll uses)) ->
     String.prefix "blob:" u = true) /\
  (Orchestration.timesRevoked url (snd (Orchestration.useTrackerAll uses))
   + (if Orchestration.has (fst (Orchestration.useTrackerAll uses)) url then 1 else 0)
   <= Orchestration.timesTracked url uses)%nat /\
  (forall urls,
     Orchestration.revokeBlobUrlTracked
       (fst (Orchestration.revokeBlobUrlTracked urls url)) url
     = (fst (Orchestration.revokeBlobUrlTracked urls url), [])) /\
  fst (Orchestration.useTrackerAll (uses ++ [Orchestration.Unmount])%list) = [].
Proof.
  destruct (trackerInvariant_holds uses) as (Hnd & Hblob & Hcount).
  repeat match goal with |- _ /\ _ => split end; auto.
  - intros urls. unfold Orchestration.revokeBlobUrlTracked.
    destruct (String.prefix "blob:" url && Orchestration.has urls url) eqn:Hc; simpl.
    + now rewrite has_delete_same, andb_false_r.
    + now rewrite Hc.
  - unfold Orchestration.useTrackerAll. rewrite fold_left_app. simpl.
    now destruct (fold_left Orchestration.useTracker uses ([], [])).
Qed.

Lemma delete_fresh (urls : Orchestration.BlobUrls) (url : string) :
  Orchestration.has urls url = false -> Orchestration.delete urls url = urls.
Proof.
  unfold Orchestration.has, Orchestration.delete, Js.includesElement.
  induction urls as [| u urls IH]; simpl; [ reflexivity | ].
  intros H. apply orb_false_iff in H. destruct H as [Hu Hrest].
  rewrite Hu. simpl. now rewrite IH.
Qed.

(** Tracking a fresh blob URL and revoking it again restores the set. *)
Lemma track_then_revoke (urls : Orchestration.BlobUrls) (url : string) :
  String.prefix "blob:" url = true ->
  Orchestration.has urls url = false ->
  Orchestration.revokeBlobUrlTracked (Orchestration.trackBlobUrl urls url) url
  = (urls, [url]).
Proof.
  intros Hp Hfresh.
  unfold Orchestration.trackBlobUrl, Orchestration.revokeBlobUrlTracked.
  rewrite Hp, Hfresh, has_app_single, String.eqb_refl, orb_true_r. simpl.
  unfold Orchestration.delete. rewrite filter_app. simpl.
  rewrite String.eqb_refl. simpl. rewrite app_nil_r.
  f_equal. now apply delete_fresh.
Qed.

(** X16: when the URLs created for the file and for the resized blob are
    fresh blob URLs, [handleImageUpload] leaves the set of tracked URLs as
    it found it and has revoked every URL it created, on every path; it
    dispatches [RESET] first and then exactly one more action, which sets
    the source image or an error. *)
Theorem upload_releases_its_urls (urls : Orchestration.BlobUrls) (file : Dom.File)
    (w : Orchestration.UploadWorld) :
  String.prefix "blob:" (Orchestration.imageUrl w) = true ->
  String.prefix "blob:" (Orchestration.resizedUrl w) = true ->
  Orchestration.has urls (Orchestration.imageUrl w) = false ->
  Orchestration.has urls (Orchestration.resizedUrl w) = false ->
  Orchestration.imageUrl w <> Orchestration.resizedUrl w ->
  fst (Orchestration.handleImageUpload urls file w) = urls /\
  Orchestration.revokedBy (snd (Orchestration.handleImageUpload urls file w))
    = Orchestration.created (snd (Orchestration.handleImageUpload urls file w)) /\
  In (Orchestration.imageUrl w)
     (Orchestration.created (snd (Orchestration.handleImageUpload urls file w))) /\
  exists a,
    Orchestration.dispatches (snd (Orchestration.handleImageUpload urls file w))
      = [RESET; a] /\
    ((exists img f, a = SET_SOURCE_IMAGE img f) \/ (exists m, a = SET_ERROR (Some m))).
Proof.
  intros Hp1 Hp2 Hf1 Hf2 Hne.
  pose proof (track_then_revoke urls _ Hp1 Hf1) as Hone.
  unfold Orchestration.handleImageUpload.
  destruct (Orchestration.decoded w) as [[width height] |].
  - destruct (ImageProcessing.needsResize _ 2048 2048).
    + destruct (ImageProcessing.resizeImage _ 2048 2048 _) as [e | [[? ?] resizedBlob]].
      * rewrite Hone. simpl. repeat split; auto. eexists. split; [ reflexivity | ].
        right. eexists. reflexivity.
      * assert (Hboth :
          Orchestration.trackBlobUrl
            (Orchestration.trackBlobUrl urls (Orchestration.imageUrl w))
            (Orchestration.resizedUrl w)
          = (urls ++ [Orchestration.imageUrl w] ++ [Orchestration.resizedUrl w])%list).
        { unfold Orchestration.trackBlobUrl.
          rewrite Hp1, Hp2, Hf1, has_app_single, Hf2. simpl.
          assert (Hneq : String.eqb (Orchestration.resizedUrl w) (Orchestration.imageUrl w) = false)
            by (apply String.eqb_neq; congruence).
          rewrite Hneq. now rewrite <- app_assoc. }
        rewrite Hboth.
        assert (Hfirst :
          Orchestration.revokeBlobUrlTracked
            (urls ++ [Orchestration.imageUrl w] ++ [Orchestration.resizedUrl w])%list
            (Orchestration.imageUrl w)
          = ((urls ++ [Orchestration.resizedUrl w])%list, [Orchestration.imageUrl w])).
        { unfold Orchestration.revokeBlobUrlTracked.
          rewrite Hp1, app_assoc, has_app_single, has_app_single,
            String.eqb_refl, orb_true_r. simpl.
          unfold Orchestration.delete. rewrite !filter_app. simpl.
          rewrite String.eqb_refl. simpl.
          assert (Hneq : String.eqb (Orchestration.imageUrl w) (Orchestration.resizedUrl w) = false)
            by (now apply String.eqb_neq).
          rewrite Hneq. simpl. rewrite app_nil_r.
          do 2 f_equal. now apply delete_fresh. }
        rewrite Hfirst.
        pose proof (track_then_revoke urls _ Hp2 Hf2) as Htwo.
        unfold Orchestration.trackBlobUrl in Htwo. rewrite Hp2, Hf2 in Htwo.
        rewrite Htwo. simpl. repeat split; auto.
        eexists. split; [ reflexivity | ].
        destruct (Orchestration.resizedDecoded w) as [[? ?] |]; eauto.
    + rewrite Hone. simpl. repeat split; auto. eexists. split; [ reflexivity | ].
      left. eauto.
  - rewrite Hone. simpl. repeat split; auto. eexists. split; [ reflexivity | ].
    right. eexists. reflexivity.
Qed.

Lemma upload_releases_its_urls_witness :
  fst (Orchestration.handleImageUpload ["blob:older"] firstFile largeUpload)
    = ["blob:older"] /\
  Orchestration.revokedBy
    (snd (Orchestration.handleImageUpload ["blob:older"] firstFile largeUpload))
    = Orchestration.created
        (snd (Orchestration.handleImageUpload ["blob:older"] firstFile largeUpload)) /\
  In (Orchestration.imageUrl largeUpload)
     (Orchestration.created
        (snd (Orchestration.handleImageUpload ["blob:older"] firstFile largeUpload))) /\
  exists a,
    Orchestration.dispatches
      (snd (Orchestration.handleImageUpload ["blob:older"] firstFile largeUpload))
      = [RESET; a] /\
    ((exists img f, a = SET_SOURCE_IMAGE img f) \/ (exists m, a = SET_ERROR (Some m))).
Proof.
  apply (upload_releases_its_urls ["blob:older"] firstFile largeUpload);
    try reflexivity.
  discriminate.
Defined.

Lemma Orchestration_dispatches_app (l1 l2 : list Orchestration.Effect) :
  Orchestration.dispatches (l1 ++ l2)
  = (Orchestration.dispatches l1 ++ Orchestration.dispatches l2)%list.
Proof.
  induction l1 as [| e l1 IH]; simpl; [ reflexivity | ].
  destruct e; simpl; now rewrite IH.
Qed.

Lemma Orchestration_dispatches_revoking (urls : list string) :
  Orchestration.dispatches (Orchestration.revoking urls) = [].
Proof.
  induction urls as [| u urls IH]; simpl; [ reflexivity | exact IH ].
Qed.




(* ------------------------------------------------------------------ *)
(** ** A removal from start to end *)

(** Progress callbacks change nothing but the progress. *)
Lemma progress_callbacks_frame (ps : list Q) :
  forall s : Session,
    sameOutsideErrorCase (editor s)
      (editor (run s (map processRemoveBackground_onProgress ps))) /\
    isProcessing (editor (run s (map processRemoveBackground_onProgress ps)))
      = isProcessing (editor s) /\
    error (editor (run s (map processRemoveBackground_onProgress ps)))
      = error (editor s) /\
    generation (run s (map processRemoveBackground_onProgress ps)) = generation s.
Proof.
  unfold sameOutsideErrorCase.
  induction ps as [| p ps IH]; intros s; simpl.
  - repeat split.
  - specialize (IH (step s (processRemoveBackground_onProgress p))).
    simpl in IH. exact IH.
Qed.

(** X18: a removal that runs from start to end with nothing in between
    always leaves [isProcessing] false and never touches the source, the
    background or the transform.  Without a source file it only shows
    "Please upload an image first."; when the client resolves and the
    result decodes, the processed image and blob are the result and no
    error is shown; when the result fails to decode or the client rejects,
    an error is shown and the processed image stays as it was. *)
Theorem removal_always_ends_processing (s : Session)
    (world : Z -> Attempt) (url : string) (decode : option (Q * Q)) :
  let after :=
    editor (run s (Orchestration.processRemoveBackground s world url decode)) in
  isProcessing after = false /\
  (sourceImage after = sourceImage (editor s) /\
   sourceFile after = sourceFile (editor s) /\
   backgroundColor after = backgroundColor (editor s) /\
   backgroundImage after = backgroundImage (editor s) /\
   transform after = transform (editor s)) /\
  (sourceFile (editor s) = None ->
   error after = Some "Please upload an image first." /\
   processedImage after = processedImage (editor s)) /\
  (forall file blob width height, sourceFile (editor s) = Some file ->
     snd (processBackgroundRemoval file Orchestration.removalOptions world) = inr blob ->
     decode = Some (width, height) ->
     processedImage after = Some (Dom.mkImage url width height) /\
     processedBlob after = Some blob /\
     error after = None) /\
  (forall file blob, sourceFile (editor s) = Some file ->
     snd (processBackgroundRemoval file Orchestration.removalOptions world) = inr blob ->
     decode = None ->
     processedImage after = processedImage (editor s) /\
     error after = Some "Failed to load processed image. Please try again.") /\
  (forall file e, sourceFile (editor s) = Some file ->
     snd (processBackgroundRemoval file Orchestration.removalOptions world) = inl e ->
     processedImage after = processedImage (editor s) /\
     error after = Some (classify (Js.ErrorObject (message e)))).
Proof.
  cbv zeta. unfold Orchestration.processRemoveBackground.
  destruct (sourceFile (editor s)) as [file |] eqn:Hfile.
  - destruct (processBackgroundRemoval file Orchestration.removalOptions world)
      as [events outcome] eqn:Hcall.
    set (started := step s Page.processRemoveBackground).
    assert (Hstarted : sameOutsideErrorCase (editor s) (editor started)).
    { unfold started, step, dispatched. rewrite Hfile. repeat split. }
    unfold run. simpl fold_left. fold started. rewrite fold_left_app.
    destruct (progress_callbacks_frame (progressOf events) started)
      as (Hframe & _).
    unfold run in Hframe.
    set (reported := fold_left step
                       (map processRemoveBackground_onProgress (progressOf events))
                       started) in *.
    unfold sameOutsideErrorCase in *.
    destruct Hstarted as (S1 & S2 & S3 & S4 & S5 & S6 & S7 & S8).
    destruct Hframe as (F1 & F2 & F3 & F4 & F5 & F6 & F7 & F8).
    assert (Hkeep :
      sourceImage (editor reported) = sourceImage (editor s) /\
      sourceFile (editor reported) = sourceFile (editor s) /\
      processedImage (editor reported) = processedImage (editor s) /\
      backgroundColor (editor reported) = backgroundColor (editor s) /\
      backgroundImage (editor reported) = backgroundImage (editor s) /\
      transform (editor reported) = transform (editor s))
      by (repeat split; congruence).
    clear S1 S2 S3 S4 S5 S6 S7 S8 F1 F2 F3 F4 F5 F6 F7 F8.
    destruct Hkeep as (K1 & K2 & K3 & K4 & K5 & K6).
    simpl snd.
    destruct outcome as [e | blob]; [ | destruct decode as [[width height] |] ];
      simpl fold_left; unfold step at 1; simpl editor; unfold dispatched;
      unfold dispatchAll; simpl fold_left; unfold reduce; cbn -[classify].
    all: repeat match goal with |- _ /\ _ => split end;
      try congruence; try (intros; discriminate).
    all: intros;
      repeat match goal with
             | H : Some _ = Some _ |- _ => injection H as ?; subst
             end;
      match goal with
      | H : snd (processBackgroundRemoval _ _ _) = _ |- _ =>
          rewrite Hcall in H; simpl in H
      end;
      try discriminate;
      repeat match goal with
             | H : inl _ = inl _ |- _ => injection H as ?; subst
             | H : inr _ = inr _ |- _ => injection H as ?; subst
             end;
      repeat split; congruence.
  - unfold run, step, dispatched. simpl. rewrite Hfile. simpl.
    repeat match goal with |- _ /\ _ => split end;
      try reflexivity; try assumption; intros; try discriminate; repeat split.
Qed.

(* ------------------------------------------------------------------ *)
(** ** The canvas editor *)

(** X19: the background the editor composes with is the last one chosen:
    an image after [SET_BACKGROUND_IMAGE], the colour after
    [SET_BACKGROUND_COLOR] with a non-empty colour, and white after a
    reset or after choosing the empty colour; and in every state reached
    from the initial one a background image that is set is the one
    composed with, never hidden by a colour. *)
Theorem rendered_background_is_last_choice (actions : list EditorAction)
    (s : EditorState) (img : Dom.HTMLImageElement) (c : Ascii.ascii) (rest : string) :
  CanvasEditor.background
    (Orchestration.canvasEditorProps (reduce s (SET_BACKGROUND_IMAGE img)))
    = image img /\
  CanvasEditor.background
    (Orchestration.canvasEditorProps (reduce s (SET_BACKGROUND_COLOR (String c rest))))
    = color (String c rest) /\
  CanvasEditor.background
    (Orchestration.canvasEditorProps (reduce s (SET_BACKGROUND_COLOR "")))
    = color "#ffffff" /\
  CanvasEditor.background (Orchestration.canvasEditorProps (reduce s RESET))
    = color "#ffffff" /\
  (backgroundImage (dispatchAll initialState actions) = Some img ->
   CanvasEditor.background
     (Orchestration.canvasEditorProps (dispatchAll initialState actions))
   = image img).
Proof.
  repeat match goal with |- _ /\ _ => split end; try reflexivity.
  pose proof (reducer_invariant oneBackground (or_introl eq_refl) oneBackground_step
                actions) as Hone.
  unfold oneBackground in Hone.
  intros Himg. unfold CanvasEditor.background, Orchestration.canvasEditorProps. simpl.
  destruct Hone as [-> | Hnone]; [ now rewrite Himg | congruence ].
Qed.





Lemma orElse_nonzero (v d : Q) : ~ v == 0 -> Js.orElse v d = v.
Proof.
  intros Hv. unfold Js.orElse. destruct (Qeq_bool v 0) eqn:H; [ | reflexivity ].
  apply Qeq_bool_iff in H. contradiction.
Qed.

(** A positive scale times a factor near 1, as the code computes it. *)
Lemma rescaled (s c : Q) :
  0 < s -> 0 < c ->
  Fabric.heldScale (Js.double (Js.orElse s 1 * c)) = Js.double (s * c) /\
  0 < Js.double (s * c) /\
  s * c * (1 - (1 # 9007199254740992)) <= Js.double (s * c) /\
  Js.double (s * c) <= s * c * (1 + (1 # 9007199254740992)).
Proof.
  intros Hs Hc.
  assert (Hp : 0 < s * c) by nra.
  rewrite (orElse_nonzero s 1) by lra.
  pose proof (double_pos _ Hp) as Hd.
  pose proof (double_error _ (Qlt_le_weak _ _ Hp)) as [H1 H2].
  rewrite (heldScale_positive _ Hd). repeat split; assumption.
Qed.

(** X21: with a canvas and an active object whose scale lies between a
    millionth and a million, [+] (or [=]) multiplies both scales by 1.1
    and [-] (or [_]) by 0.9, in doubles, whether or not Shift is held, and
    neither moves or turns the object: after [+] the scale is 1.1 times
    what it was up to a relative 3 * 2^-53, and after [+] followed by [-]
    it is 0.99 times what it was up to a relative 5 * 2^-53, so below what
    it was and not restored.  From 0.5 the two keys lead to
    0.49500000000000005, which is not the double 0.495.  A scale of zero
    is taken as 1. *)
Theorem scale_keys_do_not_undo (e : CanvasEditor.Editor) (canvas : Fabric.Canvas)
    (o : Fabric.FabricImage) (shiftKey : bool) :
  CanvasEditor.fabricCanvas e = Some canvas ->
  1 # 1000000 <= Fabric.scaleX o <= 1000000 ->
  (exists o1 o2,
     CanvasEditor.onKeyDown e (Some o) "+" shiftKey = (Some o1, true) /\
     CanvasEditor.onKeyDown e (Some o) "=" shiftKey = (Some o1, true) /\
     CanvasEditor.onKeyDown e (Some o1) "-" shiftKey = (Some o2, true) /\
     CanvasEditor.onKeyDown e (Some o1) "_" shiftKey = (Some o2, true) /\
     Fabric.scaleY o1 = Fabric.scaleX o1 /\
     Fabric.scaleY o2 = Fabric.scaleX o2 /\
     Fabric.scaleX o * 1.1 * (1 - (3 # 9007199254740992)) <= Fabric.scaleX o1 /\
     Fabric.scaleX o1 <= Fabric.scaleX o * 1.1 * (1 + (3 # 9007199254740992)) /\
     Fabric.scaleX o * 0.99 * (1 - (5 # 9007199254740992)) <= Fabric.scaleX o2 /\
     Fabric.scaleX o2 <= Fabric.scaleX o * 0.99 * (1 + (5 # 9007199254740992)) /\
     Fabric.scaleX o < Fabric.scaleX o1 /\
     Fabric.scaleX o2 < Fabric.scaleX o /\
     Fabric.scale o2 (Fabric.scaleX o) = Fabric.scale o (Fabric.scaleX o)) /\
  (exists o1 o2,
     CanvasEditor.onKeyDown e (Some (Fabric.scale o 0.5)) "+" shiftKey = (Some o1, true) /\
     CanvasEditor.onKeyDown e (Some o1) "-" shiftKey = (Some o2, true) /\
     Fabric.scaleX o2 == Js.double 0.49500000000000005 /\
     ~ Fabric.scaleX o2 == Js.double 0.495) /\
  (forall flat, Fabric.scaleX flat == 0 ->
     exists o1,
       CanvasEditor.onKeyDown e (Some flat) "+" shiftKey = (Some o1, true) /\
       Fabric.scaleX o1 == Js.double 1.1 /\ Fabric.scaleY o1 == Js.double 1.1).
Proof.
  intros Hcanvas [Hlo Hhi]. unfold CanvasEditor.onKeyDown. rewrite Hcanvas.
  assert (Hs : 0 < Fabric.scaleX o) by lra.
  assert (Hup : Js.double 1.1 == 2476979795053773 # 2251799813685248)
    by (vm_compute; reflexivity).
  assert (Hdown : Js.double 0.9 == 8106479329266893 # 9007199254740992)
    by (vm_compute; reflexivity).
  set (up := Js.double 1.1) in *. set (down := Js.double 0.9) in *.
  assert (Hup0 : 0 < up) by (rewrite Hup; reflexivity).
  assert (Hdown0 : 0 < down) by (rewrite Hdown; reflexivity).
  destruct (rescaled (Fabric.scaleX o) up Hs Hup0) as (Hheld1 & Hpos1 & H1lo & H1hi).
  destruct (rescaled (Js.double (Fabric.scaleX o * up)) down Hpos1 Hdown0)
    as (Hheld2 & Hpos2 & H2lo & H2hi).
  repeat match goal with |- _ /\ _ => split end.
  - do 2 eexists.
    do 4 (split; [ reflexivity | ]).
    cbn [Fabric.scaleX Fabric.scaleY Fabric.scale].
    rewrite Hheld1, Hheld2.
    set (s := Fabric.scaleX o) in *.
    set (s1 := Js.double (s * up)) in *.
    set (s2 := Js.double (s1 * down)) in *.
    assert (Hsu : s * up == s * (2476979795053773 # 2251799813685248))
      by (rewrite Hup; reflexivity).
    assert (Hsd : s1 * down == s1 * (8106479329266893 # 9007199254740992))
      by (rewrite Hdown; reflexivity).
    repeat match goal with |- _ /\ _ => split end;
      try reflexivity; lra.
  - do 2 eexists.
    do 2 (split; [ reflexivity | ]).
    cbn [Fabric.scaleX Fabric.scaleY Fabric.scale].
    split; vm_compute; [ reflexivity | discriminate ].
  - intros flat Hflat. eexists. split; [ reflexivity | ].
    cbn [Fabric.scaleX Fabric.scaleY Fabric.scale].
    unfold Js.orElse.
    assert (Hb : Qeq_bool (Fabric.scaleX flat) 0 = true) by now apply Qeq_bool_iff.
    rewrite Hb.
    assert (Hone : Fabric.heldScale (Js.double (1 * up)) == up)
      by (vm_compute; reflexivity).
    split; exact Hone.
Qed.

Lemma scale_keys_do_not_undo_witness :
  (exists o1 o2,
     CanvasEditor.onKeyDown readyEditor (Some placedCutout) "+" false = (Some o1, true) /\
     CanvasEditor.onKeyDown readyEditor (Some placedCutout) "=" false = (Some o1, true) /\
     CanvasEditor.onKeyDown readyEditor (Some o1) "-" false = (Some o2, true) /\
     CanvasEditor.onKeyDown readyEditor (Some o1) "_" false = (Some o2, true) /\
     Fabric.scaleY o1 = Fabric.scaleX o1 /\
     Fabric.scaleY o2 = Fabric.scaleX o2 /\
     Fabric.scaleX placedCutout * 1.1 * (1 - (3 # 9007199254740992)) <= Fabric.scaleX o1 /\
     Fabric.scaleX o1 <= Fabric.scaleX placedCutout * 1.1 * (1 + (3 # 9007199254740992)) /\
     Fabric.scaleX placedCutout * 0.99 * (1 - (5 # 9007199254740992)) <= Fabric.scaleX o2 /\
     Fabric.scaleX o2 <= Fabric.scaleX placedCutout * 0.99 * (1 + (5 # 9007199254740992)) /\
     Fabric.scaleX placedCutout < Fabric.scaleX o1 /\
     Fabric.scaleX o2 < Fabric.scaleX placedCutout /\
     Fabric.scale o2 (Fabric.scaleX placedCutout)
       = Fabric.scale placedCutout (Fabric.scaleX placedCutout)) /\
  (exists o1 o2,
     CanvasEditor.onKeyDown readyEditor (Some (Fabric.scale placedCutout 0.5)) "+" false
       = (Some o1, true) /\
     CanvasEditor.onKeyDown readyEditor (Some o1) "-" false = (Some o2, true) /\
     Fabric.scaleX o2 == Js.double 0.49500000000000005 /\
     ~ Fabric.scaleX o2 == Js.double 0.495) /\
  (forall flat, Fabric.scaleX flat == 0 ->
     exists o1,
       CanvasEditor.onKeyDown readyEditor (Some flat) "+" false = (Some o1, true) /\
       Fabric.scaleX o1 == Js.double 1.1 /\ Fabric.scaleY o1 == Js.double 1.1).
Proof.
  apply (scale_keys_do_not_undo readyEditor emptyCanvas placedCutout false).
  - reflexivity.
  - split; discriminate.
Defined.

(* ------------------------------------------------------------------ *)
(** ** Dropping files on the uploader *)

(** X22: a drop hands at most one file to [onImageUpload], and only when
    nothing was rejected: the first accepted file, provided its size is
    within the limit, and then no error is shown; any rejection, or a
    first file over the limit, shows an error and uploads nothing; only an
    empty drop does neither. *)
Theorem drop_uploads_at_most_one (maxSizeInMB : Z) (acceptedFormats : list string)
    (acceptedFiles : list Dom.File) (rejectedFiles : list ImageUploader.FileRejection) :
  (List.length
     (ImageUploader.uploaded
        (ImageUploader.onDrop maxSizeInMB acceptedFormats acceptedFiles rejectedFiles))
   <= 1)%nat /\
  (forall f,
     In f (ImageUploader.uploaded
             (ImageUploader.onDrop maxSizeInMB acceptedFormats acceptedFiles rejectedFiles)) ->
     rejectedFiles = [] /\ hd_error acceptedFiles = Some f /\
     (Dom.file_size f <= maxSizeInMB * 1048576)%Z /\
     ImageUploader.shown
       (ImageUploader.onDrop maxSizeInMB acceptedFormats acceptedFiles rejectedFiles)
     = None) /\
  (rejectedFiles <> [] ->
   ImageUploader.uploaded
     (ImageUploader.onDrop maxSizeInMB acceptedFormats acceptedFiles rejectedFiles) = [] /\
   ImageUploader.shown
     (ImageUploader.onDrop maxSizeInMB acceptedFormats acceptedFiles rejectedFiles)
   <> None) /\
  (forall f rest, rejectedFiles = [] -> acceptedFiles = f :: rest ->
     (maxSizeInMB * 1048576 < Dom.file_size f)%Z ->
     ImageUploader.onDrop maxSizeInMB acceptedFormats acceptedFiles rejectedFiles
     = {| ImageUploader.shown :=
            Some ("File size exceeds " ++ Js.showZ maxSizeInMB ++ "MB limit")%string;
          ImageUploader.uploaded := [] |}) /\
  (ImageUploader.onDrop maxSizeInMB acceptedFormats acceptedFiles rejectedFiles
   = {| ImageUploader.shown := None; ImageUploader.uploaded := [] |} ->
   acceptedFiles = [] /\ rejectedFiles = []).
Proof.
  unfold ImageUploader.onDrop.
  destruct rejectedFiles as [| rejection others].
  - destruct acceptedFiles as [| file rest]; simpl.
    + repeat match goal with |- _ /\ _ => split end;
        try lia; try tauto; try discriminate; intros; try contradiction; auto.
    + destruct (Dom.file_size file >? maxSizeInMB * 1024 * 1024)%Z eqn:Hsize; simpl;
        repeat match goal with |- _ /\ _ => split end;
        try lia; try tauto; try discriminate; intros; try contradiction;
        repeat match goal with
               | H : _ \/ False |- _ => destruct H as [H | []]; subst
               | H : _ :: _ = _ :: _ |- _ => injection H as ? ?; subst
               end;
        try discriminate; repeat split; auto; try lia.
  - destruct (ImageUploader.firstErrorCode rejection) as [code |]; simpl;
      [ destruct (String.eqb code "file-too-large");
        [ | destruct (String.eqb code "file-invalid-type") ] | ];
      simpl;
      repeat match goal with |- _ /\ _ => split end;
      try lia; try tauto; try discriminate; intros; try contradiction;
      try discriminate; (split; [ reflexivity | discriminate ]).
Qed.

(* ------------------------------------------------------------------ *)
(** ** Composing again *)

(** [composeImage] reads nothing of the canvas but its size. *)
Lemma compose_depends_on_size (originOffset : Q -> Q -> Q -> Q -> Q -> Q * Q)
    (c1 c2 : Fabric.Canvas) (fg : Dom.HTMLImageElement) (bg : Background)
    (t : Transform) :
  Fabric.width c1 = Fabric.width c2 -> Fabric.height c1 = Fabric.height c2 ->
  composeImage originOffset c1 fg bg t = composeImage originOffset c2 fg bg t.
Proof.
  intros Hw Hh. unfold composeImage, Fabric.clear.
  destruct bg; simpl; unfold Fabric.centerObject, Fabric.canvasCenter; simpl;
    now rewrite Hw, Hh.
Qed.

Lemma compose_keeps_size (originOffset : Q -> Q -> Q -> Q -> Q -> Q * Q)
    (c : Fabric.Canvas) (fg : Dom.HTMLImageElement) (bg : Background) (t : Transform) :
  Fabric.width (composeImage originOffset c fg bg t) = Fabric.width c /\
  Fabric.height (composeImage originOffset c fg bg t) = Fabric.height c.
Proof. unfold composeImage. destruct bg; split; reflexivity. Qed.

(** A background scale: canvas size over image size, as Fabric holds it. *)
Lemma background_scale (c i : Q) :
  1 <= c <= 4294967296 -> 1 <= i <= 4294967296 ->
  Fabric.heldScale (Js.double (c / i)) == Js.double (c / i) /\
  Qabs (Fabric.heldScale (Js.double (c / i)) * i - c) <= c * (1 # 9007199254740992).
Proof.
  intros [Hc _] [Hi _].
  assert (Hq : 0 < c / i) by (apply Qdiv_pos; lra).
  pose proof (double_pos _ Hq) as Hd.
  pose proof (double_error _ (Qlt_le_weak _ _ Hq)) as [H1 H2].
  assert (Hback : c / i * i == c) by (field; lra).
  apply (Qmult_le_compat_r _ _ i) in H1, H2; try lra.
  rewrite (heldScale_positive _ Hd). split; [ reflexivity | ].
  apply Qabs_Qle_condition. split; nra.
Qed.

(** X23: composing on a canvas that was composed on before gives what
    composing on the original canvas gives: nothing of the earlier
    composition is left, and the canvas keeps its size.  A colour
    background is set as the colour with no background image; an image
    background clears the colour, cannot be selected, and, canvas and
    image being in the range of pixel sizes (from 1 to 2^32), is scaled
    in each direction by canvas size over image size, as a double, so
    that it covers the canvas up to a relative 2^-53, whatever its aspect
    ratio. *)
Theorem recomposing_replaces_everything
    (originOffset : Q -> Q -> Q -> Q -> Q -> Q * Q) (canvas : Fabric.Canvas)
    (fg fg' : Dom.HTMLImageElement) (bg bg' : Background) (t t' : Transform)
    (value : string) (bgImg : Dom.HTMLImageElement) :
  composeImage originOffset (composeImage originOffset canvas fg bg t) fg' bg' t'
    = composeImage originOffset canvas fg' bg' t' /\
  Fabric.width (composeImage originOffset canvas fg bg t) = Fabric.width canvas /\
  Fabric.height (composeImage originOffset canvas fg bg t) = Fabric.height canvas /\
  List.length (Fabric.objects (composeImage originOffset canvas fg bg t)) = 1%nat /\
  (Fabric.backgroundColor (composeImage originOffset canvas fg (color value) t) = value /\
   Fabric.backgroundImage (composeImage originOffset canvas fg (color value) t) = None) /\
  (Fabric.backgroundColor (composeImage originOffset canvas fg (image bgImg) t)
     = ""%string /\
   exists b,
     Fabric.backgroundImage (composeImage originOffset canvas fg (image bgImg) t)
       = Some b /\
     Fabric.element b = bgImg /\
     Fabric.selectable b = false /\ Fabric.evented b = false /\
     (1 <= Fabric.width canvas <= 4294967296 -> 1 <= Dom.width bgImg <= 4294967296 ->
      Fabric.scaleX b == Js.double (Fabric.width canvas / Dom.width bgImg) /\
      Qabs (Fabric.scaleX b * Dom.width bgImg - Fabric.width canvas)
        <= Fabric.width canvas * (1 # 9007199254740992)) /\
     (1 <= Fabric.height canvas <= 4294967296 -> 1 <= Dom.height bgImg <= 4294967296 ->
      Fabric.scaleY b == Js.double (Fabric.height canvas / Dom.height bgImg) /\
      Qabs (Fabric.scaleY b * Dom.height bgImg - Fabric.height canvas)
        <= Fabric.height canvas * (1 # 9007199254740992))).
Proof.
  destruct (compose_keeps_size originOffset canvas fg bg t) as [Hw Hh].
  repeat match goal with |- _ /\ _ => split end; try assumption; try reflexivity.
  - now apply compose_depends_on_size.
  - unfold composeImage. now destruct bg.
  - eexists. split; [ reflexivity | ].
    cbn [Fabric.element Fabric.selectable Fabric.evented Fabric.scaleX Fabric.scaleY
         Fabric.clear Fabric.width Fabric.height].
    repeat match goal with |- _ /\ _ => split end; try reflexivity;
      apply background_scale.
Qed.

(** A 1060 x 700 background on the 800 x 600 canvas: in doubles the scaled
    width is not 800 but the next double above it. *)
Example background_not_exactly_covering :
  exists b,
    Fabric.backgroundImage
      (composeImage topLeftOrigin emptyCanvas smallCutout
         (image (Dom.mkImage "blob:bg" 1060 700)) askedTransform) = Some b /\
    Js.double (Fabric.scaleX b * 1060) == 7036874417766401 # 8796093022208 /\
    800 < Js.double (Fabric.scaleX b * 1060).
Proof. eexists. split; [ reflexivity | ]. split; vm_compute; reflexivity. Qed.

(** X24: once the canvas exists, the commit of an image change composes
    the image to show (the processed one if there is one) and reports
    one transform: the default transform for that image and the canvas
    when the component holds no transform, as for the first image, and
    otherwise the transform it holds, which it keeps, the default for the
    new image not being used then.  A commit in which only a background
    changed composes again with the transform held and reports nothing.
    With no image to show the canvas is emptied onto the grey background,
    nothing is reported and no transform is held afterwards.  Mounting
    with an image, in a window at least 64 pixels wide, reports the
    default transform for it and the canvas created. *)
Theorem image_change_reports_held_transform
    (originOffset : Q -> Q -> Q -> Q -> Q -> Q * Q) (e : CanvasEditor.Editor)
    (canvas : Fabric.Canvas) (p : CanvasEditor.Props) (img : Dom.HTMLImageElement) :
  CanvasEditor.fabricCanvas e = Some canvas ->
  CanvasEditor.isInitialized e = true ->
  CanvasEditor.either (CanvasEditor.p_processedImage p) (CanvasEditor.p_sourceImage p)
    = Some img ->
  (CanvasEditor.currentTransform e = None ->
   CanvasEditor.imagesCommitted originOffset e p
   = ({| CanvasEditor.fabricCanvas :=
           Some (composeImage originOffset canvas img (CanvasEditor.background p)
                   (getDefaultTransform (Dom.width img) (Dom.height img)
                      (Fabric.width canvas) (Fabric.height canvas)));
         CanvasEditor.isInitialized := true;
         CanvasEditor.currentTransform :=
           Some (getDefaultTransform (Dom.width img) (Dom.height img)
                   (Fabric.width canvas) (Fabric.height canvas));
         CanvasEditor.hasInitializedTransform := true |},
      [getDefaultTransform (Dom.width img) (Dom.height img)
         (Fabric.width canvas) (Fabric.height canvas)])) /\
  (forall held, CanvasEditor.currentTransform e = Some held ->
     CanvasEditor.imagesCommitted originOffset e p
     = ({| CanvasEditor.fabricCanvas :=
             Some (composeImage originOffset canvas img (CanvasEditor.background p) held);
           CanvasEditor.isInitialized := true;
           CanvasEditor.currentTransform := Some held;
           CanvasEditor.hasInitializedTransform := true |},
        [held])) /\
  (forall held, CanvasEditor.currentTransform e = Some held ->
     CanvasEditor.hasInitializedTransform e = true ->
     CanvasEditor.backgroundCommitted originOffset e p
     = ({| CanvasEditor.fabricCanvas :=
             Some (composeImage originOffset canvas img (CanvasEditor.background p) held);
           CanvasEditor.isInitialized := true;
           CanvasEditor.currentTransform := Some held;
           CanvasEditor.hasInitializedTransform := true |},
        [])) /\
  (forall q,
     CanvasEditor.either (CanvasEditor.p_processedImage q) (CanvasEditor.p_sourceImage q)
       = None ->
     CanvasEditor.imagesCommitted originOffset e q
     = ({| CanvasEditor.fabricCanvas :=
             Some {| Fabric.width := Fabric.width canvas;
                     Fabric.height := Fabric.height canvas;
                     Fabric.backgroundColor := "#f3f4f6";
                     Fabric.backgroundImage := None;
                     Fabric.objects := [] |};
           CanvasEditor.isInitialized := true;
           CanvasEditor.currentTransform := None;
           CanvasEditor.hasInitializedTransform := false |},
        [])) /\
  (forall innerWidth, (64 <= innerWidth)%Z ->
     exists created,
       CanvasEditor.fabricCanvas (fst (CanvasEditor.mounted originOffset innerWidth p))
         = Some created /\
       CanvasEditor.currentTransform (fst (CanvasEditor.mounted originOffset innerWidth p))
         = Some (getDefaultTransform (Dom.width img) (Dom.height img)
                   (Fabric.width created) (Fabric.height created)) /\
       snd (CanvasEditor.mounted originOffset innerWidth p)
         = [getDefaultTransform (Dom.width img) (Dom.height img)
              (Fabric.width created) (Fabric.height created)]).
Proof.
  intros Hcanvas Hinit Himg.
  unfold CanvasEditor.imagesCommitted, CanvasEditor.backgroundCommitted,
    CanvasEditor.imageChanged.
  repeat match goal with |- _ /\ _ => split end.
  - intros Hnone. unfold CanvasEditor.render.
    cbn [CanvasEditor.fabricCanvas CanvasEditor.isInitialized
         CanvasEditor.currentTransform CanvasEditor.hasInitializedTransform].
    rewrite Hcanvas, Hinit, Himg, Hnone.
    cbn [negb CanvasEditor.rerender fold_left CanvasEditor.setState app
         CanvasEditor.fabricCanvas CanvasEditor.isInitialized
         CanvasEditor.currentTransform CanvasEditor.hasInitializedTransform].
    now rewrite ?Hinit.
  - intros held Hheld. unfold CanvasEditor.render.
    cbn [CanvasEditor.fabricCanvas CanvasEditor.isInitialized
         CanvasEditor.currentTransform CanvasEditor.hasInitializedTransform].
    rewrite Hcanvas, Hinit, Himg, Hheld.
    cbn [negb CanvasEditor.rerender fold_left CanvasEditor.setState app
         CanvasEditor.fabricCanvas CanvasEditor.isInitialized
         CanvasEditor.currentTransform CanvasEditor.hasInitializedTransform].
    now rewrite ?Hinit.
  - intros held Hheld Hdone. unfold CanvasEditor.render.
    rewrite Hcanvas, Hinit, Himg, Hheld, Hdone.
    cbn [negb CanvasEditor.rerender fold_left CanvasEditor.setState app
         CanvasEditor.fabricCanvas CanvasEditor.isInitialized
         CanvasEditor.currentTransform CanvasEditor.hasInitializedTransform].
    now rewrite ?Hinit, ?Hheld, ?Hdone.
  - intros q Hq. unfold CanvasEditor.render.
    cbn [CanvasEditor.fabricCanvas CanvasEditor.isInitialized
         CanvasEditor.currentTransform CanvasEditor.hasInitializedTransform].
    rewrite Hcanvas, Hinit, Hq.
    cbn [negb CanvasEditor.rerender fold_left CanvasEditor.setState app
         CanvasEditor.fabricCanvas CanvasEditor.isInitialized
         CanvasEditor.currentTransform CanvasEditor.hasInitializedTransform].
    now rewrite ?Hinit.
  - intros innerWidth _.
    unfold CanvasEditor.mounted, CanvasEditor.initialize, CanvasEditor.initial.
    cbn [CanvasEditor.fabricCanvas].
    destruct (CanvasEditor.getCanvasSize innerWidth) as [width height].
    unfold CanvasEditor.imageChanged, CanvasEditor.render.
    cbn [CanvasEditor.fabricCanvas CanvasEditor.isInitialized
         CanvasEditor.currentTransform CanvasEditor.hasInitializedTransform
         negb CanvasEditor.rerender app fold_left CanvasEditor.setState].
    rewrite Himg. cbn [negb fst snd app CanvasEditor.rerender fold_left
                       CanvasEditor.setState CanvasEditor.fabricCanvas
                       CanvasEditor.currentTransform].
    eexists. split; [ reflexivity | ].
    destruct (compose_keeps_size originOffset
                (Fabric.newCanvas CanvasEditor.canvasElement (inject_Z width)
                   (inject_Z height) "#f3f4f6")
                img (CanvasEditor.background p)
                (getDefaultTransform (Dom.width img) (Dom.height img)
                   (Fabric.width (Fabric.newCanvas CanvasEditor.canvasElement
                                    (inject_Z width) (inject_Z height) "#f3f4f6"))
                   (Fabric.height (Fabric.newCanvas CanvasEditor.canvasElement
                                     (inject_Z width) (inject_Z height) "#f3f4f6"))))
      as [Hw Hh].
    rewrite Hw, Hh. split; reflexivity.
Qed.

Lemma image_change_reports_held_transform_witness :
  (CanvasEditor.currentTransform readyEditor = None ->
   CanvasEditor.imagesCommitted topLeftOrigin readyEditor secondUploadProps
   = ({| CanvasEditor.fabricCanvas :=
           Some (composeImage topLeftOrigin emptyCanvas secondImage
                   (CanvasEditor.background secondUploadProps)
                   (getDefaultTransform (Dom.width secondImage) (Dom.height secondImage)
                      (Fabric.width emptyCanvas) (Fabric.height emptyCanvas)));
         CanvasEditor.isInitialized := true;
         CanvasEditor.currentTransform :=
           Some (getDefaultTransform (Dom.width secondImage) (Dom.height secondImage)
                   (Fabric.width emptyCanvas) (Fabric.height emptyCanvas));
         CanvasEditor.hasInitializedTransform := true |},
      [getDefaultTransform (Dom.width secondImage) (Dom.height secondImage)
         (Fabric.width emptyCanvas) (Fabric.height emptyCanvas)])) /\
  (forall held, CanvasEditor.currentTransform readyEditor = Some held ->
     CanvasEditor.imagesCommitted topLeftOrigin readyEditor secondUploadProps
     = ({| CanvasEditor.fabricCanvas :=
             Some (composeImage topLeftOrigin emptyCanvas secondImage
                     (CanvasEditor.background secondUploadProps) held);
           CanvasEditor.isInitialized := true;
           CanvasEditor.currentTransform := Some held;
           CanvasEditor.hasInitializedTransform := true |},
        [held])) /\
  (forall held, CanvasEditor.currentTransform readyEditor = Some held ->
     CanvasEditor.hasInitializedTransform readyEditor = true ->
     CanvasEditor.backgroundCommitted topLeftOrigin readyEditor secondUploadProps
     = ({| CanvasEditor.fabricCanvas :=
             Some (composeImage topLeftOrigin emptyCanvas secondImage
                     (CanvasEditor.background secondUploadProps) held);
           CanvasEditor.isInitialized := true;
           CanvasEditor.currentTransform := Some held;
           CanvasEditor.hasInitializedTransform := true |},
        [])) /\
  (forall q,
     CanvasEditor.either (CanvasEditor.p_processedImage q) (CanvasEditor.p_sourceImage q)
       = None ->
     CanvasEditor.imagesCommitted topLeftOrigin readyEditor q
     = ({| CanvasEditor.fabricCanvas :=
             Some {| Fabric.width := Fabric.width emptyCanvas;
                     Fabric.height := Fabric.height emptyCanvas;
                     Fabric.backgroundColor := "#f3f4f6";
                     Fabric.backgroundImage := None;
                     Fabric.objects := [] |};
           CanvasEditor.isInitialized := true;
           CanvasEditor.currentTransform := None;
           CanvasEditor.hasInitializedTransform := false |},
        [])) /\
  (forall innerWidth, (64 <= innerWidth)%Z ->
     exists created,
       CanvasEditor.fabricCanvas
         (fst (CanvasEditor.mounted topLeftOrigin innerWidth secondUploadProps))
         = Some created /\
       CanvasEditor.currentTransform
         (fst (CanvasEditor.mounted topLeftOrigin innerWidth secondUploadProps))
         = Some (getDefaultTransform (Dom.width secondImage) (Dom.height secondImage)
                   (Fabric.width created) (Fabric.height created)) /\
       snd (CanvasEditor.mounted topLeftOrigin innerWidth secondUploadProps)
         = [getDefaultTransform (Dom.width secondImage) (Dom.height secondImage)
              (Fabric.width created) (Fabric.height created)]).
Proof.
  apply (image_change_reports_held_transform topLeftOrigin readyEditor emptyCanvas
           secondUploadProps secondImage);
    reflexivity.
Defined.

(** An editor that holds a transform from an earlier image. *)
Example new_image_keeps_old_transform :
  snd (CanvasEditor.imagesCommitted topLeftOrigin
         {| CanvasEditor.fabricCanvas := Some emptyCanvas;
            CanvasEditor.isInitialized := true;
            CanvasEditor.currentTransform := Some askedTransform;
            CanvasEditor.hasInitializedTransform := true |}
         secondUploadProps)
  = [askedTransform] /\
  askedTransform
  <> getDefaultTransform (Dom.width secondImage) (Dom.height secondImage)
       (Fabric.width emptyCanvas) (Fabric.height emptyCanvas).
Proof. split; [ reflexivity | discriminate ]. Qed.

(* ------------------------------------------------------------------ *)
(** ** The removal endpoint *)

Lemma lookup_write_same (fs : Route.Files) (path data : string) :
  lookup path (Route.write fs path data) = Some data.
Proof. unfold Route.write. simpl. now rewrite String.eqb_refl. Qed.

Lemma lookup_write_other (fs : Route.Files) (path p data : string) :
  p <> path -> lookup p (Route.write fs path data) = lookup p fs.
Proof.
  intros Hne. unfold Route.write. simpl.
  destruct (String.eqb path p) eqn:H.
  - apply String.eqb_eq in H. congruence.
  - now apply lookup_without_other.
Qed.

Lemma lookup_leave_other (fs : Route.Files) (path p : string) (remains : option string) :
  p <> path -> lookup p (Route.leave fs path remains) = lookup p fs.
Proof.
  intros Hne. destruct remains; simpl; [ now apply lookup_write_other | reflexivity ].
Qed.

Lemma lookup_tryUnlink_same (fs : Route.Files) (path : string) :
  lookup path (Route.tryUnlink fs path) = None.
Proof.
  unfold Route.tryUnlink, Route.unlinkSync, Route.existsSync.
  destruct (lookup path fs) eqn:H; [ apply lookup_without_same | exact H ].
Qed.

Lemma lookup_tryUnlink_other (fs : Route.Files) (path p : string) :
  p <> path -> lookup p (Route.tryUnlink fs path) = lookup p fs.
Proof.
  intros Hne. unfold Route.tryUnlink, Route.unlinkSync.
  destruct (Route.existsSync fs path); [ now apply lookup_without_other | reflexivity ].
Qed.

Lemma unlinkSync_inr (fs fs' : Route.Files) (path : string) :
  Route.unlinkSync fs path = inr fs' -> fs' = Route.tryUnlink fs path.
Proof. unfold Route.tryUnlink. now intros ->. Qed.

Lemma append_cancel (p a b : string) : (p ++ a = p ++ b)%string -> a = b.
Proof.
  induction p as [| c p IH]; simpl; intros H; [ exact H | ].
  injection H as H. now apply IH.
Qed.

Lemma temporary_paths_differ (tempDir : string) (now1 now2 : Z) :
  (tempDir ++ "/input-" ++ Js.showZ now1 ++ ".png")%string
  <> (tempDir ++ "/output-" ++ Js.showZ now2 ++ ".png")%string.
Proof.
  intros H. apply append_cancel in H. discriminate H.
Qed.

(** After the clean-up of the [catch] clause neither path is left and
    every other path is as before. *)
Lemma cleanup_removes_both (fs : Route.Files) (input output : string) :
  lookup input (Route.tryUnlink (Route.tryUnlink fs input) output) = None /\
  lookup output (Route.tryUnlink (Route.tryUnlink fs input) output) = None /\
  (forall p, p <> input -> p <> output ->
     lookup p (Route.tryUnlink (Route.tryUnlink fs input) output) = lookup p fs).
Proof.
  repeat split.
  - destruct (String.eqb input output) eqn:H.
    + apply String.eqb_eq in H. subst. apply lookup_tryUnlink_same.
    + apply String.eqb_neq in H.
      rewrite lookup_tryUnlink_other by exact H. apply lookup_tryUnlink_same.
  - apply lookup_tryUnlink_same.
  - intros p H1 H2. now rewrite !lookup_tryUnlink_other.
Qed.

(** X25: whatever the disk and the Python process do, once a request with
    an image has been answered neither temporary file is left in the
    directory and no other file in it has changed; a request without an
    image, or one that cannot be read, touches no file at all. *)
Theorem post_leaves_no_temporary_file (fs : Route.Files) (imageBuffer tempDir : string)
    (now1 now2 : Z) (disk : Route.Disk) (python : Route.Python) :
  lookup (tempDir ++ "/input-" ++ Js.showZ now1 ++ ".png")%string
         (fst (Route.POST fs (Route.Image imageBuffer) tempDir now1 now2 disk python))
    = None /\
  lookup (tempDir ++ "/output-" ++ Js.showZ now2 ++ ".png")%string
         (fst (Route.POST fs (Route.Image imageBuffer) tempDir now1 now2 disk python))
    = None /\
  (forall p,
     p <> (tempDir ++ "/input-" ++ Js.showZ now1 ++ ".png")%string ->
     p <> (tempDir ++ "/output-" ++ Js.showZ now2 ++ ".png")%string ->
     lookup p (fst (Route.POST fs (Route.Image imageBuffer) tempDir now1 now2 disk python))
     = lookup p fs) /\
  fst (Route.POST fs Route.NoImage tempDir now1 now2 disk python) = fs /\
  (forall e, fst (Route.POST fs (Route.Unreadable e) tempDir now1 now2 disk python) = fs).
Proof.
  set (input := (tempDir ++ "/input-" ++ Js.showZ now1 ++ ".png")%string).
  set (output := (tempDir ++ "/output-" ++ Js.showZ now2 ++ ".png")%string).
  assert (Hgoal : forall fs0,
    (forall p, p <> input -> p <> output -> lookup p fs0 = lookup p fs) ->
    lookup input (Route.tryUnlink (Route.tryUnlink fs0 input) output) = None /\
    lookup output (Route.tryUnlink (Route.tryUnlink fs0 input) output) = None /\
    (forall p, p <> input -> p <> output ->
       lookup p (Route.tryUnlink (Route.tryUnlink fs0 input) output) = lookup p fs)).
  { intros fs0 Hsame.
    destruct (cleanup_removes_both fs0 input output) as (H1 & H2 & H3).
    repeat split; try assumption.
    intros p Hp1 Hp2. rewrite H3 by assumption. now apply Hsame. }
  assert (Hwrite : forall p, p <> input -> p <> output ->
            lookup p (Route.write fs input imageBuffer) = lookup p fs).
  { intros p Hp1 _. now apply lookup_write_other. }
  cut (lookup input
         (fst (Route.POST fs (Route.Image imageBuffer) tempDir now1 now2 disk python))
       = None /\
       lookup output
         (fst (Route.POST fs (Route.Image imageBuffer) tempDir now1 now2 disk python))
       = None /\
       (forall p, p <> input -> p <> output ->
          lookup p (fst (Route.POST fs (Route.Image imageBuffer) tempDir now1 now2
                           disk python))
          = lookup p fs)).
  { intros (H1 & H2 & H3). repeat split; assumption. }
  unfold Route.POST. fold input. fold output.
  destruct disk as [| e remains].
  - destruct python as [remains stderr | e remains].
    + set (fs2 := Route.leave (Route.write fs input imageBuffer) output remains).
      assert (Hfs2 : forall p, p <> input -> p <> output -> lookup p fs2 = lookup p fs).
      { intros p Hp1 Hp2. unfold fs2.
        rewrite lookup_leave_other by exact Hp2. now apply Hwrite. }
      destruct (Route.readFileSync fs2 output) as [e | resultBuffer];
        [ now apply Hgoal | ].
      destruct (Route.unlinkSync fs2 input) as [e | fs3] eqn:H3;
        [ now apply Hgoal | ].
      destruct (Route.unlinkSync fs3 output) as [e | fs4] eqn:H4.
      * apply Hgoal. apply unlinkSync_inr in H3. subst fs3.
        intros p Hp1 Hp2. rewrite lookup_tryUnlink_other by exact Hp1. now apply Hfs2.
      * apply unlinkSync_inr in H3, H4. subst fs4 fs3. cbn [fst].
        now apply Hgoal.
    + apply Hgoal. intros p Hp1 Hp2.
      rewrite lookup_leave_other by exact Hp2. now apply Hwrite.
  - apply Hgoal. intros p Hp1 Hp2. now apply lookup_leave_other.
Qed.

(** X26: the endpoint answers 400 when the form holds no image, 500 with
    the error's message when the form cannot be read, the input cannot be
    written or the Python command rejects, and 200 with the saved result
    and its length when the input is written and the command leaves a
    result; it answers 200 in no other case than a written input and a
    resolved command, the body then being the file found at the output
    path. *)
Theorem post_answers (fs : Route.Files) (imageBuffer tempDir : string)
    (now1 now2 : Z) (disk : Route.Disk) (python : Route.Python) :
  snd (Route.POST fs Route.NoImage tempDir now1 now2 disk python)
    = Route.Json 400 "No image file provided" /\
  (forall e,
     snd (Route.POST fs (Route.Unreadable e) tempDir now1 now2 disk python)
     = Route.Json 500 (Route.messageOf e)) /\
  (forall e remains,
     snd (Route.POST fs (Route.Image imageBuffer) tempDir now1 now2
            (Route.WriteThrows e remains) python)
     = Route.Json 500 (Route.messageOf e)) /\
  (forall e remains,
     snd (Route.POST fs (Route.Image imageBuffer) tempDir now1 now2
            Route.Writes (Route.Rejected e remains))
     = Route.Json 500 (Route.messageOf e)) /\
  (forall result stderr,
     snd (Route.POST fs (Route.Image imageBuffer) tempDir now1 now2
            Route.Writes (Route.Resolved (Some result) stderr))
     = Route.Png 200 result (String.length result)) /\
  (forall status body n,
     snd (Route.POST fs (Route.Image imageBuffer) tempDir now1 now2 disk python)
       = Route.Png status body n ->
     status = 200%Z /\ n = String.length body /\ disk = Route.Writes /\
     exists remains stderr,
       python = Route.Resolved remains stderr /\
       (remains = Some body \/
        (remains = None /\
         lookup (tempDir ++ "/output-" ++ Js.showZ now2 ++ ".png")%string fs
           = Some body))).
Proof.
  pose proof (temporary_paths_differ tempDir now1 now2) as Hdiff.
  unfold Route.POST.
  set (input := (tempDir ++ "/input-" ++ Js.showZ now1 ++ ".png")%string) in *.
  set (output := (tempDir ++ "/output-" ++ Js.showZ now2 ++ ".png")%string) in *.
  assert (Hrun : forall remains body,
    lookup output (Route.leave (Route.write fs input imageBuffer) output remains)
      = Some body ->
    match Route.unlinkSync
            (Route.leave (Route.write fs input imageBuffer) output remains) input with
    | inl _ => False
    | inr fs3 =>
        match Route.unlinkSync fs3 output with
        | inl _ => False
        | inr _ => True
        end
    end).
  { intros remains body Hbody. unfold Route.unlinkSync at 1, Route.existsSync.
    rewrite lookup_leave_other, lookup_write_same by exact Hdiff.
    unfold Route.unlinkSync, Route.existsSync.
    rewrite lookup_without_other, Hbody by congruence. exact I. }
  repeat match goal with |- _ /\ _ => split end; try reflexivity.
  - intros result stderr.
    specialize (Hrun (Some result) result (lookup_write_same _ _ _)).
    unfold Route.readFileSync. cbn [Route.leave] in *.
    rewrite lookup_write_same.
    destruct (Route.unlinkSync _ input) as [? | fs3]; [ contradiction | ].
    destruct (Route.unlinkSync fs3 output); [ contradiction | reflexivity ].
  - intros status body n.
    destruct disk as [| e remains]; [ | discriminate ].
    destruct python as [remains stderr | e remains]; [ | discriminate ].
    unfold Route.readFileSync.
    destruct (lookup output (Route.leave (Route.write fs input imageBuffer) output remains))
      as [found |] eqn:Hfound; [ | discriminate ].
    specialize (Hrun remains found Hfound).
    destruct (Route.unlinkSync _ input) as [? | fs3]; [ contradiction | ].
    destruct (Route.unlinkSync fs3 output); [ contradiction | ].
    cbn [snd]. intros H. injection H as <- <- <-.
    repeat split. exists remains, stderr. split; [ reflexivity | ].
    destruct remains as [result |]; cbn [Route.leave] in Hfound.
    + rewrite lookup_write_same in Hfound. left. congruence.
    + rewrite lookup_write_other in Hfound by congruence. right. auto.
Qed.

(* ------------------------------------------------------------------ *)
(** ** What an upload does to the session *)

(** The actions of an upload: a reset, then one more. *)
Lemma upload_dispatches_shape (urls : Orchestration.BlobUrls) (file : Dom.File)
    (w : Orchestration.UploadWorld) :
  exists a,
    Orchestration.dispatches (snd (Orchestration.handleImageUpload urls file w))
      = [RESET; a] /\
    ((exists img f, a = SET_SOURCE_IMAGE img f) \/ (exists m, a = SET_ERROR (Some m))).
Proof.
  assert (Herror : forall m,
    exists a, [RESET; SET_ERROR (Some m)] = [RESET; a] /\
              ((exists img f, a = SET_SOURCE_IMAGE img f) \/
               (exists m', a = SET_ERROR (Some m')))).
  { intros m. eexists. split; [ reflexivity | right; eexists; reflexivity ]. }
  assert (Hsource : forall img f,
    exists a, [RESET; SET_SOURCE_IMAGE img f] = [RESET; a] /\
              ((exists img' f', a = SET_SOURCE_IMAGE img' f') \/
               (exists m', a = SET_ERROR (Some m')))).
  { intros img f. eexists. split; [ reflexivity | left; do 2 eexists; reflexivity ]. }
  unfold Orchestration.handleImageUpload.
  destruct (Orchestration.decoded w) as [[width height] |].
  - destruct (needsResize _ 2048 2048).
    + destruct (resizeImage _ 2048 2048 _) as [e | [[? ?] resizedBlob]].
      * destruct (Orchestration.revokeBlobUrlTracked _ _). simpl.
        rewrite Orchestration_dispatches_revoking. apply Herror.
      * destruct (Orchestration.revokeBlobUrlTracked _ (Orchestration.imageUrl w)).
        destruct (Orchestration.revokeBlobUrlTracked _ (Orchestration.resizedUrl w)).
        simpl. rewrite !Orchestration_dispatches_app. simpl.
        rewrite !Orchestration_dispatches_revoking. simpl.
        destruct (Orchestration.resizedDecoded w) as [[? ?] |];
          [ apply Hsource | apply Herror ].
    + destruct (Orchestration.revokeBlobUrlTracked _ _). simpl.
      rewrite Orchestration_dispatches_revoking. apply Hsource.
  - destruct (Orchestration.revokeBlobUrlTracked _ _). simpl.
    rewrite Orchestration_dispatches_revoking. apply Herror.
Qed.

(** Transform reports change nothing but the transform. *)
Lemma transform_reports_frame (between : list EditorAction) :
  Forall isTransformReport between ->
  forall s,
    sourceImage (dispatchAll s between) = sourceImage s /\
    sourceFile (dispatchAll s between) = sourceFile s /\
    processedImage (dispatchAll s between) = processedImage s /\
    processedBlob (dispatchAll s between) = processedBlob s /\
    backgroundColor (dispatchAll s between) = backgroundColor s /\
    backgroundImage (dispatchAll s between) = backgroundImage s /\
    isProcessing (dispatchAll s between) = isProcessing s /\
    processingProgress (dispatchAll s between) = processingProgress s /\
    error (dispatchAll s between) = error s.
Proof.
  induction 1 as [| a rest [payload ->] _ IH]; intros s; [ repeat split | ].
  change (dispatchAll s (UPDATE_TRANSFORM payload :: rest))
    with (dispatchAll (reduce s (UPDATE_TRANSFORM payload)) rest).
  destruct (IH (reduce s (UPDATE_TRANSFORM payload)))
    as (H1 & H2 & H3 & H4 & H5 & H6 & H7 & H8 & H9).
  rewrite H1, H2, H3, H4, H5, H6, H7, H8, H9. repeat split.
Qed.

(** X27: an upload dispatches [RESET] at once and one more action when its
    image has been decoded, [SET_SOURCE_IMAGE] or [SET_ERROR].  Whatever
    is dispatched in between, a successful upload ends with the new
    source image and file and no error, and a failed one with an error
    showing, no processing and progress 0; either leaves every other
    field as the reset and the dispatches in between left it.  When
    nothing but transform reports of the canvas came in between, the
    processed image and blob and both backgrounds are gone and processing
    has ended, and a failed upload keeps the source the session had; when
    nothing at all came in between, the transform is the initial one as
    well. *)
Theorem upload_discards_previous_work (s : EditorState)
    (urls : Orchestration.BlobUrls) (file : Dom.File) (w : Orchestration.UploadWorld)
    (between : list EditorAction) :
  exists a,
    Orchestration.dispatches (snd (Orchestration.handleImageUpload urls file w))
      = [RESET; a] /\
    ((exists img f,
        a = SET_SOURCE_IMAGE img f /\
        sourceImage (reduce (dispatchAll s (RESET :: between)) a) = Some img /\
        sourceFile (reduce (dispatchAll s (RESET :: between)) a) = Some f /\
        error (reduce (dispatchAll s (RESET :: between)) a) = None /\
        sameOutsideSourceCase (dispatchAll s (RESET :: between))
          (reduce (dispatchAll s (RESET :: between)) a)) \/
     (exists m,
        a = SET_ERROR (Some m) /\
        error (reduce (dispatchAll s (RESET :: between)) a) = Some m /\
        isProcessing (reduce (dispatchAll s (RESET :: between)) a) = false /\
        processingProgress (reduce (dispatchAll s (RESET :: between)) a) = 0 /\
        sameOutsideErrorCase (dispatchAll s (RESET :: between))
          (reduce (dispatchAll s (RESET :: between)) a) /\
        (Forall isTransformReport between ->
         sourceImage (reduce (dispatchAll s (RESET :: between)) a) = sourceImage s /\
         sourceFile (reduce (dispatchAll s (RESET :: between)) a) = sourceFile s))) /\
    (Forall isTransformReport between ->
     processedImage (reduce (dispatchAll s (RESET :: between)) a) = None /\
     processedBlob (reduce (dispatchAll s (RESET :: between)) a) = None /\
     backgroundColor (reduce (dispatchAll s (RESET :: between)) a) = None /\
     backgroundImage (reduce (dispatchAll s (RESET :: between)) a) = None /\
     isProcessing (reduce (dispatchAll s (RESET :: between)) a) = false /\
     processingProgress (reduce (dispatchAll s (RESET :: between)) a) = 0) /\
    (between = [] ->
     transform (reduce (dispatchAll s (RESET :: between)) a) = transform initialState).
Proof.
  destruct (upload_dispatches_shape urls file w) as (a & Hshape & Hkind).
  exists a. split; [ exact Hshape | ].
  change (dispatchAll s (RESET :: between)) with (dispatchAll (reduce s RESET) between).
  set (meanwhile := dispatchAll (reduce s RESET) between).
  assert (Hquiet : Forall isTransformReport between ->
    sourceImage meanwhile = sourceImage s /\ sourceFile meanwhile = sourceFile s /\
    processedImage meanwhile = None /\ processedBlob meanwhile = None /\
    backgroundColor meanwhile = None /\ backgroundImage meanwhile = None /\
    isProcessing meanwhile = false /\ processingProgress meanwhile = 0).
  { intros Hall.
    destruct (transform_reports_frame between Hall (reduce s RESET))
      as (H1 & H2 & H3 & H4 & H5 & H6 & H7 & H8 & _).
    unfold meanwhile. rewrite H1, H2, H3, H4, H5, H6, H7, H8. repeat split. }
  destruct Hkind as [(img & f & ->) | (m & ->)].
  - split; [ left; exists img, f; repeat split | split ].
    + intros Hall. destruct (Hquiet Hall) as (_ & _ & H3 & H4 & H5 & H6 & H7 & H8).
      cbn. rewrite H3, H4, H5, H6, H7, H8. repeat split.
    + intros ->. reflexivity.
  - split; [ right; exists m; do 4 (split; [ reflexivity | ]);
             split; [ repeat split | ] | split ].
    + intros Hall. destruct (Hquiet Hall) as (H1 & H2 & _).
      split; cbn; assumption.
    + intros Hall. destruct (Hquiet Hall) as (_ & _ & H3 & H4 & H5 & H6 & _).
      cbn. rewrite H3, H4, H5, H6. repeat split.
    + intros ->. reflexivity.
Qed.

(* ------------------------------------------------------------------ *)
(** ** The size of the canvas *)

Lemma orElse_inject_Z (n : Z) (d : Q) :
  Js.orElse (inject_Z n) d = if (n =? 0)%Z then d else inject_Z n.
Proof.
  unfold Js.orElse.
  destruct (Qeq_bool (inject_Z n) 0) eqn:Hq, (Z.eqb_spec n 0) as [Hn | Hn];
    try reflexivity; exfalso.
  - apply Qeq_bool_iff in Hq. unfold Qeq in Hq. simpl in Hq. lia.
  - subst n. discriminate Hq.
Qed.

(** X28: for a window at least 64 pixels wide, the canvas created on
    mounting is empty, on the grey background, and never wider than 800
    or higher than 600: from a window width of 640 on it is 800 x 600;
    below that it is 400 high and 64 narrower than the window, except at
    a window width of exactly 64, where the computed width is 0 and
    Fabric takes the element's own width, 300.  Creating the canvas
    queues [isInitialized]; once the canvas exists the effect changes
    and queues nothing. *)
Theorem canvas_size_bounds (innerWidth : Z) (e : CanvasEditor.Editor) :
  (64 <= innerWidth)%Z ->
  (exists created,
     CanvasEditor.initialize CanvasEditor.initial innerWidth
     = ({| CanvasEditor.fabricCanvas := Some created;
           CanvasEditor.isInitialized := false;
           CanvasEditor.currentTransform := None;
           CanvasEditor.hasInitializedTransform := false |},
        [CanvasEditor.SetIsInitialized true]) /\
     Fabric.backgroundColor created = "#f3f4f6"%string /\
     Fabric.backgroundImage created = None /\ Fabric.objects created = [] /\
     0 < Fabric.width created <= 800 /\ 0 < Fabric.height created <= 600 /\
     ((640 <= innerWidth)%Z ->
      Fabric.width created = 800 /\ Fabric.height created = 600) /\
     ((64 < innerWidth < 640)%Z ->
      Fabric.width created = inject_Z (innerWidth - 64) /\
      Fabric.height created = 400) /\
     (innerWidth = 64%Z ->
      Fabric.width created = 300 /\ Fabric.height created = 400)) /\
  (CanvasEditor.fabricCanvas e <> None ->
   CanvasEditor.initialize e innerWidth = (e, [])).
Proof.
  intros Hwide. split.
  - unfold CanvasEditor.initialize, CanvasEditor.getCanvasSize, Fabric.newCanvas.
    cbn [CanvasEditor.initial CanvasEditor.fabricCanvas CanvasEditor.isInitialized
         CanvasEditor.currentTransform CanvasEditor.hasInitializedTransform
         CanvasEditor.canvasElement Dom.canvas_width Dom.canvas_height].
    eexists. split; [ reflexivity | ].
    cbn [Fabric.backgroundColor Fabric.backgroundImage Fabric.objects
         Fabric.width Fabric.height].
    rewrite !orElse_inject_Z.
    destruct (innerWidth <? 640)%Z eqn:Hnarrow.
    + apply Z.ltb_lt in Hnarrow.
      rewrite (Z.min_l (innerWidth - 64) 800), (Z.min_l 400 600) by lia.
      change (400 =? 0)%Z with false. cbv iota.
      destruct (Z.eqb_spec (innerWidth - 64) 0) as [Hzero | Hnot].
      * repeat match goal with |- _ /\ _ => split end;
          try reflexivity; try (intros; lia); try (vm_compute; discriminate).
        intros _. split; reflexivity.
      * assert (Hpos : 0 < inject_Z (innerWidth - 64)) by (apply inject_Z_pos; lia).
        assert (Hle : inject_Z (innerWidth - 64) <= 800).
        { change 800 with (inject_Z 800). rewrite <- Zle_Qle. lia. }
        repeat match goal with |- _ /\ _ => split end;
          try reflexivity; try assumption; try (intros; lia);
          try (vm_compute; discriminate).
        intros _. split; reflexivity.
    + apply Z.ltb_ge in Hnarrow.
      repeat match goal with |- _ /\ _ => split end;
        try reflexivity; try (intros; lia); try (vm_compute; discriminate).
      intros _. split; reflexivity.
  - intros Hexists. unfold CanvasEditor.initialize.
    destruct (CanvasEditor.fabricCanvas e); [ reflexivity | contradiction ].
Qed.

Lemma canvas_size_bounds_witness :
  (exists created,
     CanvasEditor.initialize CanvasEditor.initial 64
     = ({| CanvasEditor.fabricCanvas := Some created;
           CanvasEditor.isInitialized := false;
           CanvasEditor.currentTransform := None;
           CanvasEditor.hasInitializedTransform := false |},
        [CanvasEditor.SetIsInitialized true]) /\
     Fabric.backgroundColor created = "#f3f4f6"%string /\
     Fabric.backgroundImage created = None /\ Fabric.objects created = [] /\
     0 < Fabric.width created <= 800 /\ 0 < Fabric.height created <= 600 /\
     ((640 <= 64)%Z ->
      Fabric.width created = 800 /\ Fabric.height created = 600) /\
     ((64 < 64 < 640)%Z ->
      Fabric.width created = inject_Z (64 - 64) /\
      Fabric.height created = 400) /\
     (64%Z = 64%Z ->
      Fabric.width created = 300 /\ Fabric.height created = 400)) /\
  (CanvasEditor.fabricCanvas readyEditor <> None ->
   CanvasEditor.initialize readyEditor 64 = (readyEditor, [])).
Proof.
  apply (canvas_size_bounds 64 readyEditor). lia.
Defined.
